(** * LC-3 virtual machine (lc3-vm.c): shallow embedding and verified properties

    The C program keeps two global arrays, [memory] and [reg], a local
    [running] flag in [main], and talks to a terminal through [select],
    [getchar], [putc], [printf] and [puts].  The embedding threads all of
    this through one [state] record with a small state-and-fault monad.

    Conventions of the embedding:
    - a [uint16_t] is a [Z] in [0, 65536); every conversion to [uint16_t]
      that the C code performs (assignment, argument passing) is written
      out as [u16];
    - an array is a [list Z] of the declared length, indexed with stdpp's
      lookup and insert; an access outside the declared length is undefined
      behaviour in C and is a [Fault OutOfBounds] here;
    - the terminal is the sequence of bytes typed and not yet consumed
      ([stdin]) and the list of bytes written so far ([stdout]).  [getchar]
      takes the first byte and, with none, waits for ever
      ([Fault InputBlocked]): the terminal stays open, the end of the input
      is not modelled.  [select] is taken to report a byte whenever one is
      waiting in [stdin]; the bytes the C library may already have read
      ahead into its buffer, which [select] cannot see, are not told apart
      from those still in the terminal;
    - [abort()] is [Fault IllegalOpcode]. *)

From Stdlib Require Import ZArith Zbitwise Lia String Ascii.
From stdpp Require Import base tactics option list.

Local Open Scope Z_scope.

(** ** Constants of the C file *)

Definition UINT16_MAX : Z := 65535.

(* enum: registers *)
Definition R_R0 : Z := 0.
Definition R_R1 : Z := 1.
Definition R_R2 : Z := 2.
Definition R_R3 : Z := 3.
Definition R_R4 : Z := 4.
Definition R_R5 : Z := 5.
Definition R_R6 : Z := 6.
Definition R_R7 : Z := 7.
Definition R_PC : Z := 8.
Definition R_COND : Z := 9.
Definition R_COUNT : Z := 10.

(* enum: opcodes, in declaration order, OP_BR = 0 *)
Inductive opcode : Type :=
  | OP_BR | OP_ADD | OP_LD | OP_ST | OP_JSR | OP_AND | OP_LDR | OP_STR
  | OP_RTI | OP_NOT | OP_LDI | OP_STI | OP_JMP | OP_RES | OP_LEA | OP_TRAP.

Definition opcode_value (o : opcode) : Z :=
  match o with
  | OP_BR => 0 | OP_ADD => 1 | OP_LD => 2 | OP_ST => 3
  | OP_JSR => 4 | OP_AND => 5 | OP_LDR => 6 | OP_STR => 7
  | OP_RTI => 8 | OP_NOT => 9 | OP_LDI => 10 | OP_STI => 11
  | OP_JMP => 12 | OP_RES => 13 | OP_LEA => 14 | OP_TRAP => 15
  end.

(* the [switch (op)]: which [case] label a value selects; [None] is the
   [default:] label *)
Definition opcode_of (op : Z) : option opcode :=
  match op with
  | 0 => Some OP_BR | 1 => Some OP_ADD | 2 => Some OP_LD | 3 => Some OP_ST
  | 4 => Some OP_JSR | 5 => Some OP_AND | 6 => Some OP_LDR | 7 => Some OP_STR
  | 8 => Some OP_RTI | 9 => Some OP_NOT | 10 => Some OP_LDI | 11 => Some OP_STI
  | 12 => Some OP_JMP | 13 => Some OP_RES | 14 => Some OP_LEA
  | 15 => Some OP_TRAP
  | _ => None
  end.

(* enum: condition flags *)
Definition FL_POS : Z := Z.shiftl 1 0.
Definition FL_ZRO : Z := Z.shiftl 1 1.
Definition FL_NEG : Z := Z.shiftl 1 2.

(* enum: memory mapped registers *)
Definition MR_KBSR : Z := 0xFE00.
Definition MR_KBDR : Z := 0xFE02.

(* enum: trap codes *)
Inductive trap : Type :=
  | TRAP_GETC | TRAP_OUT | TRAP_PUTS | TRAP_IN | TRAP_PUTSP | TRAP_HALT.

Definition trap_value (t : trap) : Z :=
  match t with
  | TRAP_GETC => 0x20 | TRAP_OUT => 0x21 | TRAP_PUTS => 0x22
  | TRAP_IN => 0x23 | TRAP_PUTSP => 0x24 | TRAP_HALT => 0x25
  end.

(* the inner [switch (trap_code)], which has no [default:] label *)
Definition trap_of (code : Z) : option trap :=
  match code with
  | 0x20 => Some TRAP_GETC | 0x21 => Some TRAP_OUT | 0x22 => Some TRAP_PUTS
  | 0x23 => Some TRAP_IN | 0x24 => Some TRAP_PUTSP | 0x25 => Some TRAP_HALT
  | _ => None
  end.

Definition PC_START : Z := 0x3000.

(** ** Integer conversions *)

(* conversion to uint16_t *)
Definition u16 (z : Z) : Z := z mod 65536.

(* conversion to unsigned char, as [putc] does with its int argument *)
Definition u8 (z : Z) : Z := z mod 256.

(* conversion to [char], a signed 8-bit type on the x86-64 ABI *)
Definition to_char (z : Z) : Z :=
  let b := z mod 256 in if b <? 128 then b else b - 256.

(** ** Pure helpers *)

(* The operands are promoted to [int]; the result is converted back to
   uint16_t by the assignment to [x].  For [bit_count <= 15] the shifted
   constant fits an [int]; at 16 the model keeps the wrapped value. *)
Definition sign_extend (x : Z) (bit_count : Z) : Z :=
  if negb (Z.land (Z.shiftr x (bit_count - 1)) 1 =? 0)
  then u16 (Z.lor x (Z.shiftl 0xFFFF bit_count))
  else x.

Definition swap16 (x : Z) : Z :=
  u16 (Z.lor (Z.shiftl x 8) (Z.shiftr x 8)).

(** ** Machine state *)

(* [uint16_t memory[UINT16_MAX]]: the declared element count *)
Definition MEMORY_LEN : nat := Z.to_nat UINT16_MAX.

(* [uint16_t reg[R_COUNT]] *)
Definition REG_LEN : nat := Z.to_nat R_COUNT.

Record state : Type := mkState {
  memory : list Z;    (* the global array [memory] *)
  reg : list Z;       (* the global array [reg] *)
  running : bool;     (* the local [running] of [main] *)
  stdin : list Z;     (* bytes typed ahead on the terminal *)
  stdout : list Z     (* bytes written so far *)
}.

Definition with_memory (m : list Z) (s : state) : state :=
  mkState m (reg s) (running s) (stdin s) (stdout s).
Definition with_reg (r : list Z) (s : state) : state :=
  mkState (memory s) r (running s) (stdin s) (stdout s).
Definition with_running (b : bool) (s : state) : state :=
  mkState (memory s) (reg s) b (stdin s) (stdout s).
Definition with_stdin (i : list Z) (s : state) : state :=
  mkState (memory s) (reg s) (running s) i (stdout s).
Definition with_stdout (o : list Z) (s : state) : state :=
  mkState (memory s) (reg s) (running s) (stdin s) o.

(* The arrays have their declared lengths. *)
Definition wf (s : state) : Prop :=
  length (memory s) = MEMORY_LEN ∧ length (reg s) = REG_LEN.

(** ** The state-and-fault monad *)

Inductive fault : Type :=
  | OutOfBounds     (* array access outside the declared length *)
  | Uninitialised   (* a result that depends on a variable never assigned *)
  | InputBlocked    (* [getchar] with nothing to read *)
  | IllegalOpcode.  (* [abort()] *)

Inductive outcome (A : Type) : Type :=
  | Ok (a : A) (s : state)
  | Fault (f : fault) (s : state).
Arguments Ok {A} a s.
Arguments Fault {A} f s.

Definition M (A : Type) : Type := state → outcome A.

#[global] Instance M_ret : MRet M := λ A a s, Ok a s.
#[global] Instance M_bind : MBind M := λ A B f m s,
  match m s with
  | Ok a s' => f a s'
  | Fault e s' => Fault e s'
  end.

Definition raise {A} (e : fault) : M A := λ s, Fault e s.

(** *** Array cells *)

(* [memory[a]] as an rvalue *)
Definition load_mem (a : Z) : M Z := λ s,
  match memory s !! Z.to_nat a with
  | Some v => Ok v s
  | None => Fault OutOfBounds s
  end.

(* [memory[a] = v] *)
Definition store_mem (a v : Z) : M unit := λ s,
  match memory s !! Z.to_nat a with
  | Some _ => Ok tt (with_memory (<[Z.to_nat a := v]> (memory s)) s)
  | None => Fault OutOfBounds s
  end.

(* [reg[r]] as an rvalue *)
Definition load_reg (r : Z) : M Z := λ s,
  match reg s !! Z.to_nat r with
  | Some v => Ok v s
  | None => Fault OutOfBounds s
  end.

(* [reg[r] = v] *)
Definition store_reg (r v : Z) : M unit := λ s,
  match reg s !! Z.to_nat r with
  | Some _ => Ok tt (with_reg (<[Z.to_nat r := v]> (reg s)) s)
  | None => Fault OutOfBounds s
  end.

(** *** The terminal *)

(* [select] with a zero timeout on the standard input: whether a byte is
   waiting.  Bytes read ahead by the C library count as waiting here. *)
Definition check_key : M bool := λ s,
  Ok (match stdin s with [] => false | _ :: _ => true end) s.

(* the next byte typed; on a terminal left open with nothing typed the call
   does not return *)
Definition getchar : M Z := λ s,
  match stdin s with
  | b :: rest => Ok b (with_stdin rest s)
  | [] => Fault InputBlocked s
  end.

Definition putc (c : Z) : M unit := λ s,
  Ok tt (with_stdout (stdout s ++ [u8 c]) s).

Definition bytes_of_string (str : string) : list Z :=
  (λ c, Z.of_N (N_of_ascii c)) <$> list_ascii_of_string str.

(* [printf] of a literal without conversions *)
Definition printf (str : string) : M unit := λ s,
  Ok tt (with_stdout (stdout s ++ bytes_of_string str) s).

(* [puts]: the string and a newline *)
Definition puts (str : string) : M unit := λ s,
  Ok tt (with_stdout (stdout s ++ bytes_of_string str ++ [10]) s).

(** ** Functions of the C file *)

Definition update_flags (r : Z) : M unit :=
  v ← load_reg r;
  if v =? 0 then store_reg R_COND FL_ZRO
  else if negb (Z.shiftr v 15 =? 0) then store_reg R_COND FL_NEG
  else store_reg R_COND FL_POS.

Definition mem_write (address val : Z) : M unit :=
  store_mem address val.

Definition mem_read (address : Z) : M Z :=
  (if address =? MR_KBSR then
     k ← check_key;
     if k : bool then
       store_mem MR_KBSR (u16 (Z.shiftl 1 15));;
       c ← getchar;
       store_mem MR_KBDR (u16 c)
     else store_mem MR_KBSR 0
   else mret tt);;
  load_mem address.

(** *** The image loader *)

(* [fread(buf, sizeof(uint16_t), n, file)] on a little-endian host: the
   complete two-byte elements it read, at most [n], each assembled low byte
   first; the single byte of a last, partial element, when the file ends in
   the middle of one; and the bytes left unread.  The return value of
   [fread] is the number of complete elements. *)
Fixpoint fread16 (n : nat) (bytes : list Z)
    : list Z * option Z * list Z :=
  match n, bytes with
  | S n', b0 :: b1 :: rest =>
      let '(ws, partial, rest') := fread16 n' rest in
      (Z.lor b0 (Z.shiftl b1 8) :: ws, partial, rest')
  | S _, [b] => ([], Some b, [])
  | _, _ => ([], None, bytes)
  end.

(* [fread] stores what it read in consecutive cells from [p] on *)
Fixpoint store_block (p : Z) (ws : list Z) : M unit :=
  match ws with
  | [] => mret tt
  | w :: ws' => store_mem p w;; store_block (p + 1) ws'
  end.

(* [while (read-- > 0) { *p = swap16( *p); ++p; }] *)
Fixpoint swap_loop (read : nat) (p : Z) : M unit :=
  match read with
  | O => mret tt
  | S read' =>
      x ← load_mem p;
      store_mem p (swap16 x);;
      swap_loop read' (p + 1)
  end.

(* [fread] copies the byte of a partial element too: it lands in the low
   byte of the cell after the complete ones, whose high byte is kept *)
Definition store_partial (p : Z) (partial : option Z) : M unit :=
  match partial with
  | None => mret tt
  | Some b =>
      x ← load_mem p;
      store_mem p (Z.lor (Z.land x 0xFF00) b)
  end.

(* The file is the list of its bytes.  The local [origin] has no
   initialiser: [junk] is the value it holds before the first [fread], which
   replaces it, or its low byte only when the file has a single byte, or
   nothing of it when the file is empty. *)
Definition read_image_file_from (junk : Z) (file : list Z) : M unit :=
  let '(header, partial, rest) := fread16 1 file in
  let origin :=
    match header, partial with
    | w :: _, _ => w
    | [], Some b => Z.lor (Z.land junk 0xFF00) b
    | [], None => junk
    end in
  let origin := swap16 origin in
  let max_read := u16 (UINT16_MAX - origin) in
  let '(ws, partial, _) := fread16 (Z.to_nat max_read) rest in
  store_block origin ws;;
  store_partial (origin + Z.of_nat (length ws)) partial;;
  swap_loop (length ws) origin.

(* What the function does is the same for every value of [junk] (lemma
   [read_image_file_from_junk] below); 0 stands for it here. *)
Definition read_image_file (file : list Z) : M unit :=
  read_image_file_from 0 file.

(** *** The instruction cycle *)

Definition fflush : M unit := mret tt.

(* the cells a pointer [memory + a] walks over when it is incremented *)
Definition cells_from (a : Z) : M (list Z) := λ s,
  Ok (drop (Z.to_nat a) (memory s)) s.

(* TRAP_PUTS: [while ( *c) { putc((char)*c, stdout); ++c; }]; running off
   the end of the array is an access out of bounds *)
Fixpoint puts_loop (cells : list Z) : M unit :=
  match cells with
  | [] => raise OutOfBounds
  | w :: rest =>
      if negb (w =? 0) then putc (to_char w);; puts_loop rest
      else mret tt
  end.

(* TRAP_PUTSP: two characters per word, the high one only when non-zero *)
Fixpoint putsp_loop (cells : list Z) : M unit :=
  match cells with
  | [] => raise OutOfBounds
  | w :: rest =>
      if negb (w =? 0) then
        let char1 := to_char (Z.land w 0xFF) in
        putc char1;;
        let char2 := to_char (Z.shiftr w 8) in
        (if negb (char2 =? 0) then putc char2 else mret tt);;
        putsp_loop rest
      else mret tt
  end.

Definition set_running (b : bool) : M unit := λ s, Ok tt (with_running b s).

Definition execute_trap (instr : Z) : M unit :=
  let trap_code := Z.land instr 0xFF in
  pc ← load_reg R_PC;
  store_reg R_R7 pc;;
  match trap_of trap_code with
  | Some TRAP_GETC =>
      c ← getchar;
      store_reg R_R0 (u16 c)
  | Some TRAP_OUT =>
      r ← load_reg R_R0;
      putc (to_char r);;
      fflush
  | Some TRAP_PUTS =>
      r ← load_reg R_R0;
      cells ← cells_from r;
      puts_loop cells;;
      fflush
  | Some TRAP_IN =>
      printf "Enter a character: ";;
      c ← getchar;
      let c := to_char c in
      putc c;;
      store_reg R_R0 (u16 c)
  | Some TRAP_PUTSP =>
      r ← load_reg R_R0;
      cells ← cells_from r;
      putsp_loop cells;;
      fflush
  | Some TRAP_HALT =>
      puts "HALT";;
      fflush;;
      set_running false
  | None => mret tt
  end.

(* the body of [switch (op)] for the fetched word [instr] *)
Definition execute (instr : Z) : M unit :=
  let op := Z.shiftr instr 12 in
  match opcode_of op with
  | Some OP_ADD =>
      let r0 := Z.land (Z.shiftr instr 9) 0x7 in
      let r1 := Z.land (Z.shiftr instr 6) 0x7 in
      let imm_flag := Z.land (Z.shiftr instr 5) 0x1 in
      (if negb (imm_flag =? 0) then
         let imm5 := sign_extend (Z.land instr 0x1F) 5 in
         a ← load_reg r1;
         store_reg r0 (u16 (a + imm5))
       else
         let r2 := Z.land instr 0x7 in
         a ← load_reg r1;
         b ← load_reg r2;
         store_reg r0 (u16 (a + b)));;
      update_flags r0
  | Some OP_AND =>
      let r0 := Z.land (Z.shiftr instr 9) 0x7 in
      let r1 := Z.land (Z.shiftr instr 6) 0x7 in
      let imm_flag := Z.land (Z.shiftr instr 5) 0x1 in
      (if negb (imm_flag =? 0) then
         let imm5 := sign_extend (Z.land instr 0x1F) 5 in
         a ← load_reg r1;
         store_reg r0 (u16 (Z.land a imm5))
       else
         let r2 := Z.land instr 0x7 in
         a ← load_reg r1;
         b ← load_reg r2;
         store_reg r0 (u16 (Z.land a b)));;
      update_flags r0
  | Some OP_NOT =>
      let r0 := Z.land (Z.shiftr instr 9) 0x7 in
      let r1 := Z.land (Z.shiftr instr 6) 0x7 in
      a ← load_reg r1;
      store_reg r0 (u16 (Z.lnot a));;
      update_flags r0
  | Some OP_BR =>
      let pc_offset := sign_extend (Z.land instr 0x1FF) 9 in
      let cond := Z.land (Z.shiftr instr 9) 0x7 in
      c ← load_reg R_COND;
      if negb (Z.land cond c =? 0) then
        pc ← load_reg R_PC;
        store_reg R_PC (u16 (pc + pc_offset))
      else mret tt
  | Some OP_JMP =>
      let r1 := Z.land (Z.shiftr instr 6) 0x7 in
      a ← load_reg r1;
      store_reg R_PC a
  | Some OP_JSR =>
      let r1 := Z.land (Z.shiftr instr 6) 0x7 in
      let pc_offset_long := sign_extend (Z.land instr 0x7FF) 11 in
      let flag := Z.land (Z.shiftr instr 11) 1 in
      pc ← load_reg R_PC;
      store_reg R_R7 pc;;
      if negb (flag =? 0) then
        pc ← load_reg R_PC;
        store_reg R_PC (u16 (pc + pc_offset_long))
      else
        a ← load_reg r1;
        store_reg R_PC a
  | Some OP_LD =>
      let r0 := Z.land (Z.shiftr instr 9) 0x7 in
      let pc_offset := sign_extend (Z.land instr 0x1FF) 9 in
      pc ← load_reg R_PC;
      v ← mem_read (u16 (pc + pc_offset));
      store_reg r0 v;;
      update_flags r0
  | Some OP_LDI =>
      let r0 := Z.land (Z.shiftr instr 9) 0x7 in
      let pc_offset := sign_extend (Z.land instr 0x1FF) 9 in
      pc ← load_reg R_PC;
      a ← mem_read (u16 (pc + pc_offset));
      v ← mem_read a;
      store_reg r0 v;;
      update_flags r0
  | Some OP_LDR =>
      let r0 := Z.land (Z.shiftr instr 9) 0x7 in
      let r1 := Z.land (Z.shiftr instr 6) 0x7 in
      let pc_offset_short := sign_extend (Z.land instr 0x3F) 6 in
      b ← load_reg r1;
      v ← mem_read (u16 (b + pc_offset_short));
      store_reg r0 v;;
      update_flags r0
  | Some OP_LEA =>
      let r0 := Z.land (Z.shiftr instr 9) 0x7 in
      let pc_offset := sign_extend (Z.land instr 0x1FF) 9 in
      pc ← load_reg R_PC;
      store_reg r0 (u16 (pc + pc_offset));;
      update_flags r0
  | Some OP_ST =>
      let r0 := Z.land (Z.shiftr instr 9) 0x7 in
      let pc_offset := sign_extend (Z.land instr 0x1FF) 9 in
      pc ← load_reg R_PC;
      v ← load_reg r0;
      mem_write (u16 (pc + pc_offset)) v
  | Some OP_STI =>
      let r0 := Z.land (Z.shiftr instr 9) 0x7 in
      let pc_offset := sign_extend (Z.land instr 0x1FF) 9 in
      pc ← load_reg R_PC;
      a ← mem_read (u16 (pc + pc_offset));
      v ← load_reg r0;
      mem_write a v
  | Some OP_STR =>
      let r0 := Z.land (Z.shiftr instr 9) 0x7 in
      let r1 := Z.land (Z.shiftr instr 6) 0x7 in
      let pc_offset_short := sign_extend (Z.land instr 0x3F) 6 in
      b ← load_reg r1;
      v ← load_reg r0;
      mem_write (u16 (b + pc_offset_short)) v
  | Some OP_TRAP => execute_trap instr
  | Some OP_RES | Some OP_RTI | None => raise IllegalOpcode
  end.

(* [uint16_t instr = mem_read(reg[R_PC]++)]: the increment is complete
   before [mem_read] is entered *)
Definition fetch : M Z :=
  pc ← load_reg R_PC;
  store_reg R_PC (u16 (pc + 1));;
  mem_read pc.

(* one iteration of [while (running)] *)
Definition cycle : M unit :=
  instr ← fetch;
  execute instr.

Fixpoint run (fuel : nat) : M unit :=
  match fuel with
  | O => mret tt
  | S fuel' => λ s,
      if running s then (cycle;; run fuel') s else Ok tt s
  end.

(** *** Program start *)

(* static storage is zero-initialised; [int running = 1] *)
Definition power_on (input : list Z) : state :=
  mkState (replicate MEMORY_LEN 0) (replicate REG_LEN 0) true input [].

Fixpoint load_images (files : list (list Z)) : M unit :=
  match files with
  | [] => mret tt
  | file :: files' => read_image_file file;; load_images files'
  end.

(* [main] up to the first test of [while (running)] *)
Definition main_setup (files : list (list Z)) : M unit :=
  load_images files;;
  store_reg R_PC PC_START.

Definition main (fuel : nat) (files : list (list Z)) : M unit :=
  main_setup files;;
  run fuel.

(** ** Vocabulary of the statements *)

(* the image file format: big-endian 16-bit words, the origin first *)
Definition be16 (w : Z) : list Z := [Z.shiftr w 8; Z.land w 0xFF].

Definition image_bytes (origin : Z) (ws : list Z) : list Z :=
  be16 origin ++ (ws ≫= be16).

(* what [fread] assembles on the host from the two bytes of [be16 w] *)
Definition as_read (w : Z) : Z :=
  Z.lor (Z.shiftr w 8) (Z.shiftl (Z.land w 0xFF) 8).

Definition is_u16 (v : Z) : Prop := 0 ≤ v < 65536.

Definition is_flag (c : Z) : Prop := c = FL_POS ∨ c = FL_ZRO ∨ c = FL_NEG.

(* the COND register holds a value that satisfies [F] *)
Definition cond_in (F : Z → Prop) (s : state) : Prop :=
  ∃ c, reg s !! Z.to_nat R_COND = Some c ∧ F c.

(* the state in which [while (running)] is tested for the first time *)
Definition loop_entry (s : state) : Prop :=
  reg s = <[Z.to_nat R_PC := PC_START]> (replicate REG_LEN 0)
  ∧ running s = true.

(* the states the loop of [main] goes through, one [cycle] at a time *)
Inductive reachable (s0 : state) : state → Prop :=
  | reach_entry : reachable s0 s0
  | reach_cycle s s' :
      reachable s0 s → running s = true → cycle s = Ok tt s' →
      reachable s0 s'.

(* a computation that keeps a property of the state whenever it returns *)
Definition preserves {A} (P : state → Prop) (m : M A) : Prop :=
  ∀ s a s', P s → m s = Ok a s' → P s'.

(** *** Concrete machines used in the examples *)

Definition set_pc (pc : Z) (s : state) : state :=
  with_reg (<[Z.to_nat R_PC := pc]> (reg s)) s.

Definition poke (a v : Z) (s : state) : state :=
  with_memory (<[Z.to_nat a := v]> (memory s)) s.

(* PC = 0x3000, every other register and every cell zero, no input *)
Definition idle_machine : state := set_pc PC_START (power_on []).

(* [JSR #5] at 0x3000 *)
Definition jsr_machine : state := poke 0x3000 0x4805 idle_machine.

(* [TRAP x00] at 0x3000: a vector without a handler *)
Definition trap0_machine : state := poke 0x3000 0xF000 idle_machine.


(* R3 = 0x8000 *)
Definition r3_machine : state :=
  with_reg (<[Z.to_nat R_R3 := 0x8000]> (reg idle_machine)) idle_machine.

(* an image of two words whose origin is 0xFFFE: its last word belongs at
   address 0xFFFF *)
Definition top_image : list Z := image_bytes 0xFFFE [0x1234; 0x5678].

(* LEA R0,#2; TRAP x22 (PUTS); TRAP x25 (HALT); then the words 'H', 'I', 0;
   loaded at 0x3000 *)
Definition hello_image : list Z :=
  image_bytes 0x3000 [0xE002; 0xF022; 0xF025; 0x0048; 0x0049; 0x0000].

(* PC at the keyboard status register, the key 'a' waiting *)
Definition kbsr_machine : state := set_pc MR_KBSR (power_on [97]).

(** *** Reading the arrays in statements *)

(* [reg[r]] and [memory[a]] of a state, 0 where there is no such cell *)
Definition get_reg (r : Z) (s : state) : Z :=
  default 0 (reg s !! Z.to_nat r).

Definition get_mem (a : Z) (s : state) : Z :=
  default 0 (memory s !! Z.to_nat a).

Definition set_reg (r v : Z) (s : state) : state :=
  with_reg (<[Z.to_nat r := v]> (reg s)) s.

(* the flag [update_flags] chooses for a register that holds [v] *)
Definition flag_of (v : Z) : Z :=
  if v =? 0 then FL_ZRO
  else if negb (Z.shiftr v 15 =? 0) then FL_NEG
  else FL_POS.

(* a machine given by its ten registers, the non-zero cells of its memory
   and the bytes typed ahead *)
Definition machine (regs : list Z) (cells : list (Z * Z)) (input : list Z)
    : state :=
  mkState
    (foldr (λ c m, <[Z.to_nat c.1 := c.2]> m) (replicate MEMORY_LEN 0) cells)
    regs true input [].

(* no register set but the PC, the word 0x1111 at 0x4000, nothing typed *)
Definition data_machine : state :=
  machine [0; 0; 0; 0; 0; 0; 0; 0; 0x3000; 0] [(0x4000, 0x1111)] [].

(** *** Instruction fields *)

Definition DR (instr : Z) : Z := Z.land (Z.shiftr instr 9) 0x7.
Definition SR1 (instr : Z) : Z := Z.land (Z.shiftr instr 6) 0x7.
Definition SR2 (instr : Z) : Z := Z.land instr 0x7.
Definition imm5 (instr : Z) : Z := sign_extend (Z.land instr 0x1F) 5.
Definition off6 (instr : Z) : Z := sign_extend (Z.land instr 0x3F) 6.
Definition off9 (instr : Z) : Z := sign_extend (Z.land instr 0x1FF) 9.
Definition off11 (instr : Z) : Z := sign_extend (Z.land instr 0x7FF) 11.

(* R1 = 5, R3 = 0xFFFF, R7 = 0x1234, PC = 0x3001, COND = POS *)
Definition alu_machine : state :=
  machine [0; 5; 0; 0xFFFF; 0; 0; 0; 0x1234; 0x3001; 1] [] [].

(* [JSR #2] at 0x3000 and [RET] (JMP R7) at its target 0x3003 *)
Definition call_machine : state :=
  machine [0; 0; 0; 0; 0; 0; 0; 0; 0x3000; 0]
    [(0x3000, 0x4802); (0x3003, 0xC1C0)] [].

(* [LDI R2,#1] at 0x3000; the pointer 0x4000 at 0x3002; 0xBEEF at 0x4000;
   the PC already incremented *)
Definition ldi_machine : state :=
  machine [0; 0; 0; 0; 0; 0; 0; 0; 0x3001; 0]
    [(0x3000, 0xA401); (0x3002, 0x4000); (0x4000, 0xBEEF)] [].

(* [STR R0,R6,#1] at 0x3000 and [LDR R1,R6,#1] at 0x3001, R0 = 0xABCD,
   R6 = 0x5000 *)
Definition stack_machine : state :=
  machine [0xABCD; 0; 0; 0; 0; 0; 0x5000; 0; 0x3000; 0]
    [(0x3000, 0x7181); (0x3001, 0x6381)] [].

(* an address that is a cell of the array and not the keyboard status *)
Definition plain_cell (a : Z) : Prop := 0 ≤ a < 65535 ∧ a ≠ MR_KBSR.

Definition plain_cellb (a : Z) : bool :=
  (0 <=? a) && (a <? 65535) && negb (a =? MR_KBSR).

(** *** Classes of instructions *)

(* the opcode a fetched word selects in [switch (op)] *)
Definition decode (instr : Z) : option opcode :=
  opcode_of (Z.shiftr instr 12).

(* the cases of the switch that end in a call of [update_flags] *)
Definition sets_flags (o : opcode) : bool :=
  match o with
  | OP_ADD | OP_AND | OP_NOT | OP_LD | OP_LDI | OP_LDR | OP_LEA => true
  | _ => false
  end.

(* the cases of the switch that call [mem_write] *)
Definition is_store (o : opcode) : bool :=
  match o with
  | OP_ST | OP_STI | OP_STR => true
  | _ => false
  end.

(* the states the loop reaches from [s0] by cycles none of which executes a
   flag-setting instruction *)
Inductive reachable_without_flags (s0 : state) : state → Prop :=
  | quiet_entry : reachable_without_flags s0 s0
  | quiet_cycle s instr o s1 s' :
      reachable_without_flags s0 s → running s = true →
      fetch s = Ok instr s1 →
      decode instr = Some o → sets_flags o = false →
      execute instr s1 = Ok tt s' →
      reachable_without_flags s0 s'.

(* the machine as [main] enters the loop, with [ST R0,#1] at 0x3000 and
   [BRnzp #-1] at 0x3001 *)
Definition branch_machine : state :=
  machine [0; 0; 0; 0; 0; 0; 0; 0; 0x3000; 0]
    [(0x3000, 0x3001); (0x3001, 0x0FFF)] [].

(* a computation whose every returning run relates the state before to the
   state after *)
Definition changes_by {A} (R : state → state → Prop) (m : M A) : Prop :=
  ∀ s a s', m s = Ok a s' → R s s'.

(* a computation that can only fail with the faults in [E] *)
Definition fails_with {A} (E : fault → Prop) (m : M A) : Prop :=
  ∀ s f s', m s = Fault f s' → E f.

(* [TRAP x25] (HALT) at 0x3000 *)
Definition halt_machine : state :=
  machine [0; 0; 0; 0; 0; 0; 0; 0; 0x3000; 0] [(0x3000, 0xF025)] [].

(** *** Strings in memory *)

(* the bytes TRAP_PUTSP writes for one word: the low byte, then the high
   byte unless it is zero *)
Definition packed_bytes (w : Z) : list Z :=
  w mod 256 :: (if (w / 256) mod 256 =? 0 then [] else [(w / 256) mod 256]).

(* R0 = 0xFFFC, where the words 'H', 'I', 0 are stored, the last cell
   0xFFFE holding 0; PC = 0x3001 *)
Definition string_machine : state :=
  machine [0xFFFC; 0; 0; 0; 0; 0; 0; 0; 0x3001; 0]
    [(0xFFFC, 0x48); (0xFFFD, 0x49)] [].

(* R0 = 0xFFFE, the last cell, which holds 'X': a string without its
   terminating zero *)
Definition runaway_machine : state :=
  machine [0xFFFE; 0; 0; 0; 0; 0; 0; 0; 0x3001; 0] [(0xFFFE, 0x58)] [].

(* R0 = 0xFFFC, where the packed string "HI!" is stored; PC = 0x3001 *)
Definition packed_machine : state :=
  machine [0xFFFC; 0; 0; 0; 0; 0; 0; 0; 0x3001; 0]
    [(0xFFFC, 0x4948); (0xFFFD, 0x0021)] [].

(* the key 'A' typed ahead; PC = 0x3001 *)
Definition key_machine : state :=
  machine [0; 0; 0; 0; 0; 0; 0; 0; 0x3001; 0] [] [65].

(** ** The process around the machine *)

(* [struct termios]: the local-mode flags, and the fields the program never
   touches *)
Record termios : Type := mkTermios {
  c_lflag : Z;
  c_others : list Z
}.

Record process : Type := mkProcess {
  vm : state;               (* memory, registers, running, the two streams *)
  tty : termios;            (* the attributes of the terminal on stdin *)
  original_tio : termios    (* the global [original_tio] *)
}.

Definition with_vm (s : state) (p : process) : process :=
  mkProcess s (tty p) (original_tio p).

(* [tcgetattr] into [original_tio], then [tcsetattr] of a copy with the two
   flags cleared.  The values of ICANON and ECHO come from <termios.h> and
   are parameters here. *)
Definition disable_input_buffering (ICANON ECHO : Z) (p : process)
    : process :=
  let original := tty p in
  let new_tio :=
    mkTermios
      (Z.land (c_lflag original) (Z.land (Z.lnot ICANON) (Z.lnot ECHO)))
      (c_others original) in
  mkProcess (vm p) new_tio original.

Definition restore_input_buffering (p : process) : process :=
  mkProcess (vm p) (original_tio p) (original_tio p).

(* how the process ends *)
Inductive ending : Type :=
  | Exited (status : Z)    (* [exit(status)], or the return from [main] *)
  | Aborted                (* [abort()] *)
  | Stopped (f : fault)    (* undefined behaviour, or waiting for ever *)
  | Unfinished.            (* the loop was still running when the fuel ended *)

Definition newline : string := String (ascii_of_nat 10) EmptyString.

(* the SIGINT handler *)
Definition handle_interrupt (p : process) : ending * process :=
  let p := restore_input_buffering p in
  match printf newline (vm p) with
  | Ok _ s => (Exited (-2), with_vm s p)
  | Fault f s => (Stopped f, with_vm s p)
  end.

(* The files that can be opened are given by [fs]; [fopen] fails on the
   others. *)
Definition read_image (fs : string → option (list Z)) (image_path : string)
    : M Z :=
  match fs image_path with
  | None => mret 0
  | Some file => read_image_file file;; mret 1
  end.

(* the [for] loop of [main] over argv[1..]: the path that could not be
   loaded, if any *)
Fixpoint load_args (fs : string → option (list Z)) (paths : list string)
    : M (option string) :=
  match paths with
  | [] => mret None
  | path :: paths' =>
      ok ← read_image fs path;
      if ok =? 0 then mret (Some path) else load_args fs paths'
  end.

(* [main] with its arguments; [argv] includes the program name *)
Definition main_argv (ICANON ECHO : Z) (fs : string → option (list Z))
    (argv : list string) (fuel : nat) (p : process) : ending * process :=
  if (length argv <? 2)%nat then
    match printf ("lc3 [image-file1] ..." ++ newline) (vm p) with
    | Ok _ s => (Exited 2, with_vm s p)
    | Fault f s => (Stopped f, with_vm s p)
    end
  else
    match load_args fs (tail argv) (vm p) with
    | Ok (Some path) s =>
        match printf ("failed to load image: " ++ path ++ newline) s with
        | Ok _ s' => (Exited 1, with_vm s' p)
        | Fault f s' => (Stopped f, with_vm s' p)
        end
    | Ok None s =>
        let p := disable_input_buffering ICANON ECHO (with_vm s p) in
        match (store_reg R_PC PC_START;; set_running true;; run fuel) (vm p)
        with
        | Ok _ s' =>
            if running s' then (Unfinished, with_vm s' p)
            else (Exited 0, restore_input_buffering (with_vm s' p))
        | Fault IllegalOpcode s' => (Aborted, with_vm s' p)
        | Fault f s' => (Stopped f, with_vm s' p)
        end
    | Fault f s => (Stopped f, with_vm s p)
    end.

(* a terminal in its usual line mode (Linux values: ICANON = 2, ECHO = 8)
   and a machine as the loader finds it *)
Definition fresh_process : process :=
  mkProcess (power_on []) (mkTermios 0x8A3B []) (mkTermios 0 []).

(* a file system with the single file "hello.obj" *)
Definition hello_fs (path : string) : option (list Z) :=
  if String.eqb path "hello.obj" then Some hello_image else None.

(* a file system with "bad.obj", whose first instruction is RTI *)
Definition bad_fs (path : string) : option (list Z) :=
  if String.eqb path "bad.obj" then Some (image_bytes 0x3000 [0x8000])
  else None.

(** * Properties *)

(** ** Sign extension *)

Section SignExtend.

Lemma high_mask (n : Z) :
  0 ≤ n ≤ 16 → Z.shiftl (Z.ones (16 - n)) n = 2 ^ 16 - 2 ^ n.
Proof.
  intros Hn. rewrite Z.shiftl_mul_pow2, Z.ones_equiv by lia.
  replace (2 ^ 16) with (2 ^ (16 - n) * 2 ^ n)
    by (rewrite <- Z.pow_add_r by lia; f_equal; lia).
  lia.
Qed.

(* bit by bit: the low [n] bits of [x], ones from [n] to 15 *)
Lemma lor_mask_bits (x n : Z) :
  0 ≤ n ≤ 16 →
  Z.lor x (Z.shiftl 0xFFFF n) mod 2 ^ 16
  = Z.lor (x mod 2 ^ n) (Z.shiftl (Z.ones (16 - n)) n).
Proof.
  intros Hn. apply Z.bits_inj'; intros i Hi.
  change 0xFFFF with (Z.ones 16).
  rewrite Z.testbit_mod_pow2, !Z.lor_spec, !Z.shiftl_spec,
    Z.testbit_mod_pow2, !Z.testbit_ones by lia.
  destruct (Z.ltb_spec i 16), (Z.ltb_spec i n), (Z.leb_spec 0 (i - n)),
    (Z.ltb_spec (i - n) 16), (Z.ltb_spec (i - n) (16 - n));
    try lia; simpl; rewrite ?orb_true_r, ?orb_false_r; reflexivity.
Qed.

Lemma low_high_disjoint (x n : Z) :
  0 ≤ n ≤ 16 →
  Z.land (x mod 2 ^ n) (Z.shiftl (Z.ones (16 - n)) n) = 0.
Proof.
  intros Hn. apply Z.bits_inj'; intros i Hi.
  rewrite Z.land_spec, Z.shiftl_spec, Z.testbit_mod_pow2, Z.testbit_ones,
    Z.bits_0 by lia.
  destruct (Z.ltb_spec i n), (Z.leb_spec 0 (i - n)); try lia; simpl;
    rewrite ?andb_false_r; reflexivity.
Qed.

Lemma lor_mask (x n : Z) :
  0 ≤ n ≤ 16 →
  Z.lor x (Z.shiftl 0xFFFF n) mod 2 ^ 16 = x mod 2 ^ n + (2 ^ 16 - 2 ^ n).
Proof.
  intros Hn. rewrite lor_mask_bits by lia.
  pose proof (Z.add_lor_land (x mod 2 ^ n) (Z.shiftl (Z.ones (16 - n)) n))
    as E.
  rewrite low_high_disjoint, high_mask in E by lia.
  rewrite high_mask by lia. lia.
Qed.

(* the test [(x >> (bit_count - 1)) & 1] reads bit [bit_count - 1] *)
Lemma sign_bit_test (x n : Z) :
  1 ≤ n →
  (Z.land (Z.shiftr x (n - 1)) 1 =? 0) = negb (Z.testbit x (n - 1)).
Proof.
  intros Hn. change 1 with (Z.ones 1) at 2.
  rewrite Z.land_ones, Z.pow_1_r, <- Z.bit0_mod, Z.shiftr_spec, Z.add_0_l
    by lia.
  destruct (Z.testbit x (n - 1)); reflexivity.
Qed.

Lemma sign_extend_clear (x n : Z) :
  1 ≤ n → Z.testbit x (n - 1) = false → sign_extend x n = x.
Proof.
  intros Hn Hb. unfold sign_extend. rewrite sign_bit_test, Hb by lia.
  reflexivity.
Qed.

Lemma sign_extend_set (x n : Z) :
  1 ≤ n ≤ 16 → Z.testbit x (n - 1) = true →
  sign_extend x n = x mod 2 ^ n + (2 ^ 16 - 2 ^ n).
Proof.
  intros Hn Hb. unfold sign_extend, u16. rewrite sign_bit_test, Hb by lia.
  cbn [negb]. change 65536 with (2 ^ 16). apply lor_mask. lia.
Qed.

Lemma sign_extend_range (x n : Z) :
  1 ≤ n ≤ 16 → is_u16 x → is_u16 (sign_extend x n).
Proof.
  intros Hn Hx. unfold is_u16 in *.
  destruct (Z.testbit x (n - 1)) eqn:Hb.
  - rewrite sign_extend_set by done.
    assert (2 ^ n ≤ 2 ^ 16) by (apply Z.pow_le_mono_r; lia).
    pose proof (Z.mod_pos_bound x (2 ^ n)). change (2 ^ 16) with 65536 in *.
    lia.
  - rewrite sign_extend_clear by (done || lia). done.
Qed.

End SignExtend.

(** C7 (as amended): for every width n in [1,16] and every 16-bit x, when bit
    n-1 of x is clear [sign_extend x n] is x; when it is set the result is
    (x mod 2^n) - 2^n with 16-bit wrap-around, which is x - 2^n with 16-bit
    wrap-around whenever x is an n-bit field (x < 2^n). *)
Theorem sign_extend_spec (x n : Z) :
  1 ≤ n ≤ 16 → is_u16 x →
  (Z.testbit x (n - 1) = false → sign_extend x n = x) ∧
  (Z.testbit x (n - 1) = true →
     sign_extend x n = (x mod 2 ^ n - 2 ^ n) mod 65536 ∧
     (x < 2 ^ n → sign_extend x n = (x - 2 ^ n) mod 65536)).
Proof.
  intros Hn Hx. split; intros Hb.
  - apply sign_extend_clear; [lia | done].
  - rewrite sign_extend_set by done.
    assert (2 ^ n ≤ 2 ^ 16) as Hp by (apply Z.pow_le_mono_r; lia).
    pose proof (Z.mod_pos_bound x (2 ^ n)) as Hm.
    change (2 ^ 16) with 65536 in *.
    assert (x mod 2 ^ n + (65536 - 2 ^ n) = (x mod 2 ^ n - 2 ^ n) mod 65536)
      as E by (apply Z.mod_unique with (q := -1); lia).
    split; [exact E |].
    intros Hlt. unfold is_u16 in Hx.
    rewrite E, Z.mod_small with (a := x) by lia.
    reflexivity.
Qed.

(** Witness of C7: the 5-bit field 0x1F, whose sign bit is set. *)
Lemma sign_extend_spec_witness :
  (1 ≤ 5 ≤ 16 ∧ is_u16 0x1F ∧ Z.testbit 0x1F (5 - 1) = true ∧ 0x1F < 2 ^ 5)
  ∧ sign_extend 0x1F 5 = (0x1F - 2 ^ 5) mod 65536.
Proof.
  assert (1 ≤ 5 ≤ 16) as Hn by lia.
  assert (is_u16 0x1F) as Hx by (unfold is_u16; lia).
  assert (Z.testbit 0x1F (5 - 1) = true) as Hb by reflexivity.
  assert (0x1F < 2 ^ 5) as Hlt by reflexivity.
  split; [exact (conj Hn (conj Hx (conj Hb Hlt))) |].
  exact (proj2 (proj2 (sign_extend_spec 0x1F 5 Hn Hx) Hb) Hlt).
Defined.

(** Counterexample to C7 as stated: x = 0x30 has bit 4 set and a bit above
    the 5-bit field; the result is 0xFFF0, while x - 2^5 is 0x10. *)
Lemma sign_extend_wide_counterexample :
  is_u16 0x30 ∧ Z.testbit 0x30 (5 - 1) = true ∧
  sign_extend 0x30 5 = 0xFFF0 ∧ (0x30 - 2 ^ 5) mod 65536 = 0x10 ∧
  sign_extend 0x30 5 ≠ (0x30 - 2 ^ 5) mod 65536.
Proof.
  repeat split; try reflexivity; try (unfold is_u16; lia).
  vm_compute. discriminate.
Qed.

(** ** Reasoning about monadic code *)

Section Monad.

Lemma bind_unfold {A B} (m : M A) (f : A → M B) (s : state) :
  (m ≫= f) s
  = match m s with Ok a s' => f a s' | Fault e s' => Fault e s' end.
Proof. reflexivity. Qed.

Lemma bind_Ok {A B} (m : M A) (f : A → M B) (s s' : state) (a : A) :
  m s = Ok a s' → (m ≫= f) s = f a s'.
Proof. intros E. rewrite bind_unfold, E. reflexivity. Qed.

Lemma bind_Fault {A B} (m : M A) (f : A → M B) (s s' : state) (e : fault) :
  m s = Fault e s' → (m ≫= f) s = Fault e s'.
Proof. intros E. rewrite bind_unfold, E. reflexivity. Qed.

Lemma bind_Ok_inv {A B} (m : M A) (f : A → M B) (s s2 : state) (b : B) :
  (m ≫= f) s = Ok b s2 → ∃ a s1, m s = Ok a s1 ∧ f a s1 = Ok b s2.
Proof.
  rewrite bind_unfold. destruct (m s) as [a s1|e s1]; [eauto | discriminate].
Qed.

Lemma load_reg_Ok (r v : Z) (s : state) :
  reg s !! Z.to_nat r = Some v → load_reg r s = Ok v s.
Proof. intros E. unfold load_reg. rewrite E. reflexivity. Qed.

Lemma store_reg_Ok (r v : Z) (s : state) :
  (Z.to_nat r < length (reg s))%nat →
  store_reg r v s = Ok tt (with_reg (<[Z.to_nat r := v]> (reg s)) s).
Proof.
  intros Hr. unfold store_reg.
  destruct (lookup_lt_is_Some_2 _ _ Hr) as [w ->]. reflexivity.
Qed.

Lemma load_mem_Ok (a v : Z) (s : state) :
  memory s !! Z.to_nat a = Some v → load_mem a s = Ok v s.
Proof. intros E. unfold load_mem. rewrite E. reflexivity. Qed.

Lemma store_mem_Ok (a v : Z) (s : state) :
  (Z.to_nat a < length (memory s))%nat →
  store_mem a v s = Ok tt (with_memory (<[Z.to_nat a := v]> (memory s)) s).
Proof.
  intros Ha. unfold store_mem.
  destruct (lookup_lt_is_Some_2 _ _ Ha) as [w ->]. reflexivity.
Qed.

Lemma load_mem_Fault (a : Z) (s : state) :
  (length (memory s) ≤ Z.to_nat a)%nat → load_mem a s = Fault OutOfBounds s.
Proof.
  intros Ha. unfold load_mem. rewrite (lookup_ge_None_2 _ _ Ha). reflexivity.
Qed.

Lemma store_mem_Fault (a v : Z) (s : state) :
  (length (memory s) ≤ Z.to_nat a)%nat →
  store_mem a v s = Fault OutOfBounds s.
Proof.
  intros Ha. unfold store_mem. rewrite (lookup_ge_None_2 _ _ Ha).
  reflexivity.
Qed.

End Monad.

(** ** Condition flags *)

Lemma flags_distinct : FL_POS ≠ FL_ZRO ∧ FL_POS ≠ FL_NEG ∧ FL_ZRO ≠ FL_NEG.
Proof. repeat split; discriminate. Qed.

Lemma zero_not_flag : ¬ is_flag 0.
Proof. intros [H|[H|H]]; discriminate H. Qed.

(* the test [reg[r] >> 15] of a 16-bit value reads bit 15 *)
Lemma top_bit_test (v : Z) :
  is_u16 v → (Z.shiftr v 15 =? 0) = negb (Z.testbit v 15).
Proof.
  intros Hv. unfold is_u16 in Hv.
  rewrite Z.shiftr_div_pow2 by lia.
  pose proof (Z.testbit_spec' v 15 ltac:(lia)) as E.
  assert (0 ≤ v / 2 ^ 15 < 2) as Hq
    by (split; [apply Z.div_pos | apply Z.div_lt_upper_bound]; lia).
  destruct (Z.testbit v 15); cbn [Z.b2z negb] in *;
    destruct (Z.eqb_spec (v / 2 ^ 15) 0) as [E0|E0]; try reflexivity.
  - rewrite E0 in E. discriminate E.
  - rewrite Z.mod_small in E by lia. congruence.
Qed.

(** C8: for every 16-bit value v held by the register that [update_flags] is
    given, the call returns with COND set to exactly one of POS, ZERO, NEG:
    ZERO when v is 0, NEG when bit 15 of v is set, POS otherwise; nothing
    else changes. *)
Theorem update_flags_spec (r v : Z) (s : state) :
  length (reg s) = REG_LEN → reg s !! Z.to_nat r = Some v → is_u16 v →
  ∃ c, update_flags r s
       = Ok tt (with_reg (<[Z.to_nat R_COND := c]> (reg s)) s)
     ∧ is_flag c
     ∧ (v = 0 → c = FL_ZRO)
     ∧ (Z.testbit v 15 = true → c = FL_NEG)
     ∧ (v ≠ 0 → Z.testbit v 15 = false → c = FL_POS).
Proof.
  intros Hlen Hr Hv. unfold update_flags.
  rewrite (bind_Ok _ _ _ _ _ (load_reg_Ok _ _ _ Hr)).
  assert (Z.to_nat R_COND < length (reg s))%nat as Hc
    by (rewrite Hlen; unfold REG_LEN, R_COND, R_COUNT; lia).
  rewrite (top_bit_test v Hv), negb_involutive.
  destruct (Z.eqb_spec v 0) as [->|Hnz].
  - exists FL_ZRO. rewrite store_reg_Ok by done. unfold is_flag.
    repeat split; auto; [discriminate | congruence].
  - destruct (Z.testbit v 15) eqn:Hb.
    + exists FL_NEG. rewrite store_reg_Ok by done. unfold is_flag.
      repeat split; auto; congruence.
    + exists FL_POS. rewrite store_reg_Ok by done. unfold is_flag.
      repeat split; auto; congruence.
Qed.

(** Witness of C8: R3 = 0x8000, whose bit 15 is set. *)
Lemma update_flags_spec_witness :
  (length (reg r3_machine) = REG_LEN
   ∧ reg r3_machine !! Z.to_nat R_R3 = Some 0x8000
   ∧ is_u16 0x8000)
  ∧ ∃ c, update_flags R_R3 r3_machine
         = Ok tt (with_reg (<[Z.to_nat R_COND := c]> (reg r3_machine))
                    r3_machine)
       ∧ is_flag c
       ∧ (0x8000 = 0 → c = FL_ZRO)
       ∧ (Z.testbit 0x8000 15 = true → c = FL_NEG)
       ∧ (0x8000 ≠ 0 → Z.testbit 0x8000 15 = false → c = FL_POS).
Proof.
  assert (length (reg r3_machine) = REG_LEN) as Hlen by reflexivity.
  assert (reg r3_machine !! Z.to_nat R_R3 = Some 0x8000) as Hr by reflexivity.
  assert (is_u16 0x8000) as Hv by (unfold is_u16; lia).
  split; [exact (conj Hlen (conj Hr Hv)) |].
  exact (update_flags_spec R_R3 0x8000 r3_machine Hlen Hr Hv).
Defined.

(** ** The memory bus *)

Section Memory.

Lemma memory_len_value : MEMORY_LEN = Z.to_nat 65535.
Proof. reflexivity. Qed.

Lemma address_in_bounds (a : Z) (s : state) :
  length (memory s) = MEMORY_LEN → 0 ≤ a < 65535 →
  (Z.to_nat a < length (memory s))%nat.
Proof. intros -> Ha. unfold MEMORY_LEN, UINT16_MAX. lia. Qed.

(* every address below 0xFFFF is a cell: a write stores, a read of a cell
   that is not the keyboard status returns what is stored *)
Lemma mem_write_in_bounds (a v : Z) (s : state) :
  length (memory s) = MEMORY_LEN → 0 ≤ a < 65535 →
  mem_write a v s = Ok tt (poke a v s)
  ∧ memory (poke a v s) !! Z.to_nat a = Some v.
Proof.
  intros Hlen Ha. pose proof (address_in_bounds a s Hlen Ha) as Hlt.
  unfold mem_write. rewrite store_mem_Ok by done. split; [reflexivity |].
  apply list_lookup_insert_eq. done.
Qed.

Lemma mem_read_plain (a : Z) (s : state) :
  a ≠ MR_KBSR → mem_read a s = load_mem a s.
Proof.
  intros Ha. unfold mem_read.
  destruct (Z.eqb_spec a MR_KBSR) as [E|_]; [done | reflexivity].
Qed.

Lemma mem_read_stored (a v : Z) (s : state) :
  a ≠ MR_KBSR → memory s !! Z.to_nat a = Some v → mem_read a s = Ok v s.
Proof.
  intros Ha Hv. rewrite mem_read_plain by done. apply load_mem_Ok. done.
Qed.

Lemma kbsr_in_bounds (s : state) :
  length (memory s) = MEMORY_LEN →
  (Z.to_nat MR_KBSR < length (memory s))%nat.
Proof. intros. apply address_in_bounds; [done | unfold MR_KBSR; lia]. Qed.

Lemma kbdr_in_bounds (s : state) :
  length (memory s) = MEMORY_LEN →
  (Z.to_nat MR_KBDR < length (memory s))%nat.
Proof. intros. apply address_in_bounds; [done | unfold MR_KBDR; lia]. Qed.

(* a key is waiting: status 0x8000, the byte in the data register *)
Lemma mem_read_kbsr_key (b : Z) (rest : list Z) (s : state) :
  length (memory s) = MEMORY_LEN → stdin s = b :: rest →
  mem_read MR_KBSR s
  = Ok 0x8000
      (mkState (<[Z.to_nat MR_KBDR := u16 b]>
                  (<[Z.to_nat MR_KBSR := 0x8000]> (memory s)))
         (reg s) (running s) rest (stdout s)).
Proof.
  intros Hlen Hin. unfold mem_read. rewrite Z.eqb_refl.
  pose proof (kbsr_in_bounds s Hlen) as Hs.
  pose proof (kbdr_in_bounds s Hlen) as Hd.
  rewrite bind_unfold, bind_unfold. unfold check_key at 1. rewrite Hin.
  rewrite bind_unfold, store_mem_Ok by done.
  rewrite bind_unfold. unfold getchar at 1. cbn [stdin with_memory].
  rewrite Hin.
  rewrite store_mem_Ok
    by (cbn [memory with_stdin with_memory]; rewrite length_insert; done).
  apply load_mem_Ok. cbn [memory with_memory with_stdin].
  rewrite list_lookup_insert_ne by (unfold MR_KBDR, MR_KBSR; lia).
  apply list_lookup_insert_eq. done.
Qed.

(* no key: status 0, nothing else changes *)
Lemma mem_read_kbsr_idle (s : state) :
  length (memory s) = MEMORY_LEN → stdin s = [] →
  mem_read MR_KBSR s = Ok 0 (poke MR_KBSR 0 s).
Proof.
  intros Hlen Hin. unfold mem_read. rewrite Z.eqb_refl.
  pose proof (kbsr_in_bounds s Hlen) as Hs.
  rewrite bind_unfold, bind_unfold. unfold check_key at 1. rewrite Hin.
  rewrite store_mem_Ok by done.
  apply load_mem_Ok. cbn [memory with_memory].
  apply list_lookup_insert_eq. done.
Qed.

End Memory.

(** C1 (the declared array is one cell short): [memory] has UINT16_MAX =
    65535 cells, so the 16-bit address 0xFFFF is outside it; [mem_write] at
    that address is an out-of-bounds access and stores nothing. *)
Theorem mem_write_last_address (s : state) (v : Z) :
  length (memory s) = MEMORY_LEN →
  length (memory s) = Z.to_nat 65535
  ∧ memory s !! Z.to_nat 0xFFFF = None
  ∧ mem_write 0xFFFF v s = Fault OutOfBounds s.
Proof.
  intros Hlen.
  assert (length (memory s) ≤ Z.to_nat 0xFFFF)%nat as Hge
    by (rewrite Hlen; unfold MEMORY_LEN, UINT16_MAX; lia).
  split; [rewrite Hlen; apply memory_len_value |].
  split; [apply lookup_ge_None_2; done |].
  unfold mem_write. apply store_mem_Fault. done.
Qed.

(** Witness of C1: the machine as [main] finds it. *)
Lemma mem_write_last_address_witness :
  length (memory idle_machine) = MEMORY_LEN
  ∧ length (memory idle_machine) = Z.to_nat 65535
  ∧ memory idle_machine !! Z.to_nat 0xFFFF = None
  ∧ mem_write 0xFFFF 0x1234 idle_machine = Fault OutOfBounds idle_machine.
Proof.
  assert (length (memory idle_machine) = MEMORY_LEN) as Hlen
    by apply length_replicate.
  split; [exact Hlen |].
  exact (mem_write_last_address idle_machine 0x1234 Hlen).
Defined.

(** C6 (same missing cell as C1): a read of the 16-bit address 0xFFFF, which
    is not the keyboard status register, indexes [memory] out of bounds
    instead of returning a stored word. *)
Theorem mem_read_last_address (s : state) :
  length (memory s) = MEMORY_LEN →
  0xFFFF ≠ MR_KBSR ∧ mem_read 0xFFFF s = Fault OutOfBounds s.
Proof.
  intros Hlen.
  assert (0xFFFF ≠ MR_KBSR) as Hne by discriminate.
  split; [exact Hne |].
  rewrite mem_read_plain by exact Hne.
  apply load_mem_Fault. rewrite Hlen. unfold MEMORY_LEN, UINT16_MAX. lia.
Qed.

(** Witness of C6. *)
Lemma mem_read_last_address_witness :
  length (memory idle_machine) = MEMORY_LEN
  ∧ 0xFFFF ≠ MR_KBSR
  ∧ mem_read 0xFFFF idle_machine = Fault OutOfBounds idle_machine.
Proof.
  assert (length (memory idle_machine) = MEMORY_LEN) as Hlen
    by apply length_replicate.
  split; [exact Hlen |].
  exact (mem_read_last_address idle_machine Hlen).
Defined.

(** ** Instruction fetch *)

Section Fetch.

(* the PC is incremented, then [mem_read] runs on the old value *)
Lemma fetch_unfold (pc : Z) (s : state) :
  reg s !! Z.to_nat R_PC = Some pc →
  fetch s = mem_read pc (set_pc (u16 (pc + 1)) s).
Proof.
  intros Hpc. unfold fetch.
  rewrite (bind_Ok _ _ _ _ _ (load_reg_Ok _ _ _ Hpc)).
  rewrite (bind_Ok _ _ _ _ _
             (store_reg_Ok R_PC _ s (lookup_lt_Some _ _ _ Hpc))).
  reflexivity.
Qed.

Lemma fetch_stored (pc instr : Z) (s : state) :
  reg s !! Z.to_nat R_PC = Some pc → pc ≠ MR_KBSR →
  memory s !! Z.to_nat pc = Some instr →
  fetch s = Ok instr (set_pc (u16 (pc + 1)) s).
Proof.
  intros Hpc Hne Hm. rewrite (fetch_unfold pc) by done.
  apply mem_read_stored; done.
Qed.

Lemma fetch_kbsr_key (b : Z) (rest : list Z) (s : state) :
  length (memory s) = MEMORY_LEN →
  reg s !! Z.to_nat R_PC = Some MR_KBSR → stdin s = b :: rest →
  fetch s
  = Ok 0x8000
      (mkState (<[Z.to_nat MR_KBDR := u16 b]>
                  (<[Z.to_nat MR_KBSR := 0x8000]> (memory s)))
         (<[Z.to_nat R_PC := 0xFE01]> (reg s)) (running s) rest (stdout s)).
Proof.
  intros Hlen Hpc Hin. rewrite (fetch_unfold MR_KBSR) by done.
  rewrite (mem_read_kbsr_key b rest) by done. reflexivity.
Qed.

Lemma fetch_kbsr_idle (s : state) :
  length (memory s) = MEMORY_LEN →
  reg s !! Z.to_nat R_PC = Some MR_KBSR → stdin s = [] →
  fetch s = Ok 0 (poke MR_KBSR 0 (set_pc 0xFE01 s)).
Proof.
  intros Hlen Hpc Hin. rewrite (fetch_unfold MR_KBSR) by done.
  rewrite mem_read_kbsr_idle by done. reflexivity.
Qed.

Lemma cycle_fetched (instr : Z) (s s1 : state) :
  fetch s = Ok instr s1 → cycle s = execute instr s1.
Proof. intros E. unfold cycle. apply bind_Ok. exact E. Qed.

End Fetch.

(** C10: the fetch goes through [mem_read], so with the PC at the keyboard
    status address 0xFE00 the fetch itself polls the keyboard: it writes the
    status cell (0x8000 with a key waiting, 0 otherwise) and, with a key
    waiting, consumes the byte and writes it to the data cell 0xFE02; the
    word that is then decoded is the freshly written status. *)
Theorem fetch_polls_keyboard (s : state) :
  length (memory s) = MEMORY_LEN →
  reg s !! Z.to_nat R_PC = Some MR_KBSR →
  fetch s = mem_read MR_KBSR (set_pc 0xFE01 s)
  ∧ (∀ b rest, stdin s = b :: rest →
       ∃ s1, fetch s = Ok 0x8000 s1
           ∧ cycle s = execute 0x8000 s1
           ∧ memory s1 = <[Z.to_nat MR_KBDR := u16 b]>
                           (<[Z.to_nat MR_KBSR := 0x8000]> (memory s))
           ∧ stdin s1 = rest)
  ∧ (stdin s = [] →
       ∃ s1, fetch s = Ok 0 s1
           ∧ cycle s = execute 0 s1
           ∧ memory s1 = <[Z.to_nat MR_KBSR := 0]> (memory s)
           ∧ stdin s1 = []).
Proof.
  intros Hlen Hpc. split; [apply (fetch_unfold MR_KBSR); done |]. split.
  - intros b rest Hin. eexists. split; [apply fetch_kbsr_key; done |].
    split; [apply cycle_fetched, fetch_kbsr_key; done |]. split; reflexivity.
  - intros Hin. eexists. split; [apply fetch_kbsr_idle; done |].
    split; [apply cycle_fetched, fetch_kbsr_idle; done |].
    split; [reflexivity | exact Hin].
Qed.

(** Witness of C10: the PC at 0xFE00 and the key 'a' waiting. *)
Lemma fetch_polls_keyboard_witness :
  (length (memory kbsr_machine) = MEMORY_LEN
   ∧ reg kbsr_machine !! Z.to_nat R_PC = Some MR_KBSR
   ∧ stdin kbsr_machine = [97])
  ∧ ∃ s1, fetch kbsr_machine = Ok 0x8000 s1
        ∧ cycle kbsr_machine = execute 0x8000 s1
        ∧ memory s1 = <[Z.to_nat MR_KBDR := u16 97]>
                        (<[Z.to_nat MR_KBSR := 0x8000]> (memory kbsr_machine))
        ∧ stdin s1 = [].
Proof.
  assert (length (memory kbsr_machine) = MEMORY_LEN) as Hlen
    by apply length_replicate.
  assert (reg kbsr_machine !! Z.to_nat R_PC = Some MR_KBSR) as Hpc
    by reflexivity.
  assert (stdin kbsr_machine = [97]) as Hin by reflexivity.
  split; [exact (conj Hlen (conj Hpc Hin)) |].
  exact (proj1 (proj2 (fetch_polls_keyboard kbsr_machine Hlen Hpc))
           97 [] Hin).
Defined.

(** ** Traps without a handler *)

Lemma trap_of_None (code : Z) :
  ¬ (0x20 ≤ code ≤ 0x25) → trap_of code = None.
Proof.
  intros Hout. destruct code as [|p|p]; try reflexivity.
  do 6 (destruct p as [p|p|]; try reflexivity); exfalso; apply Hout; lia.
Qed.

Lemma trap_of_Some (code : Z) (t : trap) :
  trap_of code = Some t → 0x20 ≤ code ≤ 0x25.
Proof.
  destruct (decide (0x20 ≤ code ≤ 0x25)) as [H|H]; [done |].
  rewrite (trap_of_None code H). discriminate.
Qed.

Lemma execute_trap_unhandled (instr pc : Z) (s : state) :
  length (reg s) = REG_LEN →
  Z.shiftr instr 12 = 15 → ¬ (0x20 ≤ Z.land instr 0xFF ≤ 0x25) →
  reg s !! Z.to_nat R_PC = Some pc →
  execute instr s = Ok tt (with_reg (<[Z.to_nat R_R7 := pc]> (reg s)) s).
Proof.
  intros Hlen Hop Hout Hpc. unfold execute. rewrite Hop. cbn [opcode_of].
  unfold execute_trap. rewrite (trap_of_None _ Hout).
  rewrite (bind_Ok _ _ _ _ _ (load_reg_Ok _ _ _ Hpc)).
  rewrite (bind_Ok _ _ _ _ _
             (store_reg_Ok R_R7 pc s
                ltac:(rewrite Hlen; unfold R_R7, REG_LEN, R_COUNT; lia))).
  reflexivity.
Qed.

(** C4 (as amended): a TRAP whose vector is none of 0x20..0x25 writes the
    already incremented PC to R7 and does nothing else: memory, the other
    registers, the running flag, the pending input and the output are as
    the fetch left them, and the loop goes on with the next cycle. *)
Theorem trap_without_handler (instr : Z) (s : state) :
  length (reg s) = REG_LEN →
  Z.shiftr instr 12 = 15 → ¬ (0x20 ≤ Z.land instr 0xFF ≤ 0x25) →
  ∃ pc s',
    reg s !! Z.to_nat R_PC = Some pc
    ∧ execute instr s = Ok tt s'
    ∧ reg s' = <[Z.to_nat R_R7 := pc]> (reg s)
    ∧ (∀ r, r ≠ Z.to_nat R_R7 → reg s' !! r = reg s !! r)
    ∧ memory s' = memory s
    ∧ running s' = running s
    ∧ stdin s' = stdin s
    ∧ stdout s' = stdout s.
Proof.
  intros Hlen Hop Hout.
  destruct (lookup_lt_is_Some_2 (reg s) (Z.to_nat R_PC)) as [pc Hpc];
    [rewrite Hlen; unfold R_PC, REG_LEN, R_COUNT; lia |].
  exists pc, (with_reg (<[Z.to_nat R_R7 := pc]> (reg s)) s).
  split; [exact Hpc |].
  split; [apply execute_trap_unhandled; assumption |].
  split; [reflexivity |].
  split.
  { intros r Hr. cbn [reg with_reg]. apply list_lookup_insert_ne. congruence. }
  repeat split; reflexivity.
Qed.

(** Witness of C4: TRAP x00 on the machine that has just fetched it. *)
Lemma trap_without_handler_witness :
  (length (reg (set_pc 0x3001 trap0_machine)) = REG_LEN
   ∧ Z.shiftr 0xF000 12 = 15 ∧ ¬ (0x20 ≤ Z.land 0xF000 0xFF ≤ 0x25))
  ∧ ∃ pc s',
      reg (set_pc 0x3001 trap0_machine) !! Z.to_nat R_PC = Some pc
      ∧ execute 0xF000 (set_pc 0x3001 trap0_machine) = Ok tt s'
      ∧ reg s' = <[Z.to_nat R_R7 := pc]> (reg (set_pc 0x3001 trap0_machine))
      ∧ (∀ r, r ≠ Z.to_nat R_R7 →
              reg s' !! r = reg (set_pc 0x3001 trap0_machine) !! r)
      ∧ memory s' = memory (set_pc 0x3001 trap0_machine)
      ∧ running s' = running (set_pc 0x3001 trap0_machine)
      ∧ stdin s' = stdin (set_pc 0x3001 trap0_machine)
      ∧ stdout s' = stdout (set_pc 0x3001 trap0_machine).
Proof.
  assert (length (reg (set_pc 0x3001 trap0_machine)) = REG_LEN) as Hlen
    by reflexivity.
  assert (Z.shiftr 0xF000 12 = 15) as Hop by reflexivity.
  assert (¬ (0x20 ≤ Z.land 0xF000 0xFF ≤ 0x25)) as Hout
    by (change (Z.land 0xF000 0xFF) with 0; lia).
  split; [exact (conj Hlen (conj Hop Hout)) |].
  exact (trap_without_handler 0xF000 (set_pc 0x3001 trap0_machine)
           Hlen Hop Hout).
Defined.

(** Counterexample to C4 as stated: TRAP x00 stored at 0x3000 is fetched
    with R7 = 0; after the instruction body R7 holds 0x3001, so not every
    register is as it was before the body. *)
Lemma trap_clobbers_r7_counterexample :
  Z.shiftr 0xF000 12 = 15
  ∧ ¬ (0x20 ≤ Z.land 0xF000 0xFF ≤ 0x25)
  ∧ fetch trap0_machine = Ok 0xF000 (set_pc 0x3001 trap0_machine)
  ∧ reg (set_pc 0x3001 trap0_machine) !! Z.to_nat R_R7 = Some 0
  ∧ ∃ s', execute 0xF000 (set_pc 0x3001 trap0_machine) = Ok tt s'
        ∧ reg s' !! Z.to_nat R_R7 = Some 0x3001
        ∧ reg s' ≠ reg (set_pc 0x3001 trap0_machine).
Proof.
  split; [reflexivity |].
  split; [change (Z.land 0xF000 0xFF) with 0; lia |].
  split.
  { apply (fetch_stored 0x3000); [reflexivity | discriminate |].
    vm_compute. reflexivity. }
  split; [reflexivity |].
  exists (with_reg (<[Z.to_nat R_R7 := 0x3001]>
                      (reg (set_pc 0x3001 trap0_machine)))
            (set_pc 0x3001 trap0_machine)).
  split.
  { apply execute_trap_unhandled;
      [reflexivity | reflexivity | change (Z.land 0xF000 0xFF) with 0; lia
      | reflexivity ]. }
  split; [reflexivity | discriminate].
Qed.

(** ** Unassigned opcodes *)

Section Frame.

Lemma load_reg_inv (r v : Z) (s s1 : state) :
  load_reg r s = Ok v s1 → s1 = s ∧ reg s !! Z.to_nat r = Some v.
Proof.
  unfold load_reg. destruct (reg s !! Z.to_nat r); intros E; by simplify_eq.
Qed.

Lemma load_mem_inv (a v : Z) (s s1 : state) :
  load_mem a s = Ok v s1 → s1 = s ∧ memory s !! Z.to_nat a = Some v.
Proof.
  unfold load_mem. destruct (memory s !! Z.to_nat a); intros E;
    by simplify_eq.
Qed.

Lemma store_reg_inv (r v : Z) (s s1 : state) :
  store_reg r v s = Ok tt s1 →
  s1 = with_reg (<[Z.to_nat r := v]> (reg s)) s
  ∧ (Z.to_nat r < length (reg s))%nat.
Proof.
  unfold store_reg. destruct (reg s !! Z.to_nat r) eqn:E; intros H;
    simplify_eq. split; [reflexivity | eapply lookup_lt_Some; eassumption].
Qed.

Lemma store_mem_inv (a v : Z) (s s1 : state) :
  store_mem a v s = Ok tt s1 →
  s1 = with_memory (<[Z.to_nat a := v]> (memory s)) s.
Proof.
  unfold store_mem. destruct (memory s !! Z.to_nat a); intros H;
    by simplify_eq.
Qed.

(* what a [mem_read] that returns may have changed *)
Lemma mem_read_frame (a v : Z) (s s1 : state) :
  mem_read a s = Ok v s1 →
  reg s1 = reg s ∧ running s1 = running s ∧ stdout s1 = stdout s
  ∧ (a ≠ MR_KBSR → s1 = s)
  ∧ (∀ i, i ≠ Z.to_nat MR_KBSR → i ≠ Z.to_nat MR_KBDR →
          memory s1 !! i = memory s !! i).
Proof.
  destruct (decide (a = MR_KBSR)) as [->|Hne].
  - unfold mem_read. rewrite Z.eqb_refl. intros H.
    apply bind_Ok_inv in H as ([] & s2 & Hpoll & Hload).
    apply load_mem_inv in Hload as [-> _].
    apply bind_Ok_inv in Hpoll as (k & s3 & Hk & Hbody).
    unfold check_key in Hk. injection Hk as <- <-.
    destruct (stdin s) as [|b rest] eqn:Hin.
    + apply store_mem_inv in Hbody as ->.
      cbn [reg running stdout memory with_memory].
      repeat split; try done.
      intros i Hs _. apply list_lookup_insert_ne. congruence.
    + apply bind_Ok_inv in Hbody as ([] & s4 & Hst & Hbody).
      apply store_mem_inv in Hst as ->.
      apply bind_Ok_inv in Hbody as (c & s5 & Hget & Hbody).
      unfold getchar in Hget. cbn [stdin with_memory] in Hget.
      rewrite Hin in Hget. injection Hget as <- <-.
      apply store_mem_inv in Hbody as ->.
      cbn [reg running stdout memory with_memory with_stdin].
      repeat split; try done.
      intros i Hs Hd. rewrite !list_lookup_insert_ne by congruence. done.
  - rewrite mem_read_plain by done. intros H.
    apply load_mem_inv in H as [-> _]. repeat split; done.
Qed.

Lemma fetch_inv (instr : Z) (s s1 : state) :
  fetch s = Ok instr s1 →
  ∃ pc, reg s !! Z.to_nat R_PC = Some pc
      ∧ mem_read pc (set_pc (u16 (pc + 1)) s) = Ok instr s1.
Proof.
  intros H. destruct (reg s !! Z.to_nat R_PC) as [pc|] eqn:Hpc.
  - exists pc. split; [reflexivity |].
    rewrite <- (fetch_unfold pc s Hpc). exact H.
  - unfold fetch, load_reg in H. rewrite bind_unfold, Hpc in H.
    discriminate H.
Qed.


End Frame.




(** ** Properties kept along a run *)

Section Preserves.

Context {P : state → Prop}.

Lemma preserves_ret {A} (a : A) : preserves P (mret a).
Proof. intros s a' s' HP E. injection E as <- <-. exact HP. Qed.

Lemma preserves_raise {A} (e : fault) : preserves P (@raise A e).
Proof. intros s a s' _ E. discriminate E. Qed.

Lemma preserves_bind {A B} (m : M A) (f : A → M B) :
  preserves P m → (∀ a, preserves P (f a)) → preserves P (m ≫= f).
Proof.
  intros Hm Hf s b s2 HP H.
  apply bind_Ok_inv in H as (a & s1 & H1 & H2).
  exact (Hf a s1 b s2 (Hm s a s1 HP H1) H2).
Qed.

Lemma preserves_if {A} (c : bool) (m1 m2 : M A) :
  preserves P m1 → preserves P m2 → preserves P (if c then m1 else m2).
Proof. destruct c; auto. Qed.

End Preserves.

(* A property of the state that survives the writes the program performs:
   to a memory cell, to R0..R7 and the PC, of a flag to COND, and the
   changes of the terminal and of [running].  Every function of the program
   keeps such a property; each lemma depends only on the hypotheses it
   uses. *)
Section Invariant.

Variable P : state → Prop.
Hypothesis P_store_mem : ∀ a v, preserves P (store_mem a v).
Hypothesis P_store_gpr : ∀ r v, 0 ≤ r < R_COND → preserves P (store_reg r v).
Hypothesis P_store_cond :
  ∀ c, is_flag c → preserves P (store_reg R_COND c).
Hypothesis P_terminal :
  ∀ s b i o, P s → P (mkState (memory s) (reg s) b i o).

Local Abbreviation keeps := (preserves P).

Lemma keeps_load_reg (r : Z) : keeps (load_reg r).
Proof. intros s v s' HP E. apply load_reg_inv in E as [-> _]. exact HP. Qed.

Lemma keeps_load_mem (a : Z) : keeps (load_mem a).
Proof. intros s v s' HP E. apply load_mem_inv in E as [-> _]. exact HP. Qed.

Lemma keeps_check_key : keeps check_key.
Proof. intros s k s' HP E. injection E as _ <-. exact HP. Qed.

Lemma keeps_cells_from (a : Z) : keeps (cells_from a).
Proof. intros s l s' HP E. injection E as _ <-. exact HP. Qed.

Lemma keeps_getchar : keeps getchar.
Proof.
  intros s c s' HP E. unfold getchar in E.
  destruct (stdin s); [discriminate E |]. injection E as _ <-.
  apply P_terminal. exact HP.
Qed.

Lemma keeps_putc (c : Z) : keeps (putc c).
Proof. intros s [] s' HP E. injection E as <-. apply P_terminal. exact HP. Qed.

Lemma keeps_printf (str : string) : keeps (printf str).
Proof. intros s [] s' HP E. injection E as <-. apply P_terminal. exact HP. Qed.

Lemma keeps_puts (str : string) : keeps (puts str).
Proof. intros s [] s' HP E. injection E as <-. apply P_terminal. exact HP. Qed.

Lemma keeps_set_running (b : bool) : keeps (set_running b).
Proof. intros s [] s' HP E. injection E as <-. apply P_terminal. exact HP. Qed.

Lemma keeps_fflush : keeps fflush.
Proof. apply preserves_ret. Qed.

(* a three-bit register field is one of R0..R7 *)
Lemma reg_field_range (x : Z) : 0 ≤ Z.land x 0x7 < R_COND.
Proof.
  change 0x7 with (Z.ones 3). rewrite Z.land_ones by lia.
  pose proof (Z.mod_pos_bound x (2 ^ 3) ltac:(lia)). unfold R_COND.
  change (2 ^ 3) with 8 in *. lia.
Qed.

Lemma keeps_store_reg_field (x v : Z) : keeps (store_reg (Z.land x 0x7) v).
Proof. apply P_store_gpr, reg_field_range. Qed.

Lemma keeps_update_flags (r : Z) : keeps (update_flags r).
Proof.
  unfold update_flags. apply preserves_bind; [apply keeps_load_reg |].
  intros v. repeat apply preserves_if; apply P_store_cond;
    unfold is_flag; auto.
Qed.

Lemma keeps_mem_write (a v : Z) : keeps (mem_write a v).
Proof. apply P_store_mem. Qed.

Lemma keeps_mem_read (a : Z) : keeps (mem_read a).
Proof.
  unfold mem_read. apply preserves_bind; [| intros _; apply keeps_load_mem].
  apply preserves_if; [| apply preserves_ret].
  apply preserves_bind; [apply keeps_check_key | intros k].
  apply preserves_if; [| apply P_store_mem].
  apply preserves_bind; [apply P_store_mem | intros _].
  apply preserves_bind; [apply keeps_getchar | intros c; apply P_store_mem].
Qed.

Lemma keeps_puts_loop (cells : list Z) : keeps (puts_loop cells).
Proof.
  induction cells as [|w rest IH]; cbn [puts_loop];
    [apply preserves_raise |].
  apply preserves_if; [| apply preserves_ret].
  apply preserves_bind; [apply keeps_putc | intros _; exact IH].
Qed.

Lemma keeps_putsp_loop (cells : list Z) : keeps (putsp_loop cells).
Proof.
  induction cells as [|w rest IH]; cbn [putsp_loop];
    [apply preserves_raise |].
  apply preserves_if; [| apply preserves_ret]. cbv zeta.
  apply preserves_bind; [apply keeps_putc | intros _].
  apply preserves_bind; [| intros _; exact IH].
  apply preserves_if; [apply keeps_putc | apply preserves_ret].
Qed.

Ltac keeps_step :=
  first
    [ apply preserves_ret | apply preserves_raise
    | apply keeps_load_reg | apply keeps_store_reg_field
    | apply P_store_gpr; unfold R_R0, R_R7, R_PC, R_COND; lia
    | apply keeps_update_flags | apply keeps_mem_read
    | apply keeps_mem_write | apply keeps_getchar | apply keeps_putc
    | apply keeps_printf | apply keeps_puts | apply keeps_fflush
    | apply keeps_cells_from | apply keeps_puts_loop
    | apply keeps_putsp_loop | apply keeps_set_running
    | apply preserves_if
    | apply preserves_bind; [| intros ?] ].

Lemma keeps_execute_trap (instr : Z) : keeps (execute_trap instr).
Proof.
  unfold execute_trap. cbv zeta.
  destruct (trap_of (Z.land instr 0xFF)) as [[]|]; repeat keeps_step.
Qed.

Lemma keeps_execute (instr : Z) : keeps (execute instr).
Proof.
  unfold execute. cbv zeta.
  destruct (opcode_of (Z.shiftr instr 12)) as [[]|];
    try apply keeps_execute_trap; repeat keeps_step.
Qed.

Lemma keeps_fetch : keeps fetch.
Proof. unfold fetch. repeat keeps_step. Qed.

Lemma keeps_cycle : keeps cycle.
Proof.
  unfold cycle. apply preserves_bind; [apply keeps_fetch |].
  intros instr. apply keeps_execute.
Qed.

Lemma keeps_reachable (s0 s : state) : P s0 → reachable s0 s → P s.
Proof.
  intros H0 Hr. induction Hr as [|s s' _ IH _ Hc]; [exact H0 |].
  exact (keeps_cycle s tt s' IH Hc).
Qed.

(* the image loader writes memory cells only *)
Lemma keeps_store_block (ws : list Z) (p : Z) : keeps (store_block p ws).
Proof.
  revert p. induction ws as [|w ws IH]; intros p; cbn [store_block];
    [apply preserves_ret |].
  apply preserves_bind; [apply P_store_mem | intros _; apply IH].
Qed.

Lemma keeps_swap_loop (n : nat) (p : Z) : keeps (swap_loop n p).
Proof.
  revert p. induction n as [|n IH]; intros p; cbn [swap_loop];
    [apply preserves_ret |].
  apply preserves_bind; [apply keeps_load_mem | intros x].
  apply preserves_bind; [apply P_store_mem | intros _; apply IH].
Qed.

Lemma keeps_store_partial (p : Z) (partial : option Z) :
  keeps (store_partial p partial).
Proof.
  destruct partial as [b|]; cbn [store_partial]; [| apply preserves_ret].
  apply preserves_bind; [apply keeps_load_mem | intros x; apply P_store_mem].
Qed.

Lemma keeps_read_image_file_from (junk : Z) (file : list Z) :
  keeps (read_image_file_from junk file).
Proof.
  unfold read_image_file_from.
  destruct (fread16 1 file) as [[header partial] rest].
  cbv zeta. destruct (fread16 _ rest) as [[ws partial'] ?].
  apply preserves_bind; [apply keeps_store_block | intros _].
  apply preserves_bind; [apply keeps_store_partial | intros _].
  apply keeps_swap_loop.
Qed.

Lemma keeps_read_image_file (file : list Z) : keeps (read_image_file file).
Proof. apply keeps_read_image_file_from. Qed.

Lemma keeps_load_images (files : list (list Z)) : keeps (load_images files).
Proof.
  induction files as [|file files IH]; cbn [load_images];
    [apply preserves_ret |].
  apply preserves_bind; [apply keeps_read_image_file | intros _; exact IH].
Qed.

Lemma keeps_main_setup (files : list (list Z)) : keeps (main_setup files).
Proof.
  unfold main_setup. apply preserves_bind; [apply keeps_load_images |].
  intros _. apply P_store_gpr. unfold R_PC, R_COND. lia.
Qed.

End Invariant.

(** *** The condition register *)

Section CondIn.

Variable F : Z → Prop.
Hypothesis F_flags : ∀ c, is_flag c → F c.

Lemma cond_in_store_mem (a v : Z) : preserves (cond_in F) (store_mem a v).
Proof. intros s [] s' H E. apply store_mem_inv in E as ->. exact H. Qed.

(* a write to R0..R7 or to the PC leaves COND alone *)
Lemma cond_in_store_gpr (r v : Z) :
  0 ≤ r < R_COND → preserves (cond_in F) (store_reg r v).
Proof.
  intros Hr s [] s' (c & Hc & HF) E. apply store_reg_inv in E as [-> _].
  exists c. split; [| exact HF]. cbn [reg with_reg].
  rewrite list_lookup_insert_ne by (unfold R_COND in *; lia). exact Hc.
Qed.

Lemma cond_in_store_cond (c : Z) :
  is_flag c → preserves (cond_in F) (store_reg R_COND c).
Proof.
  intros Hc s [] s' _ E. apply store_reg_inv in E as [-> Hlen].
  exists c. split; [| apply F_flags; exact Hc]. cbn [reg with_reg].
  apply list_lookup_insert_eq. exact Hlen.
Qed.

Lemma cond_in_terminal (s : state) (b : bool) (i o : list Z) :
  cond_in F s → cond_in F (mkState (memory s) (reg s) b i o).
Proof. intros H. exact H. Qed.

Lemma cond_in_reachable (s0 s : state) :
  cond_in F s0 → reachable s0 s → cond_in F s.
Proof.
  apply (keeps_reachable (cond_in F)); auto using cond_in_store_mem,
    cond_in_store_gpr, cond_in_store_cond, cond_in_terminal.
Qed.

End CondIn.

(** *** The arrays keep their declared lengths *)

Lemma wf_store_mem (a v : Z) : preserves wf (store_mem a v).
Proof.
  intros s [] s' [Hm Hr] E. apply store_mem_inv in E as ->.
  split; cbn [memory reg with_memory]; rewrite ?length_insert; assumption.
Qed.

Lemma wf_store_reg (r v : Z) : preserves wf (store_reg r v).
Proof.
  intros s [] s' [Hm Hr] E. apply store_reg_inv in E as [-> _].
  split; cbn [memory reg with_reg]; rewrite ?length_insert; assumption.
Qed.

Lemma wf_terminal (s : state) (b : bool) (i o : list Z) :
  wf s → wf (mkState (memory s) (reg s) b i o).
Proof. intros H. exact H. Qed.

Lemma wf_power_on (input : list Z) : wf (power_on input).
Proof. split; apply length_replicate. Qed.

(* [main] enters its loop with both arrays at their declared lengths *)
Lemma wf_main_setup (files : list (list Z)) (input : list Z) (s0 : state) :
  main_setup files (power_on input) = Ok tt s0 → wf s0.
Proof.
  apply (keeps_main_setup wf); auto using wf_store_mem, wf_store_reg.
  apply wf_power_on.
Qed.

(* and they keep them: memory has 65535 cells in every reachable state *)
Lemma wf_reachable (s0 s : state) : wf s0 → reachable s0 s → wf s.
Proof.
  apply (keeps_reachable wf);
    auto using wf_store_mem, wf_store_reg, wf_terminal.
Qed.

(** ** From [main] to the loop *)

(* the image loader leaves the registers and [running] alone *)
Lemma load_images_frame (files : list (list Z)) (s s' : state) :
  load_images files s = Ok tt s' → reg s' = reg s ∧ running s' = running s.
Proof.
  apply (keeps_load_images (λ x, reg x = reg s ∧ running x = running s));
    [| split; reflexivity].
  intros a v s1 [] s2 H E. apply store_mem_inv in E as ->. exact H.
Qed.

(* whatever the images and the input, [main] enters its loop with the PC at
   0x3000 and every other register zero *)
Lemma main_setup_loop_entry (files : list (list Z)) (input : list Z)
    (s0 : state) :
  main_setup files (power_on input) = Ok tt s0 → loop_entry s0.
Proof.
  intros H. unfold main_setup in H.
  apply bind_Ok_inv in H as ([] & s1 & Hload & Hpc).
  destruct (load_images_frame files (power_on input) s1 Hload)
    as [Hreg Hrun].
  apply store_reg_inv in Hpc as [-> _]. split; cbn [reg running with_reg].
  - rewrite Hreg. reflexivity.
  - exact Hrun.
Qed.

(* the states [run] goes through are the reachable ones *)
Lemma run_reachable (fuel : nat) (s s' : state) :
  run fuel s = Ok tt s' → reachable s s'.
Proof.
  revert s. induction fuel as [|fuel IH]; intros s H; cbn [run] in H.
  - injection H as <-. apply reach_entry.
  - destruct (running s) eqn:Hrun; [| injection H as <-; apply reach_entry].
    apply bind_Ok_inv in H as ([] & s1 & Hc & Hrest).
    specialize (IH s1 Hrest). clear Hrest.
    induction IH as [|s2 s3 _ IH2 Hrun2 Hc2].
    + exact (reach_cycle s s s1 (reach_entry s) Hrun Hc).
    + exact (reach_cycle s s2 s3 IH2 Hrun2 Hc2).
Qed.

Lemma reachable_trans (s0 s1 s2 : state) :
  reachable s0 s1 → reachable s1 s2 → reachable s0 s2.
Proof.
  intros H01 H12. induction H12 as [|s s' _ IH Hrun Hc]; [exact H01 |].
  exact (reach_cycle s0 s s' IH Hrun Hc).
Qed.

(* [main] with no image reaches the loop with every register but the PC
   still zero *)
Lemma main_setup_idle : main_setup [] (power_on []) = Ok tt idle_machine.
Proof. reflexivity. Qed.

Lemma loop_entry_cond (s0 : state) :
  loop_entry s0 → reg s0 !! Z.to_nat R_COND = Some 0.
Proof. intros [-> _]. reflexivity. Qed.

(** C3 (as amended): in every state the loop of [main] reaches, COND holds
    either 0, the value it was zero-initialised to, or exactly one of POS,
    ZERO, NEG; and from a state in which it holds one of the three it holds
    one of the three in every later state. *)
Theorem cond_invariant (s0 s : state) :
  loop_entry s0 → reachable s0 s →
  cond_in (λ c, c = 0 ∨ is_flag c) s
  ∧ (∀ s', cond_in is_flag s → reachable s s' → cond_in is_flag s').
Proof.
  intros H0 Hr. split.
  - apply (cond_in_reachable (λ c, c = 0 ∨ is_flag c)) with (s0 := s0);
      [intros c Hc; right; exact Hc | | exact Hr].
    exists 0. split; [apply loop_entry_cond; exact H0 | left; reflexivity].
  - intros s' Hs Hr'.
    exact (cond_in_reachable is_flag (λ c Hc, Hc) s s' Hs Hr').
Qed.

(** Witness of C3: the loop entry of the machine without an image. *)
Lemma cond_invariant_witness :
  (loop_entry idle_machine ∧ reachable idle_machine idle_machine)
  ∧ cond_in (λ c, c = 0 ∨ is_flag c) idle_machine.
Proof.
  assert (loop_entry idle_machine) as H0 by (split; reflexivity).
  assert (reachable idle_machine idle_machine) as Hr by apply reach_entry.
  split; [exact (conj H0 Hr) |].
  exact (proj1 (cond_invariant idle_machine idle_machine H0 Hr)).
Defined.

(** Counterexample to C3 as stated: at the loop entry, which is a reachable
    state, COND still holds the 0 it was initialised to, and 0 is none of
    POS, ZERO, NEG. *)
Lemma cond_zero_at_entry_counterexample :
  main_setup [] (power_on []) = Ok tt idle_machine
  ∧ loop_entry idle_machine
  ∧ reachable idle_machine idle_machine
  ∧ reg idle_machine !! Z.to_nat R_COND = Some 0
  ∧ ¬ is_flag 0
  ∧ ¬ cond_in is_flag idle_machine.
Proof.
  split; [exact main_setup_idle |].
  split; [split; reflexivity |].
  split; [apply reach_entry |].
  split; [reflexivity |].
  split; [exact zero_not_flag |].
  intros (c & Hc & Hf).
  assert (c = 0) as -> by (apply (inj Some); rewrite <- Hc; reflexivity).
  exact (zero_not_flag Hf).
Qed.

(** ** The image loader *)

Section Loader.

(* an n-bit value and a value shifted left by n bits do not overlap *)
Lemma lor_low_high (a b n : Z) :
  0 ≤ n → 0 ≤ a < 2 ^ n → Z.lor a (Z.shiftl b n) = a + b * 2 ^ n.
Proof.
  intros Hn Ha.
  pose proof (Z.add_lor_land a (Z.shiftl b n)) as E.
  assert (Z.land a (Z.shiftl b n) = 0) as E0.
  { apply Z.bits_inj'; intros i Hi. rewrite Z.land_spec, Z.bits_0.
    destruct (Z.lt_ge_cases i n) as [Hlt|Hge].
    - rewrite Z.shiftl_spec_low by lia. apply andb_false_r.
    - rewrite <- (Z.mod_small a (2 ^ n)) by lia.
      rewrite Z.mod_pow2_bits_high by lia. reflexivity. }
  rewrite E0 in E. rewrite Z.shiftl_mul_pow2 in * by lia. lia.
Qed.

Lemma as_read_value (w : Z) :
  is_u16 w → as_read w = w / 256 + (w mod 256) * 256.
Proof.
  intros Hw. unfold is_u16 in Hw. unfold as_read.
  change 0xFF with (Z.ones 8).
  rewrite Z.land_ones, Z.shiftr_div_pow2 by lia.
  change (2 ^ 8) with 256.
  rewrite lor_low_high
    by (change (2 ^ 8) with 256; Z.div_mod_to_equations; lia).
  reflexivity.
Qed.

(* the byte swap undoes the host's little-endian reading *)
Lemma swap16_as_read (w : Z) : is_u16 w → swap16 (as_read w) = w.
Proof.
  intros Hw. rewrite as_read_value by done. unfold is_u16 in Hw.
  unfold swap16, u16.
  set (hi := w / 256). set (lo := w mod 256).
  assert (0 ≤ hi < 256 ∧ 0 ≤ lo < 256 ∧ w = hi * 256 + lo) as (Hhi & Hlo & E)
    by (subst hi lo; Z.div_mod_to_equations; lia).
  rewrite Z.shiftr_div_pow2, Z.lor_comm by lia. change (2 ^ 8) with 256.
  replace ((hi + lo * 256) / 256) with lo by (Z.div_mod_to_equations; lia).
  rewrite lor_low_high by (change (2 ^ 8) with 256; lia).
  change (2 ^ 8) with 256. Z.div_mod_to_equations. lia.
Qed.

Lemma fread16_encoded (n : nat) (ws : list Z) :
  fread16 n (ws ≫= be16)
  = (as_read <$> take n ws, None, drop n ws ≫= be16).
Proof.
  revert ws. induction n as [|n IH]; intros [|w ws]; try reflexivity.
  cbn [mbind list_bind be16 app fread16]. rewrite IH. reflexivity.
Qed.

(* [fread] fills consecutive cells, given that they exist *)
Lemma store_block_inserts (ws : list Z) (p : Z) (s : state) :
  0 ≤ p → (Z.to_nat p + length ws ≤ length (memory s))%nat →
  store_block p ws s
  = Ok tt (with_memory (list_inserts (Z.to_nat p) ws (memory s)) s).
Proof.
  revert p s. induction ws as [|w ws IH]; intros p s Hp Hlen.
  - destruct s; reflexivity.
  - cbn [length] in Hlen. cbn [store_block].
    rewrite (bind_Ok _ _ _ _ _ (store_mem_Ok p w s ltac:(lia))).
    rewrite IH by (cbn [memory with_memory]; rewrite ?length_insert; lia).
    cbn [memory with_memory list_inserts]. f_equal. unfold with_memory.
    cbn [reg running stdin stdout]. f_equal.
    replace (Z.to_nat (p + 1)) with (S (Z.to_nat p)) by lia.
    symmetry. apply list_insert_inserts_lt. lia.
Qed.

(* the loop replaces each of the cells by its byte swap *)
Lemma swap_loop_inserts (ws : list Z) (p : Z) (mem : list Z) (s : state) :
  0 ≤ p → (Z.to_nat p + length ws ≤ length mem)%nat →
  swap_loop (length ws) p
    (with_memory (list_inserts (Z.to_nat p) ws mem) s)
  = Ok tt (with_memory (list_inserts (Z.to_nat p) (swap16 <$> ws) mem) s).
Proof.
  revert p mem. induction ws as [|w ws IH]; intros p mem Hp Hlen.
  - reflexivity.
  - cbn [length] in Hlen. cbn [length swap_loop list_inserts fmap list_fmap].
    assert (Z.to_nat p < length (list_inserts (S (Z.to_nat p)) ws mem))%nat
      as Hin by (rewrite length_inserts; lia).
    set (s1 := with_memory
                 (<[Z.to_nat p := w]>
                    (list_inserts (S (Z.to_nat p)) ws mem)) s).
    assert (load_mem p s1 = Ok w s1) as Hload
      by (apply load_mem_Ok, list_lookup_insert_eq; exact Hin).
    assert (store_mem p (swap16 w) s1
            = Ok tt (with_memory
                       (<[Z.to_nat p := swap16 w]> (memory s1)) s1))
      as Hstore
      by (apply store_mem_Ok; subst s1; cbn [memory with_memory];
          rewrite length_insert; exact Hin).
    rewrite (bind_Ok _ _ _ _ _ Hload), (bind_Ok _ _ _ _ _ Hstore).
    subst s1. cbn [memory with_memory]. rewrite list_insert_insert_eq.
    rewrite list_insert_inserts_lt by lia.
    replace (S (Z.to_nat p)) with (Z.to_nat (p + 1)) by lia.
    pose proof (IH (p + 1) (<[Z.to_nat p := swap16 w]> mem) ltac:(lia)
                  ltac:(rewrite length_insert; lia)) as E.
    unfold with_memory in *. cbn [reg running stdin stdout] in *.
    rewrite E. do 2 f_equal.
    replace (Z.to_nat (p + 1)) with (S (Z.to_nat p)) by lia.
    symmetry. apply list_insert_inserts_lt. lia.
Qed.

Lemma swap16_as_read_all (ws : list Z) :
  Forall is_u16 ws → swap16 <$> (as_read <$> ws) = ws.
Proof.
  induction 1 as [|w ws Hw _ IH]; [reflexivity |].
  cbn [fmap list_fmap] in *. rewrite swap16_as_read, IH by done.
  reflexivity.
Qed.

(* The loader in one equation: of the data words of a well-formed image,
   the first 65535 - origin are stored from [origin] on, in order and in
   host byte order; nothing else changes. *)
Lemma read_image_file_loads (origin : Z) (ws : list Z) (s : state) :
  length (memory s) = MEMORY_LEN → is_u16 origin → Forall is_u16 ws →
  read_image_file (image_bytes origin ws) s
  = Ok tt (with_memory
             (list_inserts (Z.to_nat origin)
                (take (Z.to_nat (UINT16_MAX - origin)) ws) (memory s)) s).
Proof.
  intros Hlen Ho Hws. unfold read_image_file, read_image_file_from, image_bytes.
  cbn [be16 app fread16].
  rewrite (swap16_as_read origin Ho : swap16 (Z.lor _ _) = _).
  unfold is_u16, UINT16_MAX in *.
  assert (u16 (65535 - origin) = 65535 - origin) as ->
    by (unfold u16; apply Z.mod_small; lia).
  rewrite fread16_encoded.
  set (loaded := take (Z.to_nat (65535 - origin)) ws).
  assert (Z.to_nat origin + length loaded ≤ length (memory s))%nat as Hfit
    by (subst loaded; rewrite length_take, Hlen;
        unfold MEMORY_LEN, UINT16_MAX; lia).
  rewrite (bind_Ok _ _ _ _ _
             (store_block_inserts (as_read <$> loaded) origin s
                ltac:(lia) ltac:(rewrite length_fmap; exact Hfit))).
  cbn [store_partial]. rewrite bind_unfold.
  unfold mret at 1, M_ret at 1.
  rewrite length_fmap, <- (length_fmap as_read loaded).
  rewrite swap_loop_inserts by (rewrite ?length_fmap; lia).
  rewrite swap16_as_read_all by (subst loaded; apply Forall_take; exact Hws).
  reflexivity.
Qed.

(* round trip for an image that ends at or below address 0xFFFE *)
Lemma read_image_file_round_trip (origin : Z) (ws : list Z) (s : state) :
  length (memory s) = MEMORY_LEN → is_u16 origin → Forall is_u16 ws →
  origin + Z.of_nat (length ws) ≤ 65535 →
  ∃ s', read_image_file (image_bytes origin ws) s = Ok tt s'
      ∧ (∀ i, (i < length ws)%nat →
              memory s' !! (Z.to_nat origin + i)%nat = ws !! i)
      ∧ (∀ j, (j < Z.to_nat origin ∨ Z.to_nat origin + length ws ≤ j)%nat →
              memory s' !! j = memory s !! j)
      ∧ reg s' = reg s.
Proof.
  intros Hlen Ho Hws Hfit. unfold is_u16 in Ho. eexists.
  split; [apply read_image_file_loads; done |].
  rewrite take_ge by (unfold UINT16_MAX; lia).
  cbn [memory reg with_memory].
  assert (length (memory s) = Z.to_nat 65535) as Hl by exact Hlen.
  split; [| split; [| reflexivity]].
  - intros i Hi. rewrite list_lookup_inserts by lia. f_equal. lia.
  - intros j [Hj|Hj].
    + apply list_lookup_inserts_lt. exact Hj.
    + apply list_lookup_inserts_ge. exact Hj.
Qed.

End Loader.

(** C2 (same missing cell as C1): the loader reads at most
    UINT16_MAX - origin words.  An image with origin 0xFFFE and two data
    words fits the 16-bit address space, yet only its first word is stored:
    the second one belongs at 0xFFFF, which is not a cell of [memory]. *)
Theorem image_top_word_dropped (s : state) :
  length (memory s) = MEMORY_LEN →
  read_image_file top_image s = Ok tt (poke 0xFFFE 0x1234 s)
  ∧ memory (poke 0xFFFE 0x1234 s) !! Z.to_nat 0xFFFE = Some 0x1234
  ∧ memory (poke 0xFFFE 0x1234 s) !! Z.to_nat 0xFFFF = None.
Proof.
  intros Hlen.
  assert (is_u16 0xFFFE) as Ho by (unfold is_u16; lia).
  assert (Forall is_u16 [0x1234; 0x5678]) as Hws
    by (repeat constructor; unfold is_u16; lia).
  split; [exact (read_image_file_loads 0xFFFE _ s Hlen Ho Hws) |].
  cbn [memory poke with_memory]. split.
  - apply list_lookup_insert_eq. rewrite Hlen.
    unfold MEMORY_LEN, UINT16_MAX. lia.
  - apply lookup_ge_None_2. rewrite length_insert, Hlen.
    unfold MEMORY_LEN, UINT16_MAX. lia.
Qed.

(** Witness of C2: the image loaded into the zeroed machine. *)
Lemma image_top_word_dropped_witness :
  length (memory idle_machine) = MEMORY_LEN
  ∧ read_image_file top_image idle_machine
    = Ok tt (poke 0xFFFE 0x1234 idle_machine)
  ∧ memory (poke 0xFFFE 0x1234 idle_machine) !! Z.to_nat 0xFFFE = Some 0x1234
  ∧ memory (poke 0xFFFE 0x1234 idle_machine) !! Z.to_nat 0xFFFF = None.
Proof.
  assert (length (memory idle_machine) = MEMORY_LEN) as Hlen
    by apply length_replicate.
  split; [exact Hlen |].
  exact (image_top_word_dropped idle_machine Hlen).
Defined.

(** ** A complete run *)

(* the program of [hello_image] prints "HI", then the halt notice, and the
   loop ends with [running] cleared *)
Example hello_run :
  match main 10 [hello_image] (power_on []) with
  | Ok _ s => stdout s = bytes_of_string "HIHALT" ++ [10] ∧ running s = false
  | Fault _ _ => False
  end.
Proof. vm_compute. split; reflexivity. Qed.

(** * Further properties of the program *)

(** ** Byte swap *)

Lemma swap16_value (x : Z) :
  is_u16 x → swap16 x = (x mod 256) * 256 + x / 256.
Proof.
  intros Hx. unfold is_u16 in Hx. unfold swap16, u16.
  rewrite Z.shiftr_div_pow2, Z.lor_comm by lia. change (2 ^ 8) with 256.
  rewrite lor_low_high
    by (change (2 ^ 8) with 256; Z.div_mod_to_equations; lia).
  change (2 ^ 8) with 256. Z.div_mod_to_equations. lia.
Qed.

(** X1: [swap16] exchanges the two bytes of a 16-bit word, its result is a
    16-bit word again, and swapping twice gives the word back. *)
Theorem swap16_involutive (x : Z) :
  is_u16 x →
  swap16 x = (x mod 256) * 256 + x / 256
  ∧ is_u16 (swap16 x)
  ∧ swap16 (swap16 x) = x.
Proof.
  intros Hx. pose proof (swap16_value x Hx) as E.
  assert (is_u16 (swap16 x)) as Hy
    by (rewrite E; unfold is_u16 in *; Z.div_mod_to_equations; lia).
  split; [exact E |]. split; [exact Hy |].
  rewrite (swap16_value _ Hy), E. unfold is_u16 in Hx.
  Z.div_mod_to_equations. lia.
Qed.

(** Witness of X1. *)
Lemma swap16_involutive_witness :
  is_u16 0x1234
  ∧ swap16 0x1234 = (0x1234 mod 256) * 256 + 0x1234 / 256
  ∧ is_u16 (swap16 0x1234)
  ∧ swap16 (swap16 0x1234) = 0x1234.
Proof.
  assert (is_u16 0x1234) as Hx by (unfold is_u16; lia).
  split; [exact Hx |]. exact (swap16_involutive 0x1234 Hx).
Defined.

(** ** The memory bus, read after write *)

Lemma machine_memory_length (regs : list Z) (cells : list (Z * Z))
    (input : list Z) :
  length (memory (machine regs cells input)) = MEMORY_LEN.
Proof.
  cbn [machine memory]. induction cells as [|c cells IH]; cbn [foldr].
  - apply length_replicate.
  - rewrite length_insert. exact IH.
Qed.

(** X2: a word written with [mem_write] to a cell below 0xFFFF other than
    the keyboard status register is what the next [mem_read] of that address
    returns, and a read of any other stored cell returns what it held before
    the write. *)
Theorem mem_write_then_read (a v : Z) (s : state) :
  length (memory s) = MEMORY_LEN → 0 ≤ a < 65535 → a ≠ MR_KBSR →
  (mem_write a v;; mem_read a) s = Ok v (poke a v s)
  ∧ (∀ b w, 0 ≤ b → b ≠ a → b ≠ MR_KBSR →
       memory s !! Z.to_nat b = Some w →
       (mem_write a v;; mem_read b) s = Ok w (poke a v s)).
Proof.
  intros Hlen Ha Hk.
  destruct (mem_write_in_bounds a v s Hlen Ha) as [Hw Hv].
  split.
  - rewrite (bind_Ok _ _ _ _ _ Hw). apply mem_read_stored; assumption.
  - intros b w Hb Hne Hbk Hbw. rewrite (bind_Ok _ _ _ _ _ Hw).
    apply mem_read_stored; [assumption |]. cbn [memory poke with_memory].
    rewrite list_lookup_insert_ne by lia. exact Hbw.
Qed.

(** Witness of X2: 0xBEEF written to 0x4001, read back, and the neighbour
    0x4000 still holding 0x1111. *)
Lemma mem_write_then_read_witness :
  (length (memory data_machine) = MEMORY_LEN ∧ 0 ≤ 0x4001 < 65535
   ∧ 0x4001 ≠ MR_KBSR)
  ∧ (mem_write 0x4001 0xBEEF;; mem_read 0x4001) data_machine
    = Ok 0xBEEF (poke 0x4001 0xBEEF data_machine)
  ∧ (mem_write 0x4001 0xBEEF;; mem_read 0x4000) data_machine
    = Ok 0x1111 (poke 0x4001 0xBEEF data_machine).
Proof.
  assert (length (memory data_machine) = MEMORY_LEN) as Hlen
    by apply machine_memory_length.
  assert (0 ≤ 0x4001 < 65535) as Ha by lia.
  assert (0x4001 ≠ MR_KBSR) as Hk by discriminate.
  split; [exact (conj Hlen (conj Ha Hk)) |].
  destruct (mem_write_then_read 0x4001 0xBEEF data_machine Hlen Ha Hk)
    as [H1 H2].
  split; [exact H1 |].
  apply (H2 0x4000 0x1111); [lia | discriminate | discriminate |].
  vm_compute. reflexivity.
Defined.

(** X3: a word written to the keyboard status register has no effect on a
    following read of it.  [mem_read] of 0xFE00 overwrites the cell with the
    fresh status before it reads it, so the write followed by the read gives
    the same result and the same state as the read alone, and what is read,
    and left in the cell, is the status: 0x8000 or 0. *)
Theorem kbsr_write_overwritten (v : Z) (s : state) :
  length (memory s) = MEMORY_LEN →
  (mem_write MR_KBSR v;; mem_read MR_KBSR) s = mem_read MR_KBSR s
  ∧ ∃ k s',
      mem_read MR_KBSR s = Ok k s'
      ∧ (k = 0 ∨ k = 0x8000)
      ∧ memory s' !! Z.to_nat MR_KBSR = Some k.
Proof.
  intros Hlen.
  assert (length (memory (poke MR_KBSR v s)) = MEMORY_LEN) as Hlen'
    by (cbn [memory poke with_memory]; rewrite length_insert; exact Hlen).
  assert (mem_write MR_KBSR v s = Ok tt (poke MR_KBSR v s)) as Hw
    by (apply store_mem_Ok, kbsr_in_bounds; exact Hlen).
  rewrite (bind_Ok _ _ _ _ _ Hw).
  destruct (stdin s) as [|b rest] eqn:Hin.
  - rewrite !mem_read_kbsr_idle by assumption. split.
    + unfold poke, with_memory. cbn [memory reg running stdin stdout].
      rewrite list_insert_insert_eq. reflexivity.
    + eexists _, _. split; [reflexivity |]. split; [left; reflexivity |].
      apply list_lookup_insert_eq. apply kbsr_in_bounds. exact Hlen.
  - rewrite (mem_read_kbsr_key b rest), (mem_read_kbsr_key b rest s)
      by assumption.
    split.
    + cbn [memory reg running stdout poke with_memory].
      rewrite list_insert_insert_eq. reflexivity.
    + eexists _, _. split; [reflexivity |]. split; [right; reflexivity |].
      cbn [memory].
      rewrite list_lookup_insert_ne by (unfold MR_KBDR, MR_KBSR; lia).
      apply list_lookup_insert_eq. apply kbsr_in_bounds. exact Hlen.
Qed.

(** Witness of X3: 0x1234 written to the status register, no key typed. *)
Lemma kbsr_write_overwritten_witness :
  length (memory data_machine) = MEMORY_LEN
  ∧ (mem_write MR_KBSR 0x1234;; mem_read MR_KBSR) data_machine
    = mem_read MR_KBSR data_machine.
Proof.
  assert (length (memory data_machine) = MEMORY_LEN) as Hlen
    by apply machine_memory_length.
  split; [exact Hlen |].
  exact (proj1 (kbsr_write_overwritten 0x1234 data_machine Hlen)).
Defined.

(** ** The image loader on arbitrary files *)

(* how many elements [fread] returns, and when it meets a partial one *)
Lemma fread16_length (n : nat) (bytes : list Z) :
  (length (fread16 n bytes).1.1 ≤ n)%nat
  ∧ (2 * length (fread16 n bytes).1.1 ≤ length bytes)%nat
  ∧ ((fread16 n bytes).1.2 ≠ None →
     (length (fread16 n bytes).1.1 < n)%nat
     ∧ length bytes = (2 * length (fread16 n bytes).1.1 + 1)%nat).
Proof.
  revert bytes. induction n as [|n IH]; intros bytes.
  - destruct bytes; cbn; repeat split; try lia; done.
  - destruct bytes as [|b0 [|b1 rest]]; cbn [fread16 fst snd length].
    + repeat split; try lia; done.
    + repeat split; lia.
    + specialize (IH rest). destruct (fread16 n rest) as [[ws partial] r].
      cbn [fst snd length] in *. destruct IH as (H1 & H2 & H3).
      split; [lia |]. split; [lia |].
      intros Hp. specialize (H3 Hp). lia.
Qed.

(* a file that ends one byte after [m] whole elements, read with room for
   more than [m] *)
Lemma fread16_odd (n m : nat) (body : list Z) (b : Z) :
  length body = (2 * m)%nat → (m < n)%nat →
  ∃ ws, length ws = m ∧ fread16 n (body ++ [b]) = (ws, Some b, []).
Proof.
  revert n body. induction m as [|m IH]; intros n body Hb Hn.
  - destruct body; [| discriminate Hb]. destruct n as [|n]; [lia |].
    exists []. split; reflexivity.
  - destruct body as [|b0 [|b1 body]]; cbn [length] in Hb; try lia.
    destruct n as [|n]; [lia |].
    destruct (IH n body ltac:(lia) ltac:(lia)) as (ws & Hl & E).
    eexists (_ :: ws). split; [cbn [length]; rewrite Hl; reflexivity |].
    cbn [app fread16]. rewrite E. reflexivity.
Qed.

Lemma swap16_range (x : Z) : is_u16 (swap16 x).
Proof.
  unfold swap16, u16, is_u16. apply Z.mod_pos_bound. lia.
Qed.

(* a cell written beyond a block commutes with the block *)
Lemma list_insert_inserts_ge (k i : nat) (x : Z) (ws l : list Z) :
  (i + length ws ≤ k)%nat →
  <[k := x]> (list_inserts i ws l) = list_inserts i ws (<[k := x]> l).
Proof.
  revert i. induction ws as [|w ws IH]; intros i Hk; [reflexivity |].
  cbn [length] in Hk. cbn [list_inserts].
  rewrite list_insert_insert_ne by lia. rewrite IH by lia. reflexivity.
Qed.

(* a file too short to hold the origin: both calls of [fread] return 0 and
   nothing is stored, whatever [origin] held *)
Lemma read_image_file_from_short (junk : Z) (file : list Z) (s : state) :
  (length file < 2)%nat → read_image_file_from junk file s = Ok tt s.
Proof.
  intros Hshort. unfold read_image_file_from.
  destruct file as [|b0 [|b1 rest]]; cbn [length] in Hshort; try lia;
    cbn [fread16]; cbv zeta;
    match goal with
    | |- context [fread16 ?n []] => destruct n
    end; reflexivity.
Qed.

(* what the loader does with any file that holds an origin: the complete
   elements, byte-swapped, from [origin] on, and the byte of a partial last
   element in the low byte of the next cell *)
Lemma read_image_file_from_any (junk b0 b1 : Z) (rest : list Z) (s : state) :
  length (memory s) = MEMORY_LEN →
  let origin := swap16 (Z.lor b0 (Z.shiftl b1 8)) in
  let r := fread16 (Z.to_nat (UINT16_MAX - origin)) rest in
  read_image_file_from junk (b0 :: b1 :: rest) s
  = Ok tt
      (with_memory
         (list_inserts (Z.to_nat origin) (swap16 <$> r.1.1)
            (match r.1.2 with
             | None => memory s
             | Some b =>
                 <[Z.to_nat (origin + Z.of_nat (length r.1.1)) :=
                     Z.lor (Z.land
                              (get_mem (origin + Z.of_nat (length r.1.1)) s)
                              0xFF00) b]> (memory s)
             end)) s).
Proof.
  intros Hlen origin r. unfold read_image_file_from. cbn [fread16].
  fold origin. pose proof (swap16_range (Z.lor b0 (Z.shiftl b1 8))) as Ho.
  fold origin in Ho. unfold is_u16 in Ho. cbv zeta.
  assert (u16 (UINT16_MAX - origin) = UINT16_MAX - origin) as ->
    by (unfold u16, UINT16_MAX; apply Z.mod_small; lia).
  pose proof (fread16_length (Z.to_nat (UINT16_MAX - origin)) rest)
    as (Hn & _ & Hp).
  fold r in Hn, Hp. subst r.
  destruct (fread16 (Z.to_nat (UINT16_MAX - origin)) rest)
    as [[ws partial] left].
  cbn [fst snd] in *.
  assert (Z.to_nat origin + length ws ≤ length (memory s))%nat as Hfit
    by (rewrite Hlen; unfold MEMORY_LEN, UINT16_MAX in *; lia).
  rewrite (bind_Ok _ _ _ _ _
             (store_block_inserts ws origin s ltac:(lia) Hfit)).
  destruct partial as [b|].
  - destruct (Hp ltac:(done)) as [Hlt _].
    set (k := origin + Z.of_nat (length ws)).
    assert (Z.to_nat k < length (memory s))%nat as Hk
      by (subst k; rewrite Hlen; unfold MEMORY_LEN, UINT16_MAX in *; lia).
    assert (Z.to_nat origin + length ws ≤ Z.to_nat k)%nat as Hge
      by (subst k; lia).
    set (s1 := with_memory (list_inserts (Z.to_nat origin) ws (memory s)) s).
    assert (load_mem k s1 = Ok (get_mem k s) s1) as Hload.
    { apply load_mem_Ok. subst s1. cbn [memory with_memory].
      rewrite list_lookup_inserts_ge by exact Hge. unfold get_mem.
      destruct (lookup_lt_is_Some_2 _ _ Hk) as [x ->]. reflexivity. }
    assert (store_partial k (Some b) s1
            = Ok tt (with_memory
                       (<[Z.to_nat k :=
                            Z.lor (Z.land (get_mem k s) 0xFF00) b]>
                          (memory s1)) s1)) as Hsp.
    { cbn [store_partial]. rewrite (bind_Ok _ _ _ _ _ Hload).
      apply store_mem_Ok. subst s1. cbn [memory with_memory].
      rewrite length_inserts. exact Hk. }
    rewrite (bind_Ok _ _ _ _ _ Hsp).
    subst s1. cbn [memory with_memory].
    rewrite list_insert_inserts_ge by exact Hge.
    pose proof (swap_loop_inserts ws origin
                  (<[Z.to_nat k := Z.lor (Z.land (get_mem k s) 0xFF00) b]>
                     (memory s)) s ltac:(lia)
                  ltac:(rewrite length_insert; exact Hfit)) as E.
    unfold with_memory in *. cbn [memory reg running stdin stdout] in *.
    exact E.
  - cbn [store_partial]. rewrite bind_unfold. unfold mret at 1, M_ret at 1.
    apply swap_loop_inserts; [lia | exact Hfit].
Qed.

(* the value [origin] held before the first [fread] plays no part *)
Lemma read_image_file_from_junk (junk : Z) (file : list Z) (s : state) :
  length (memory s) = MEMORY_LEN →
  read_image_file_from junk file s = read_image_file file s.
Proof.
  intros Hlen. unfold read_image_file.
  destruct file as [|b0 [|b1 rest]].
  - rewrite !read_image_file_from_short by (cbn [length]; lia). reflexivity.
  - rewrite !read_image_file_from_short by (cbn [length]; lia). reflexivity.
  - rewrite !read_image_file_from_any by exact Hlen. reflexivity.
Qed.

(** X5: [read_image_file] on an arbitrary file.  The value the local
    [origin] holds before the first [fread] plays no part.  A file shorter
    than two bytes changes nothing.  Any other file is loaded without an
    access outside the array: the array keeps its length; the registers, the
    running flag and the terminal are unchanged; no cell below the origin or
    beyond the words the file holds (a stray last byte counted as a word) is
    changed; and a stray last byte, when [fread] had room for another word,
    replaces the low byte of the cell after the last whole word. *)
Theorem read_image_file_safe (junk : Z) (file : list Z) (s : state) :
  length (memory s) = MEMORY_LEN →
  read_image_file_from junk file s = read_image_file file s
  ∧ ((length file < 2)%nat → read_image_file file s = Ok tt s)
  ∧ (∀ b0 b1 rest, file = b0 :: b1 :: rest →
       ∃ s',
         read_image_file file s = Ok tt s'
         ∧ length (memory s') = MEMORY_LEN
         ∧ reg s' = reg s ∧ running s' = running s
         ∧ stdin s' = stdin s ∧ stdout s' = stdout s
         ∧ (∀ j, (j < Z.to_nat (swap16 (Z.lor b0 (Z.shiftl b1 8)))
                  ∨ Z.to_nat (swap16 (Z.lor b0 (Z.shiftl b1 8)))
                    + (length rest + 1) / 2 ≤ j)%nat →
                 memory s' !! j = memory s !! j)
         ∧ (∀ body b m,
              rest = body ++ [b] → length body = (2 * m)%nat →
              swap16 (Z.lor b0 (Z.shiftl b1 8)) + Z.of_nat m < 65535 →
              memory s'
                !! (Z.to_nat (swap16 (Z.lor b0 (Z.shiftl b1 8))) + m)%nat
              = Some (Z.lor
                        (Z.land
                           (get_mem (swap16 (Z.lor b0 (Z.shiftl b1 8))
                                     + Z.of_nat m) s) 0xFF00) b))).
Proof.
  intros Hlen. split; [apply read_image_file_from_junk; exact Hlen |]. split.
  - intros Hshort. apply read_image_file_from_short. exact Hshort.
  - intros b0 b1 rest ->. eexists.
    split; [apply read_image_file_from_any; exact Hlen |].
    set (origin := swap16 (Z.lor b0 (Z.shiftl b1 8))).
    pose proof (swap16_range (Z.lor b0 (Z.shiftl b1 8))) as Ho.
    fold origin in Ho. unfold is_u16 in Ho.
    pose proof (fread16_length (Z.to_nat (UINT16_MAX - origin)) rest)
      as (Hn & Hb & Hp).
    cbn [memory reg running stdin stdout with_memory].
    assert (length (fread16 (Z.to_nat (UINT16_MAX - origin)) rest).1.1
            ≤ (length rest + 1) / 2)%nat as Hhalf
      by (apply Nat.div_le_lower_bound; lia).
    split.
    { rewrite length_inserts.
      destruct (fread16 _ rest).1.2; rewrite ?length_insert; exact Hlen. }
    do 4 (split; [reflexivity |]). split.
    + intros j Hj.
      assert (match (fread16 (Z.to_nat (UINT16_MAX - origin)) rest).1.2 with
              | None => memory s
              | Some b =>
                  <[Z.to_nat
                      (origin
                       + Z.of_nat
                           (length
                              (fread16 (Z.to_nat (UINT16_MAX - origin))
                                 rest).1.1)) :=
                      Z.lor
                        (Z.land
                           (get_mem
                              (origin
                               + Z.of_nat
                                   (length
                                      (fread16
                                         (Z.to_nat (UINT16_MAX - origin))
                                         rest).1.1)) s) 0xFF00) b]>
                    (memory s)
              end !! j = memory s !! j) as Hbase.
      { destruct (fread16 _ rest).1.2 as [b|] eqn:Epart; [| reflexivity].
        destruct (Hp ltac:(done)) as [_ Hodd].
        apply list_lookup_insert_ne.
        assert ((length rest + 1) / 2
                = S (length (fread16 (Z.to_nat (UINT16_MAX - origin))
                               rest).1.1))%nat as Eh
          by (rewrite Hodd;
              replace (2 * _ + 1 + 1)%nat
                with ((length (fread16 (Z.to_nat (UINT16_MAX - origin))
                                 rest).1.1 + 1) * 2)%nat by lia;
              rewrite Nat.div_mul by lia; lia).
        lia. }
      destruct Hj as [Hj|Hj].
      * rewrite list_lookup_inserts_lt by exact Hj. exact Hbase.
      * rewrite list_lookup_inserts_ge by (rewrite length_fmap; lia).
        exact Hbase.
    + intros body b m -> Hbody Hroom.
      destruct (fread16_odd (Z.to_nat (UINT16_MAX - origin)) m body b Hbody
                  ltac:(unfold UINT16_MAX; lia)) as (ws & Hws & E).
      rewrite E. cbn [fst snd]. rewrite Hws.
      rewrite list_lookup_inserts_ge by (rewrite length_fmap; lia).
      replace (Z.to_nat (origin + Z.of_nat m)) with (Z.to_nat origin + m)%nat
        by lia.
      apply list_lookup_insert_eq. rewrite Hlen.
      unfold MEMORY_LEN, UINT16_MAX. lia.
Qed.

(** Witness of X5: a file of five bytes, origin 0x3000, one whole word and a
    stray byte, which lands in the low byte of the cell 0x3001. *)
Lemma read_image_file_safe_witness :
  length (memory data_machine) = MEMORY_LEN
  ∧ ∃ s',
      read_image_file [0x30; 0x00; 0xAB; 0xCD; 0xEF] data_machine = Ok tt s'
      ∧ length (memory s') = MEMORY_LEN
      ∧ reg s' = reg data_machine
      ∧ memory s' !! 0x3001%nat = Some 0xEF.
Proof.
  assert (length (memory data_machine) = MEMORY_LEN) as Hlen
    by apply machine_memory_length.
  split; [exact Hlen |].
  destruct (proj2 (proj2 (read_image_file_safe 0
                            [0x30; 0x00; 0xAB; 0xCD; 0xEF] data_machine Hlen))
              0x30 0x00 [0xAB; 0xCD; 0xEF] eq_refl)
    as (s' & E & Hl & Hr & _ & _ & _ & _ & Hstray).
  exists s'. split; [exact E |]. split; [exact Hl |]. split; [exact Hr |].
  exact (Hstray [0xAB; 0xCD] 0xEF 1%nat eq_refl eq_refl
           ltac:(vm_compute; reflexivity)).
Defined.

(** X6: round trip of the loader.  For an image of N 16-bit data words
    whose origin O satisfies O + N <= 65535, after [read_image_file] the
    cells O .. O+N-1 hold exactly the data words in host byte order, every
    other cell is as before, and registers and terminal are untouched. *)
Theorem image_round_trip (origin : Z) (ws : list Z) (s : state) :
  length (memory s) = MEMORY_LEN → is_u16 origin → Forall is_u16 ws →
  origin + Z.of_nat (length ws) ≤ 65535 →
  ∃ s',
    read_image_file (image_bytes origin ws) s = Ok tt s'
    ∧ (∀ i, (i < length ws)%nat →
            memory s' !! (Z.to_nat origin + i)%nat = ws !! i)
    ∧ (∀ j, (j < Z.to_nat origin ∨ Z.to_nat origin + length ws ≤ j)%nat →
            memory s' !! j = memory s !! j)
    ∧ reg s' = reg s ∧ running s' = running s
    ∧ stdin s' = stdin s ∧ stdout s' = stdout s.
Proof.
  intros Hlen Ho Hws Hfit.
  pose proof (read_image_file_loads origin ws s Hlen Ho Hws) as E.
  destruct (read_image_file_round_trip origin ws s Hlen Ho Hws Hfit)
    as (s' & E' & Hin & Hout & Hreg).
  exists s'. split; [exact E' |]. split; [exact Hin |].
  split; [exact Hout |]. split; [exact Hreg |].
  rewrite E in E'. injection E' as <-. repeat split; reflexivity.
Qed.

(** Witness of X6: the three-instruction program of [hello_image]. *)
Lemma image_round_trip_witness :
  (length (memory data_machine) = MEMORY_LEN ∧ is_u16 0x3000
   ∧ Forall is_u16 [0xE002; 0xF022; 0xF025; 0x0048; 0x0049; 0x0000]
   ∧ 0x3000 + Z.of_nat 6 ≤ 65535)
  ∧ ∃ s',
      read_image_file hello_image data_machine = Ok tt s'
      ∧ (∀ i, (i < 6)%nat →
              memory s' !! (Z.to_nat 0x3000 + i)%nat
              = [0xE002; 0xF022; 0xF025; 0x0048; 0x0049; 0x0000] !! i).
Proof.
  assert (length (memory data_machine) = MEMORY_LEN) as Hlen
    by apply machine_memory_length.
  assert (is_u16 0x3000) as Ho by (unfold is_u16; lia).
  assert (Forall is_u16 [0xE002; 0xF022; 0xF025; 0x0048; 0x0049; 0x0000])
    as Hws by (repeat constructor; unfold is_u16; lia).
  assert (0x3000 + Z.of_nat 6 ≤ 65535) as Hfit by lia.
  split; [exact (conj Hlen (conj Ho (conj Hws Hfit))) |].
  destruct (image_round_trip 0x3000 _ data_machine Hlen Ho Hws Hfit)
    as (s' & E & Hin & _).
  exists s'. exact (conj E Hin).
Defined.

(** ** Several images *)

Lemma load_images_app (fs1 fs2 : list (list Z)) (s : state) :
  load_images (fs1 ++ fs2) s = (load_images fs1;; load_images fs2) s.
Proof.
  revert s. induction fs1 as [|f fs1 IH]; intros s; [reflexivity |].
  cbn [app load_images]. rewrite !bind_unfold.
  destruct (read_image_file f s) as [[] s1|e s1]; [| reflexivity].
  rewrite IH. reflexivity.
Qed.

Lemma load_images_length (files : list (list Z)) (s s' : state) :
  length (memory s) = MEMORY_LEN → load_images files s = Ok tt s' →
  length (memory s') = MEMORY_LEN.
Proof.
  apply (keeps_load_images (λ x, length (memory x) = MEMORY_LEN)).
  intros a v s1 [] s2 H E. apply store_mem_inv in E as ->.
  cbn [memory with_memory]. rewrite length_insert. exact H.
Qed.

(** X7: images are loaded in the order given and a later image overwrites
    an earlier one.  Whatever the images loaded before it, after the last
    image (N data words at origin O, O + N <= 65535) the cells O .. O+N-1 hold
    its words and every other cell is as the earlier images left it. *)
Theorem last_image_wins (files : list (list Z)) (origin : Z) (ws : list Z)
    (s s1 : state) :
  length (memory s) = MEMORY_LEN → load_images files s = Ok tt s1 →
  is_u16 origin → Forall is_u16 ws →
  origin + Z.of_nat (length ws) ≤ 65535 →
  ∃ s',
    load_images (files ++ [image_bytes origin ws]) s = Ok tt s'
    ∧ (∀ i, (i < length ws)%nat →
            memory s' !! (Z.to_nat origin + i)%nat = ws !! i)
    ∧ (∀ j, (j < Z.to_nat origin ∨ Z.to_nat origin + length ws ≤ j)%nat →
            memory s' !! j = memory s1 !! j).
Proof.
  intros Hlen Hload Ho Hws Hfit.
  pose proof (load_images_length files s s1 Hlen Hload) as Hlen1.
  destruct (read_image_file_round_trip origin ws s1 Hlen1 Ho Hws Hfit)
    as (s' & E & Hin & Hout & _).
  exists s'. split; [| exact (conj Hin Hout)].
  rewrite load_images_app, (bind_Ok _ _ _ _ _ Hload). cbn [load_images].
  rewrite (bind_Ok _ _ _ _ _ E). reflexivity.
Qed.

(** Witness of X7: [hello_image], then a one-word image that replaces its
    second instruction. *)
Lemma last_image_wins_witness :
  (length (memory data_machine) = MEMORY_LEN
   ∧ (∃ s1, load_images [hello_image] data_machine = Ok tt s1)
   ∧ is_u16 0x3001 ∧ Forall is_u16 [0xF025]
   ∧ 0x3001 + Z.of_nat 1 ≤ 65535)
  ∧ ∃ s',
      load_images ([hello_image] ++ [image_bytes 0x3001 [0xF025]])
        data_machine = Ok tt s'
      ∧ memory s' !! (Z.to_nat 0x3001 + 0)%nat = Some 0xF025.
Proof.
  assert (length (memory data_machine) = MEMORY_LEN) as Hlen
    by apply machine_memory_length.
  assert (is_u16 0x3000) as Ho0 by (unfold is_u16; lia).
  assert (Forall is_u16 [0xE002; 0xF022; 0xF025; 0x0048; 0x0049; 0x0000])
    as Hws0 by (repeat constructor; unfold is_u16; lia).
  pose proof (read_image_file_loads 0x3000 _ data_machine Hlen Ho0 Hws0)
    as E0.
  assert (load_images [hello_image] data_machine
          = Ok tt (with_memory
                     (list_inserts (Z.to_nat 0x3000)
                        (take (Z.to_nat (UINT16_MAX - 0x3000))
                           [0xE002; 0xF022; 0xF025; 0x0048; 0x0049; 0x0000])
                        (memory data_machine)) data_machine)) as Hload
    by (cbn [load_images]; unfold hello_image;
        rewrite (bind_Ok _ _ _ _ _ E0); reflexivity).
  assert (is_u16 0x3001) as Ho by (unfold is_u16; lia).
  assert (Forall is_u16 [0xF025]) as Hws
    by (repeat constructor; unfold is_u16; lia).
  assert (0x3001 + Z.of_nat 1 ≤ 65535) as Hfit by lia.
  split.
  { split; [exact Hlen |]. split; [eexists; exact Hload |].
    exact (conj Ho (conj Hws Hfit)). }
  destruct (last_image_wins [hello_image] 0x3001 [0xF025] data_machine _
              Hlen Hload Ho Hws Hfit) as (s' & E & Hin & _).
  exists s'. split; [exact E |]. apply (Hin 0%nat). cbn [length]. lia.
Defined.

(** ** Registers as a total map *)

Section Registers.

Lemma load_reg_get (r : Z) (s : state) :
  (Z.to_nat r < length (reg s))%nat → load_reg r s = Ok (get_reg r s) s.
Proof.
  intros Hr. unfold load_reg, get_reg.
  destruct (lookup_lt_is_Some_2 _ _ Hr) as [v ->]. reflexivity.
Qed.

Lemma store_reg_set (r v : Z) (s : state) :
  (Z.to_nat r < length (reg s))%nat → store_reg r v s = Ok tt (set_reg r v s).
Proof. apply store_reg_Ok. Qed.

Lemma length_reg_set (r v : Z) (s : state) :
  length (reg (set_reg r v s)) = length (reg s).
Proof. apply length_insert. Qed.

Lemma get_reg_set_eq (r v : Z) (s : state) :
  (Z.to_nat r < length (reg s))%nat → get_reg r (set_reg r v s) = v.
Proof.
  intros Hr. unfold get_reg, set_reg. cbn [reg with_reg].
  rewrite list_lookup_insert_eq by exact Hr. reflexivity.
Qed.

Lemma get_reg_set_ne (r r' v : Z) (s : state) :
  Z.to_nat r ≠ Z.to_nat r' → get_reg r' (set_reg r v s) = get_reg r' s.
Proof.
  intros Hr. unfold get_reg, set_reg. cbn [reg with_reg].
  rewrite list_lookup_insert_ne by exact Hr. reflexivity.
Qed.

Lemma get_reg_lookup (r : Z) (s : state) :
  (Z.to_nat r < length (reg s))%nat →
  reg s !! Z.to_nat r = Some (get_reg r s).
Proof.
  intros Hr. unfold get_reg.
  destruct (lookup_lt_is_Some_2 _ _ Hr) as [v ->]. reflexivity.
Qed.

Lemma field_idx (x : Z) (s : state) :
  length (reg s) = REG_LEN → (Z.to_nat (Z.land x 0x7) < length (reg s))%nat.
Proof.
  intros ->. pose proof (reg_field_range x).
  unfold REG_LEN, R_COUNT, R_COND in *. lia.
Qed.

Lemma update_flags_set (r : Z) (s : state) :
  (Z.to_nat r < length (reg s))%nat →
  (Z.to_nat R_COND < length (reg s))%nat →
  update_flags r s = Ok tt (set_reg R_COND (flag_of (get_reg r s)) s).
Proof.
  intros Hr Hc. unfold update_flags.
  rewrite (bind_Ok _ _ _ _ _ (load_reg_get r s Hr)). unfold flag_of.
  destruct (get_reg r s =? 0); [apply store_reg_set; exact Hc |].
  destruct (negb (Z.shiftr (get_reg r s) 15 =? 0));
    apply store_reg_set; exact Hc.
Qed.

Lemma flag_of_is_flag (v : Z) : is_flag (flag_of v).
Proof.
  unfold flag_of, is_flag.
  destruct (v =? 0); [auto |]. destruct (negb _); auto.
Qed.

Lemma bind_assoc {A B C} (m : M A) (f : A → M B) (g : B → M C) (s : state) :
  ((m ≫= f) ≫= g) s = (m ≫= (λ a, f a ≫= g)) s.
Proof. rewrite !bind_unfold. destruct (m s); reflexivity. Qed.

End Registers.

Ltac reg_idx :=
  unfold DR, SR1, SR2; rewrite ?length_reg_set;
  first
    [ apply field_idx; assumption
    | match goal with
      | H : length (reg _) = REG_LEN |- _ => rewrite H
      end;
      unfold REG_LEN, R_COUNT, R_R0, R_R7, R_PC, R_COND; lia ].

Ltac reg_prim :=
  first [ apply load_reg_get | apply store_reg_set | apply update_flags_set ];
  reg_idx.

Ltac reg_step := rewrite ?bind_assoc; erewrite bind_Ok by reg_prim; cbv beta.

(** ** The instructions that work on registers only *)

Section RegisterInstructions.

Variable s : state.
Hypothesis Hregs : length (reg s) = REG_LEN.

Lemma exec_add_imm (instr : Z) :
  Z.shiftr instr 12 = 1 → Z.land (Z.shiftr instr 5) 1 ≠ 0 →
  execute instr s
  = Ok tt (set_reg R_COND
             (flag_of (u16 (get_reg (SR1 instr) s + imm5 instr)))
             (set_reg (DR instr)
                (u16 (get_reg (SR1 instr) s + imm5 instr)) s)).
Proof.
  intros Hop Hi. unfold execute. rewrite Hop. cbn [opcode_of]. cbv zeta.
  destruct (Z.eqb_spec (Z.land (Z.shiftr instr 5) 1) 0) as [|_]; [done |].
  cbn [negb]. fold (DR instr) (SR1 instr) (imm5 instr).
  do 2 reg_step. rewrite update_flags_set by reg_idx.
  rewrite get_reg_set_eq by reg_idx. reflexivity.
Qed.

Lemma exec_add_reg (instr : Z) :
  Z.shiftr instr 12 = 1 → Z.land (Z.shiftr instr 5) 1 = 0 →
  execute instr s
  = Ok tt (set_reg R_COND
             (flag_of (u16 (get_reg (SR1 instr) s + get_reg (SR2 instr) s)))
             (set_reg (DR instr)
                (u16 (get_reg (SR1 instr) s + get_reg (SR2 instr) s)) s)).
Proof.
  intros Hop Hi. unfold execute. rewrite Hop. cbn [opcode_of]. cbv zeta.
  rewrite Hi. cbn [Z.eqb negb].
  fold (DR instr) (SR1 instr) (SR2 instr).
  do 3 reg_step. rewrite update_flags_set by reg_idx.
  rewrite get_reg_set_eq by reg_idx. reflexivity.
Qed.

Lemma exec_and_imm (instr : Z) :
  Z.shiftr instr 12 = 5 → Z.land (Z.shiftr instr 5) 1 ≠ 0 →
  execute instr s
  = Ok tt (set_reg R_COND
             (flag_of (u16 (Z.land (get_reg (SR1 instr) s) (imm5 instr))))
             (set_reg (DR instr)
                (u16 (Z.land (get_reg (SR1 instr) s) (imm5 instr))) s)).
Proof.
  intros Hop Hi. unfold execute. rewrite Hop. cbn [opcode_of]. cbv zeta.
  destruct (Z.eqb_spec (Z.land (Z.shiftr instr 5) 1) 0) as [|_]; [done |].
  cbn [negb]. fold (DR instr) (SR1 instr) (imm5 instr).
  do 2 reg_step. rewrite update_flags_set by reg_idx.
  rewrite get_reg_set_eq by reg_idx. reflexivity.
Qed.

Lemma exec_and_reg (instr : Z) :
  Z.shiftr instr 12 = 5 → Z.land (Z.shiftr instr 5) 1 = 0 →
  execute instr s
  = Ok tt (set_reg R_COND
             (flag_of
                (u16 (Z.land (get_reg (SR1 instr) s) (get_reg (SR2 instr) s))))
             (set_reg (DR instr)
                (u16 (Z.land (get_reg (SR1 instr) s) (get_reg (SR2 instr) s)))
                s)).
Proof.
  intros Hop Hi. unfold execute. rewrite Hop. cbn [opcode_of]. cbv zeta.
  rewrite Hi. cbn [Z.eqb negb].
  fold (DR instr) (SR1 instr) (SR2 instr).
  do 3 reg_step. rewrite update_flags_set by reg_idx.
  rewrite get_reg_set_eq by reg_idx. reflexivity.
Qed.

Lemma exec_not (instr : Z) :
  Z.shiftr instr 12 = 9 →
  execute instr s
  = Ok tt (set_reg R_COND
             (flag_of (u16 (Z.lnot (get_reg (SR1 instr) s))))
             (set_reg (DR instr) (u16 (Z.lnot (get_reg (SR1 instr) s))) s)).
Proof.
  intros Hop. unfold execute. rewrite Hop. cbn [opcode_of]. cbv zeta.
  fold (DR instr) (SR1 instr).
  do 2 reg_step. rewrite update_flags_set by reg_idx.
  rewrite get_reg_set_eq by reg_idx. reflexivity.
Qed.

Lemma exec_lea (instr : Z) :
  Z.shiftr instr 12 = 14 →
  execute instr s
  = Ok tt (set_reg R_COND
             (flag_of (u16 (get_reg R_PC s + off9 instr)))
             (set_reg (DR instr) (u16 (get_reg R_PC s + off9 instr)) s)).
Proof.
  intros Hop. unfold execute. rewrite Hop. cbn [opcode_of]. cbv zeta.
  fold (DR instr) (off9 instr).
  do 2 reg_step. rewrite update_flags_set by reg_idx.
  rewrite get_reg_set_eq by reg_idx. reflexivity.
Qed.

Lemma exec_br (instr : Z) :
  Z.shiftr instr 12 = 0 →
  execute instr s
  = Ok tt (if negb (Z.land (DR instr) (get_reg R_COND s) =? 0)
           then set_reg R_PC (u16 (get_reg R_PC s + off9 instr)) s
           else s).
Proof.
  intros Hop. unfold execute. rewrite Hop. cbn [opcode_of]. cbv zeta.
  fold (DR instr) (off9 instr). reg_step.
  destruct (negb (Z.land (DR instr) (get_reg R_COND s) =? 0));
    [| reflexivity].
  reg_step. apply store_reg_set. reg_idx.
Qed.

Lemma exec_jmp (instr : Z) :
  Z.shiftr instr 12 = 12 →
  execute instr s = Ok tt (set_reg R_PC (get_reg (SR1 instr) s) s).
Proof.
  intros Hop. unfold execute. rewrite Hop. cbn [opcode_of]. cbv zeta.
  fold (SR1 instr). reg_step. apply store_reg_set. reg_idx.
Qed.

Lemma exec_jsr (instr : Z) :
  Z.shiftr instr 12 = 4 → Z.land (Z.shiftr instr 11) 1 ≠ 0 →
  execute instr s
  = Ok tt (set_reg R_PC (u16 (get_reg R_PC s + off11 instr))
             (set_reg R_R7 (get_reg R_PC s) s)).
Proof.
  intros Hop Hf. unfold execute. rewrite Hop. cbn [opcode_of]. cbv zeta.
  fold (SR1 instr) (off11 instr). do 2 reg_step.
  destruct (Z.eqb_spec (Z.land (Z.shiftr instr 11) 1) 0) as [|_]; [done |].
  cbn [negb]. reg_step.
  rewrite get_reg_set_ne by (unfold R_R7, R_PC; lia).
  apply store_reg_set. reg_idx.
Qed.

Lemma exec_jsrr (instr : Z) :
  Z.shiftr instr 12 = 4 → Z.land (Z.shiftr instr 11) 1 = 0 →
  execute instr s
  = Ok tt (set_reg R_PC
             (get_reg (SR1 instr) (set_reg R_R7 (get_reg R_PC s) s))
             (set_reg R_R7 (get_reg R_PC s) s)).
Proof.
  intros Hop Hf. unfold execute. rewrite Hop. cbn [opcode_of]. cbv zeta.
  fold (SR1 instr) (off11 instr). do 2 reg_step.
  rewrite Hf. cbn [Z.eqb negb]. reg_step.
  apply store_reg_set. reg_idx.
Qed.

End RegisterInstructions.

Lemma machine_reg_length (r0 r1 r2 r3 r4 r5 r6 r7 pc cond : Z)
    (cells : list (Z * Z)) (input : list Z) :
  length (reg (machine [r0; r1; r2; r3; r4; r5; r6; r7; pc; cond] cells
                 input)) = REG_LEN.
Proof. reflexivity. Qed.

(** X8: the two operand modes of ADD and of AND agree.  An instruction in
    immediate mode and one in register mode with the same destination and
    first source have exactly the same effect when the second source
    register holds the sign-extended immediate. *)
Theorem immediate_and_register_modes_agree (ii ir : Z) (s : state) :
  length (reg s) = REG_LEN →
  Z.shiftr ii 12 = Z.shiftr ir 12 →
  Z.shiftr ii 12 = 1 ∨ Z.shiftr ii 12 = 5 →
  Z.land (Z.shiftr ii 5) 1 ≠ 0 → Z.land (Z.shiftr ir 5) 1 = 0 →
  DR ii = DR ir → SR1 ii = SR1 ir →
  get_reg (SR2 ir) s = imm5 ii →
  execute ii s = execute ir s.
Proof.
  intros Hlen Hsame Hop Hi Hr Hd Hs1 Hs2.
  destruct Hop as [Hop|Hop].
  - rewrite (exec_add_imm s Hlen ii Hop Hi).
    rewrite (exec_add_reg s Hlen ir ltac:(congruence) Hr).
    rewrite Hd, Hs1, Hs2. reflexivity.
  - rewrite (exec_and_imm s Hlen ii Hop Hi).
    rewrite (exec_and_reg s Hlen ir ltac:(congruence) Hr).
    rewrite Hd, Hs1, Hs2. reflexivity.
Qed.

(** Witness of X8: ADD R2,R1,#-1 (0x147F) and ADD R2,R1,R3 (0x1443) with
    R3 = 0xFFFF. *)
Lemma immediate_and_register_modes_agree_witness :
  (length (reg alu_machine) = REG_LEN
   ∧ Z.shiftr 0x147F 12 = Z.shiftr 0x1443 12
   ∧ (Z.shiftr 0x147F 12 = 1 ∨ Z.shiftr 0x147F 12 = 5)
   ∧ Z.land (Z.shiftr 0x147F 5) 1 ≠ 0 ∧ Z.land (Z.shiftr 0x1443 5) 1 = 0
   ∧ DR 0x147F = DR 0x1443 ∧ SR1 0x147F = SR1 0x1443
   ∧ get_reg (SR2 0x1443) alu_machine = imm5 0x147F)
  ∧ execute 0x147F alu_machine = execute 0x1443 alu_machine.
Proof.
  assert (length (reg alu_machine) = REG_LEN) as H1 by reflexivity.
  assert (Z.shiftr 0x147F 12 = Z.shiftr 0x1443 12) as H2 by reflexivity.
  assert (Z.shiftr 0x147F 12 = 1 ∨ Z.shiftr 0x147F 12 = 5) as H3
    by (left; reflexivity).
  assert (Z.land (Z.shiftr 0x147F 5) 1 ≠ 0) as H4 by discriminate.
  assert (Z.land (Z.shiftr 0x1443 5) 1 = 0) as H5 by reflexivity.
  assert (DR 0x147F = DR 0x1443) as H6 by reflexivity.
  assert (SR1 0x147F = SR1 0x1443) as H7 by reflexivity.
  assert (get_reg (SR2 0x1443) alu_machine = imm5 0x147F) as H8
    by reflexivity.
  split.
  { exact (conj H1 (conj H2 (conj H3 (conj H4 (conj H5 (conj H6
             (conj H7 H8))))))). }
  exact (immediate_and_register_modes_agree 0x147F 0x1443 alu_machine
           H1 H2 H3 H4 H5 H6 H7 H8).
Defined.

(** X9: ADD, AND, NOT, LEA, BR, JMP and JSR/JSRR cannot fail and work on
    the registers only: whatever the operand fields, the instruction body
    returns, and memory, the pending input, the output and the running flag
    are unchanged.  In particular LEA reads no memory, not even when the
    address it computes is the keyboard status register. *)
Theorem register_instructions_total (instr : Z) (s : state) :
  length (reg s) = REG_LEN →
  Z.shiftr instr 12 ∈ [0; 1; 4; 5; 9; 12; 14] →
  ∃ s',
    execute instr s = Ok tt s'
    ∧ length (reg s') = REG_LEN
    ∧ memory s' = memory s ∧ stdin s' = stdin s
    ∧ stdout s' = stdout s ∧ running s' = running s.
Proof.
  intros Hlen Hop.
  assert (∀ s', length (reg s') = REG_LEN → memory s' = memory s →
                stdin s' = stdin s → stdout s' = stdout s →
                running s' = running s → execute instr s = Ok tt s' →
                ∃ s', execute instr s = Ok tt s'
                  ∧ length (reg s') = REG_LEN
                  ∧ memory s' = memory s ∧ stdin s' = stdin s
                  ∧ stdout s' = stdout s ∧ running s' = running s)
    as Hpack by (intros s' ? ? ? ? ? ?; exists s'; repeat split; assumption).
  repeat (apply elem_of_cons in Hop as [Hop|Hop]);
    [| | | | | | | apply elem_of_nil in Hop; destruct Hop].
  - rewrite (exec_br s Hlen instr Hop).
    destruct (negb _); eexists; (split; [reflexivity |]);
      rewrite ?length_reg_set; repeat split; assumption.
  - destruct (Z.eq_dec (Z.land (Z.shiftr instr 5) 1) 0) as [Hi|Hi].
    + eapply Hpack; [| | | | | apply (exec_add_reg s Hlen instr Hop Hi)];
        rewrite ?length_reg_set; done.
    + eapply Hpack; [| | | | | apply (exec_add_imm s Hlen instr Hop Hi)];
        rewrite ?length_reg_set; done.
  - destruct (Z.eq_dec (Z.land (Z.shiftr instr 11) 1) 0) as [Hi|Hi].
    + eapply Hpack; [| | | | | apply (exec_jsrr s Hlen instr Hop Hi)];
        rewrite ?length_reg_set; done.
    + eapply Hpack; [| | | | | apply (exec_jsr s Hlen instr Hop Hi)];
        rewrite ?length_reg_set; done.
  - destruct (Z.eq_dec (Z.land (Z.shiftr instr 5) 1) 0) as [Hi|Hi].
    + eapply Hpack; [| | | | | apply (exec_and_reg s Hlen instr Hop Hi)];
        rewrite ?length_reg_set; done.
    + eapply Hpack; [| | | | | apply (exec_and_imm s Hlen instr Hop Hi)];
        rewrite ?length_reg_set; done.
  - eapply Hpack; [| | | | | apply (exec_not s Hlen instr Hop)];
      rewrite ?length_reg_set; done.
  - eapply Hpack; [| | | | | apply (exec_jmp s Hlen instr Hop)];
      rewrite ?length_reg_set; done.
  - eapply Hpack; [| | | | | apply (exec_lea s Hlen instr Hop)];
      rewrite ?length_reg_set; done.
Qed.

(** Witness of X9: LEA R0 with offset 0x1FF = -1 (0xE1FF). *)
Lemma register_instructions_total_witness :
  (length (reg alu_machine) = REG_LEN
   ∧ Z.shiftr 0xE1FF 12 ∈ [0; 1; 4; 5; 9; 12; 14])
  ∧ ∃ s',
      execute 0xE1FF alu_machine = Ok tt s'
      ∧ length (reg s') = REG_LEN
      ∧ memory s' = memory alu_machine ∧ stdin s' = stdin alu_machine
      ∧ stdout s' = stdout alu_machine ∧ running s' = running alu_machine.
Proof.
  assert (length (reg alu_machine) = REG_LEN) as H1 by reflexivity.
  assert (Z.shiftr 0xE1FF 12 ∈ [0; 1; 4; 5; 9; 12; 14]) as H2
    by (change (Z.shiftr 0xE1FF 12) with 14; repeat constructor).
  split; [exact (conj H1 H2) |].
  exact (register_instructions_total 0xE1FF alu_machine H1 H2).
Defined.

(** ** Branches *)

(** X11: once COND holds one of the three flags, a BR with all three
    condition bits set is always taken: the PC becomes the incremented PC
    plus the sign-extended 9-bit offset, modulo 2^16, and nothing else
    changes. *)
Theorem br_nzp_taken (instr : Z) (s : state) :
  length (reg s) = REG_LEN → Z.shiftr instr 12 = 0 → DR instr = 7 →
  is_flag (get_reg R_COND s) →
  execute instr s
  = Ok tt (set_reg R_PC (u16 (get_reg R_PC s + off9 instr)) s).
Proof.
  intros Hlen Hop Hn Hf. rewrite (exec_br s Hlen instr Hop), Hn.
  destruct Hf as [-> |[-> | ->]]; reflexivity.
Qed.

(** Witness of X11: BRnzp #-1 with COND = POS. *)
Lemma br_nzp_taken_witness :
  (length (reg alu_machine) = REG_LEN ∧ Z.shiftr 0x0FFF 12 = 0
   ∧ DR 0x0FFF = 7 ∧ is_flag (get_reg R_COND alu_machine))
  ∧ execute 0x0FFF alu_machine
    = Ok tt (set_reg R_PC (u16 (get_reg R_PC alu_machine + off9 0x0FFF))
               alu_machine).
Proof.
  assert (length (reg alu_machine) = REG_LEN) as H1 by reflexivity.
  assert (Z.shiftr 0x0FFF 12 = 0) as H2 by reflexivity.
  assert (DR 0x0FFF = 7) as H3 by reflexivity.
  assert (is_flag (get_reg R_COND alu_machine)) as H4 by (left; reflexivity).
  split; [exact (conj H1 (conj H2 (conj H3 H4))) |].
  exact (br_nzp_taken 0x0FFF alu_machine H1 H2 H3 H4).
Defined.

(** ** Calls and returns *)

Lemma cycle_stored (pc instr : Z) (s : state) :
  length (reg s) = REG_LEN → get_reg R_PC s = pc → pc ≠ MR_KBSR →
  memory s !! Z.to_nat pc = Some instr →
  cycle s = execute instr (set_reg R_PC (u16 (pc + 1)) s).
Proof.
  intros Hlen Hpc Hk Hm. apply cycle_fetched.
  apply (fetch_stored pc); [| exact Hk | exact Hm].
  rewrite <- Hpc. apply get_reg_lookup. reg_idx.
Qed.

(** X12: a subroutine call returns to the instruction after the call.  When
    a JSR is fetched at address pc and the word at its target is JMP R7
    (RET), the two cycles leave the PC at pc + 1, with R7 = pc + 1, and
    change no other register and no memory. *)
Theorem jsr_then_ret (pc jsr : Z) (s : state) :
  length (reg s) = REG_LEN → get_reg R_PC s = pc → pc ≠ MR_KBSR →
  memory s !! Z.to_nat pc = Some jsr →
  Z.shiftr jsr 12 = 4 → Z.land (Z.shiftr jsr 11) 1 ≠ 0 →
  u16 (u16 (pc + 1) + off11 jsr) ≠ MR_KBSR →
  memory s !! Z.to_nat (u16 (u16 (pc + 1) + off11 jsr)) = Some 0xC1C0 →
  ∃ s',
    (cycle;; cycle) s = Ok tt s'
    ∧ get_reg R_PC s' = u16 (pc + 1)
    ∧ get_reg R_R7 s' = u16 (pc + 1)
    ∧ (∀ r, 0 ≤ r < R_R7 ∨ r = R_COND → get_reg r s' = get_reg r s)
    ∧ memory s' = memory s.
Proof.
  intros Hlen Hpc Hk Hm Hop Hf Htk Htm.
  set (s1 := set_reg R_PC (u16 (pc + 1)) s).
  assert (length (reg s1) = REG_LEN) as Hlen1
    by (subst s1; rewrite length_reg_set; exact Hlen).
  assert (get_reg R_PC s1 = u16 (pc + 1)) as Hpc1
    by (subst s1; apply get_reg_set_eq; reg_idx).
  pose proof (cycle_stored pc jsr s Hlen Hpc Hk Hm) as Hc1. fold s1 in Hc1.
  rewrite (exec_jsr s1 Hlen1 jsr Hop Hf), Hpc1 in Hc1.
  set (t := u16 (u16 (pc + 1) + off11 jsr)) in *.
  set (s2 := set_reg R_PC t (set_reg R_R7 (u16 (pc + 1)) s1)) in *.
  assert (length (reg s2) = REG_LEN) as Hlen2
    by (subst s2; rewrite !length_reg_set; exact Hlen1).
  assert (get_reg R_PC s2 = t) as Hpc2
    by (subst s2; apply get_reg_set_eq; reg_idx).
  pose proof (cycle_stored t 0xC1C0 s2 Hlen2 Hpc2 Htk Htm) as Hc2.
  rewrite (exec_jmp _ ltac:(rewrite length_reg_set; exact Hlen2) 0xC1C0
             eq_refl) in Hc2.
  change (SR1 0xC1C0) with R_R7 in Hc2.
  eexists. split; [rewrite (bind_Ok _ _ _ _ _ Hc1); exact Hc2 |].
  assert (get_reg R_R7 (set_reg R_PC (u16 (t + 1)) s2) = u16 (pc + 1)) as H7.
  { rewrite get_reg_set_ne by (unfold R_R7, R_PC; lia). subst s2.
    rewrite get_reg_set_ne by (unfold R_R7, R_PC; lia).
    apply get_reg_set_eq. reg_idx. }
  rewrite H7.
  split; [apply get_reg_set_eq; rewrite length_reg_set; reg_idx |].
  split; [rewrite get_reg_set_ne by (unfold R_R7, R_PC; lia); exact H7 |].
  split; [| reflexivity].
  intros r Hr. subst s2 s1.
  rewrite !get_reg_set_ne by (unfold R_R7, R_PC, R_COND in *; lia).
  reflexivity.
Qed.

(** Witness of X12: JSR #2 at 0x3000, RET at 0x3003. *)
Lemma jsr_then_ret_witness :
  (length (reg call_machine) = REG_LEN ∧ get_reg R_PC call_machine = 0x3000
   ∧ 0x3000 ≠ MR_KBSR
   ∧ memory call_machine !! Z.to_nat 0x3000 = Some 0x4802
   ∧ Z.shiftr 0x4802 12 = 4 ∧ Z.land (Z.shiftr 0x4802 11) 1 ≠ 0
   ∧ u16 (u16 (0x3000 + 1) + off11 0x4802) ≠ MR_KBSR
   ∧ memory call_machine !! Z.to_nat (u16 (u16 (0x3000 + 1) + off11 0x4802))
     = Some 0xC1C0)
  ∧ ∃ s',
      (cycle;; cycle) call_machine = Ok tt s'
      ∧ get_reg R_PC s' = u16 (0x3000 + 1)
      ∧ get_reg R_R7 s' = u16 (0x3000 + 1).
Proof.
  assert (length (reg call_machine) = REG_LEN) as H1 by reflexivity.
  assert (get_reg R_PC call_machine = 0x3000) as H2 by reflexivity.
  assert (0x3000 ≠ MR_KBSR) as H3 by discriminate.
  assert (memory call_machine !! Z.to_nat 0x3000 = Some 0x4802) as H4
    by (vm_compute; reflexivity).
  assert (Z.shiftr 0x4802 12 = 4) as H5 by reflexivity.
  assert (Z.land (Z.shiftr 0x4802 11) 1 ≠ 0) as H6 by discriminate.
  assert (u16 (u16 (0x3000 + 1) + off11 0x4802) ≠ MR_KBSR) as H7
    by (vm_compute; discriminate).
  assert (memory call_machine
            !! Z.to_nat (u16 (u16 (0x3000 + 1) + off11 0x4802))
          = Some 0xC1C0) as H8 by (vm_compute; reflexivity).
  split.
  { exact (conj H1 (conj H2 (conj H3 (conj H4 (conj H5 (conj H6
             (conj H7 H8))))))). }
  destruct (jsr_then_ret 0x3000 0x4802 call_machine H1 H2 H3 H4 H5 H6 H7 H8)
    as (s' & E & Hp & Hr & _).
  exists s'. exact (conj E (conj Hp Hr)).
Defined.

(** X13: JSRR with base register R7 does not jump to the address R7 held.
    R7 is overwritten with the incremented PC before the base register is
    read, so the PC keeps its value, execution goes on with the next
    instruction, and the old content of R7 is lost. *)
Theorem jsrr_r7_falls_through (instr : Z) (s : state) :
  length (reg s) = REG_LEN →
  Z.shiftr instr 12 = 4 → Z.land (Z.shiftr instr 11) 1 = 0 →
  SR1 instr = R_R7 →
  ∃ s',
    execute instr s = Ok tt s'
    ∧ get_reg R_PC s' = get_reg R_PC s
    ∧ get_reg R_R7 s' = get_reg R_PC s
    ∧ memory s' = memory s.
Proof.
  intros Hlen Hop Hf Hb. rewrite (exec_jsrr s Hlen instr Hop Hf), Hb.
  eexists. split; [reflexivity |].
  rewrite (get_reg_set_eq R_R7) by reg_idx.
  split; [apply get_reg_set_eq; reg_idx |].
  split; [| reflexivity].
  rewrite get_reg_set_ne by (unfold R_R7, R_PC; lia).
  apply get_reg_set_eq. reg_idx.
Qed.

(** Witness of X13: JSRR R7 (0x41C0) with R7 = 0x1234 and PC = 0x3001. *)
Lemma jsrr_r7_falls_through_witness :
  (length (reg alu_machine) = REG_LEN ∧ Z.shiftr 0x41C0 12 = 4
   ∧ Z.land (Z.shiftr 0x41C0 11) 1 = 0 ∧ SR1 0x41C0 = R_R7
   ∧ get_reg R_R7 alu_machine = 0x1234 ∧ get_reg R_PC alu_machine = 0x3001)
  ∧ ∃ s',
      execute 0x41C0 alu_machine = Ok tt s'
      ∧ get_reg R_PC s' = get_reg R_PC alu_machine
      ∧ get_reg R_R7 s' = get_reg R_PC alu_machine
      ∧ memory s' = memory alu_machine.
Proof.
  assert (length (reg alu_machine) = REG_LEN) as H1 by reflexivity.
  assert (Z.shiftr 0x41C0 12 = 4) as H2 by reflexivity.
  assert (Z.land (Z.shiftr 0x41C0 11) 1 = 0) as H3 by reflexivity.
  assert (SR1 0x41C0 = R_R7) as H4 by reflexivity.
  split.
  { split; [exact H1 |]. split; [exact H2 |]. split; [exact H3 |].
    split; [exact H4 |]. split; reflexivity. }
  exact (jsrr_r7_falls_through 0x41C0 alu_machine H1 H2 H3 H4).
Defined.

(** ** The instructions that access memory *)

Section MemoryInstructions.

Lemma u16_range (x : Z) : is_u16 (u16 x).
Proof. unfold is_u16, u16. apply Z.mod_pos_bound. lia. Qed.

Lemma mem_read_get (a : Z) (s : state) :
  length (memory s) = MEMORY_LEN → 0 ≤ a < 65535 → a ≠ MR_KBSR →
  mem_read a s = Ok (get_mem a s) s.
Proof.
  intros Hlen Ha Hk. apply mem_read_stored; [exact Hk |].
  unfold get_mem.
  destruct (lookup_lt_is_Some_2 _ _ (address_in_bounds a s Hlen Ha))
    as [v ->].
  reflexivity.
Qed.

Lemma mem_write_poke (a v : Z) (s : state) :
  length (memory s) = MEMORY_LEN → 0 ≤ a < 65535 →
  mem_write a v s = Ok tt (poke a v s).
Proof. intros Hlen Ha. apply (mem_write_in_bounds a v s Hlen Ha). Qed.

Lemma get_mem_poke_eq (a v : Z) (s : state) :
  length (memory s) = MEMORY_LEN → 0 ≤ a < 65535 →
  get_mem a (poke a v s) = v.
Proof.
  intros Hlen Ha. unfold get_mem, poke. cbn [memory with_memory].
  rewrite list_lookup_insert_eq by (apply address_in_bounds; assumption).
  reflexivity.
Qed.

Lemma get_mem_poke_ne (a b v : Z) (s : state) :
  Z.to_nat a ≠ Z.to_nat b → get_mem b (poke a v s) = get_mem b s.
Proof.
  intros Hne. unfold get_mem, poke. cbn [memory with_memory].
  rewrite list_lookup_insert_ne by exact Hne. reflexivity.
Qed.

Lemma get_mem_lookup (a : Z) (s : state) :
  length (memory s) = MEMORY_LEN → 0 ≤ a < 65535 →
  memory s !! Z.to_nat a = Some (get_mem a s).
Proof.
  intros Hlen Ha. unfold get_mem.
  destruct (lookup_lt_is_Some_2 _ _ (address_in_bounds a s Hlen Ha))
    as [v ->].
  reflexivity.
Qed.

Variable s : state.
Hypothesis Hregs : length (reg s) = REG_LEN.
Hypothesis Hmem : length (memory s) = MEMORY_LEN.

Lemma exec_ld (instr : Z) :
  Z.shiftr instr 12 = 2 →
  plain_cell (u16 (get_reg R_PC s + off9 instr)) →
  execute instr s
  = Ok tt (set_reg R_COND
             (flag_of (get_mem (u16 (get_reg R_PC s + off9 instr)) s))
             (set_reg (DR instr)
                (get_mem (u16 (get_reg R_PC s + off9 instr)) s) s)).
Proof.
  intros Hop [Ha Hk]. unfold execute. rewrite Hop. cbn [opcode_of]. cbv zeta.
  fold (DR instr) (off9 instr). reg_step.
  rewrite (bind_Ok _ _ _ _ _ (mem_read_get _ s Hmem Ha Hk)).
  reg_step. rewrite update_flags_set by reg_idx.
  rewrite get_reg_set_eq by reg_idx. reflexivity.
Qed.

Lemma exec_ldi (instr : Z) :
  Z.shiftr instr 12 = 10 →
  plain_cell (u16 (get_reg R_PC s + off9 instr)) →
  plain_cell (get_mem (u16 (get_reg R_PC s + off9 instr)) s) →
  execute instr s
  = Ok tt (set_reg R_COND
             (flag_of
                (get_mem (get_mem (u16 (get_reg R_PC s + off9 instr)) s) s))
             (set_reg (DR instr)
                (get_mem (get_mem (u16 (get_reg R_PC s + off9 instr)) s) s)
                s)).
Proof.
  intros Hop [Ha Hk] [Ha2 Hk2]. unfold execute. rewrite Hop.
  cbn [opcode_of]. cbv zeta.
  fold (DR instr) (off9 instr). reg_step.
  rewrite (bind_Ok _ _ _ _ _ (mem_read_get _ s Hmem Ha Hk)).
  rewrite (bind_Ok _ _ _ _ _ (mem_read_get _ s Hmem Ha2 Hk2)).
  reg_step. rewrite update_flags_set by reg_idx.
  rewrite get_reg_set_eq by reg_idx. reflexivity.
Qed.

Lemma exec_ldr (instr : Z) :
  Z.shiftr instr 12 = 6 →
  plain_cell (u16 (get_reg (SR1 instr) s + off6 instr)) →
  execute instr s
  = Ok tt (set_reg R_COND
             (flag_of (get_mem (u16 (get_reg (SR1 instr) s + off6 instr)) s))
             (set_reg (DR instr)
                (get_mem (u16 (get_reg (SR1 instr) s + off6 instr)) s) s)).
Proof.
  intros Hop [Ha Hk]. unfold execute. rewrite Hop. cbn [opcode_of]. cbv zeta.
  fold (DR instr) (SR1 instr) (off6 instr). reg_step.
  rewrite (bind_Ok _ _ _ _ _ (mem_read_get _ s Hmem Ha Hk)).
  reg_step. rewrite update_flags_set by reg_idx.
  rewrite get_reg_set_eq by reg_idx. reflexivity.
Qed.

Lemma exec_st (instr : Z) :
  Z.shiftr instr 12 = 3 →
  0 ≤ u16 (get_reg R_PC s + off9 instr) < 65535 →
  execute instr s
  = Ok tt (poke (u16 (get_reg R_PC s + off9 instr))
             (get_reg (DR instr) s) s).
Proof.
  intros Hop Ha. unfold execute. rewrite Hop. cbn [opcode_of]. cbv zeta.
  fold (DR instr) (off9 instr). do 2 reg_step.
  apply mem_write_poke; assumption.
Qed.

Lemma exec_sti (instr : Z) :
  Z.shiftr instr 12 = 11 →
  plain_cell (u16 (get_reg R_PC s + off9 instr)) →
  0 ≤ get_mem (u16 (get_reg R_PC s + off9 instr)) s < 65535 →
  execute instr s
  = Ok tt (poke (get_mem (u16 (get_reg R_PC s + off9 instr)) s)
             (get_reg (DR instr) s) s).
Proof.
  intros Hop [Ha Hk] Ha2. unfold execute. rewrite Hop. cbn [opcode_of].
  cbv zeta. fold (DR instr) (off9 instr). reg_step.
  rewrite (bind_Ok _ _ _ _ _ (mem_read_get _ s Hmem Ha Hk)).
  reg_step. apply mem_write_poke; assumption.
Qed.

Lemma exec_str (instr : Z) :
  Z.shiftr instr 12 = 7 →
  0 ≤ u16 (get_reg (SR1 instr) s + off6 instr) < 65535 →
  execute instr s
  = Ok tt (poke (u16 (get_reg (SR1 instr) s + off6 instr))
             (get_reg (DR instr) s) s).
Proof.
  intros Hop Ha. unfold execute. rewrite Hop. cbn [opcode_of]. cbv zeta.
  fold (DR instr) (SR1 instr) (off6 instr). do 2 reg_step.
  apply mem_write_poke; assumption.
Qed.

End MemoryInstructions.

Lemma plain_cellb_true (a : Z) : plain_cellb a = true → plain_cell a.
Proof.
  unfold plain_cellb, plain_cell. intros H.
  apply andb_prop in H as [H Hk]. apply andb_prop in H as [H0 H1].
  apply negb_true_iff in Hk. lia.
Qed.

Lemma field_below_pc (x : Z) : 0 ≤ Z.land x 0x7 < 8.
Proof. pose proof (reg_field_range x). unfold R_COND in *.
  change 0x7 with (Z.ones 3). rewrite Z.land_ones by lia.
  apply Z.mod_pos_bound. lia.
Qed.

(** X14: LDI is a double indirection.  When the cell at PC + offset holds
    the address A, and both that cell and A are plain cells of the array,
    LDI loads the word stored at A (not A itself) into the destination
    register, sets COND from it, and changes neither memory nor any other
    register. *)
Theorem ldi_double_indirection (instr : Z) (s : state) :
  length (reg s) = REG_LEN → length (memory s) = MEMORY_LEN →
  Z.shiftr instr 12 = 10 →
  plain_cell (u16 (get_reg R_PC s + off9 instr)) →
  plain_cell (get_mem (u16 (get_reg R_PC s + off9 instr)) s) →
  ∃ s',
    execute instr s = Ok tt s'
    ∧ get_reg (DR instr) s'
      = get_mem (get_mem (u16 (get_reg R_PC s + off9 instr)) s) s
    ∧ get_reg R_COND s' = flag_of (get_reg (DR instr) s')
    ∧ (∀ r, 0 ≤ r < R_COND → r ≠ DR instr → get_reg r s' = get_reg r s)
    ∧ memory s' = memory s.
Proof.
  intros Hr Hm Hop Ha Ha2. rewrite (exec_ldi s Hr Hm instr Hop Ha Ha2).
  pose proof (field_below_pc (Z.shiftr instr 9)) as Hd. fold (DR instr) in Hd.
  eexists. split; [reflexivity |].
  set (v := get_mem (get_mem (u16 (get_reg R_PC s + off9 instr)) s) s).
  assert (get_reg (DR instr) (set_reg R_COND (flag_of v)
                                (set_reg (DR instr) v s)) = v) as Hv.
  { rewrite get_reg_set_ne by (unfold R_COND; lia).
    apply get_reg_set_eq. reg_idx. }
  split; [exact Hv |]. rewrite Hv.
  split; [apply get_reg_set_eq; reg_idx |].
  split; [| reflexivity].
  intros r Hrr Hne.
  rewrite !get_reg_set_ne by (unfold R_COND in *; lia). reflexivity.
Qed.

(** Witness of X14: LDI R2,#1 with the pointer 0x4000 at 0x3002 and 0xBEEF
    at 0x4000. *)
Lemma ldi_double_indirection_witness :
  (length (reg ldi_machine) = REG_LEN
   ∧ length (memory ldi_machine) = MEMORY_LEN
   ∧ Z.shiftr 0xA401 12 = 10
   ∧ plain_cell (u16 (get_reg R_PC ldi_machine + off9 0xA401))
   ∧ plain_cell (get_mem (u16 (get_reg R_PC ldi_machine + off9 0xA401))
                   ldi_machine)
   ∧ get_mem 0x4000 ldi_machine = 0xBEEF)
  ∧ ∃ s',
      execute 0xA401 ldi_machine = Ok tt s'
      ∧ get_reg (DR 0xA401) s'
        = get_mem (get_mem (u16 (get_reg R_PC ldi_machine + off9 0xA401))
                     ldi_machine) ldi_machine.
Proof.
  assert (length (reg ldi_machine) = REG_LEN) as H1 by reflexivity.
  assert (length (memory ldi_machine) = MEMORY_LEN) as H2
    by apply machine_memory_length.
  assert (Z.shiftr 0xA401 12 = 10) as H3 by reflexivity.
  assert (plain_cell (u16 (get_reg R_PC ldi_machine + off9 0xA401))) as H4
    by (apply plain_cellb_true; vm_compute; reflexivity).
  assert (plain_cell (get_mem (u16 (get_reg R_PC ldi_machine + off9 0xA401))
                        ldi_machine)) as H5
    by (apply plain_cellb_true; vm_compute; reflexivity).
  assert (get_mem 0x4000 ldi_machine = 0xBEEF) as H6
    by (vm_compute; reflexivity).
  split.
  { exact (conj H1 (conj H2 (conj H3 (conj H4 (conj H5 H6))))). }
  destruct (ldi_double_indirection 0xA401 ldi_machine H1 H2 H3 H4 H5)
    as (s' & E & Hv & _).
  exists s'. exact (conj E Hv).
Defined.

(** X15: a word stored with STR is what LDR loads back.  When STR at pc is
    followed by LDR at pc + 1 with the same base register and offset, and
    the effective address is a plain cell other than the one that holds the
    LDR, the two cycles leave the stored register's value in that cell and
    in the destination of the LDR, with COND set from it. *)
Theorem str_then_ldr (pc str ldr : Z) (s : state) :
  length (reg s) = REG_LEN → length (memory s) = MEMORY_LEN →
  get_reg R_PC s = pc → pc ≠ MR_KBSR → u16 (pc + 1) ≠ MR_KBSR →
  memory s !! Z.to_nat pc = Some str →
  memory s !! Z.to_nat (u16 (pc + 1)) = Some ldr →
  Z.shiftr str 12 = 7 → Z.shiftr ldr 12 = 6 →
  SR1 ldr = SR1 str → off6 ldr = off6 str →
  plain_cell (u16 (get_reg (SR1 str) s + off6 str)) →
  u16 (get_reg (SR1 str) s + off6 str) ≠ u16 (pc + 1) →
  ∃ s',
    (cycle;; cycle) s = Ok tt s'
    ∧ get_mem (u16 (get_reg (SR1 str) s + off6 str)) s' = get_reg (DR str) s
    ∧ get_reg (DR ldr) s' = get_reg (DR str) s
    ∧ get_reg R_COND s' = flag_of (get_reg (DR str) s).
Proof.
  intros Hr Hm Hpc Hk Hk1 Hi1 Hi2 Hop1 Hop2 Hb Ho [Ha Hak] Hne.
  pose proof (u16_range (pc + 1)) as Hp1. unfold is_u16 in Hp1.
  pose proof (field_below_pc (Z.shiftr str 6)) as Hs1.
  fold (SR1 str) in Hs1.
  pose proof (field_below_pc (Z.shiftr str 9)) as Hd1.
  fold (DR str) in Hd1.
  pose proof (field_below_pc (Z.shiftr ldr 9)) as Hd2.
  fold (DR ldr) in Hd2.
  set (ea := u16 (get_reg (SR1 str) s + off6 str)) in *.
  set (v := get_reg (DR str) s).
  (* first cycle *)
  set (s1 := set_reg R_PC (u16 (pc + 1)) s).
  assert (length (reg s1) = REG_LEN) as Hr1
    by (subst s1; rewrite length_reg_set; exact Hr).
  pose proof (cycle_stored pc str s Hr Hpc Hk Hi1) as Hc1. fold s1 in Hc1.
  assert (get_reg (SR1 str) s1 = get_reg (SR1 str) s) as Eb1
    by (subst s1; apply get_reg_set_ne; unfold R_PC; lia).
  assert (get_reg (DR str) s1 = v) as Ev1
    by (subst s1 v; apply get_reg_set_ne; unfold R_PC; lia).
  rewrite (exec_str s1 Hr1 Hm str Hop1) in Hc1
    by (rewrite Eb1; exact Ha).
  rewrite Eb1, Ev1 in Hc1. fold ea in Hc1.
  (* second cycle *)
  set (s2 := poke ea v s1) in *.
  assert (length (memory s2) = MEMORY_LEN) as Hm2
    by (subst s2; cbn [memory poke with_memory]; rewrite length_insert;
        exact Hm).
  assert (get_reg R_PC s2 = u16 (pc + 1)) as Hpc2
    by (subst s2 s1; apply get_reg_set_eq; reg_idx).
  assert (memory s2 !! Z.to_nat (u16 (pc + 1)) = Some ldr) as Hi2'.
  { subst s2. cbn [memory poke with_memory set_reg with_reg].
    rewrite list_lookup_insert_ne by lia. exact Hi2. }
  pose proof (cycle_stored (u16 (pc + 1)) ldr s2 Hr1 Hpc2 Hk1 Hi2') as Hc2.
  set (s3 := set_reg R_PC (u16 (u16 (pc + 1) + 1)) s2) in *.
  assert (length (reg s3) = REG_LEN) as Hr3
    by (subst s3; rewrite length_reg_set; exact Hr1).
  assert (get_reg (SR1 ldr) s3 = get_reg (SR1 str) s) as Eb3.
  { rewrite Hb. subst s3. rewrite get_reg_set_ne by (unfold R_PC; lia).
    exact Eb1. }
  assert (get_mem ea s3 = v) as Em3
    by (subst s3 s2; apply get_mem_poke_eq; [exact Hm | exact Ha]).
  rewrite (exec_ldr s3 Hr3 Hm2 ldr Hop2) in Hc2
    by (rewrite Eb3, Ho; fold ea; split; assumption).
  rewrite Eb3, Ho in Hc2. fold ea in Hc2. rewrite Em3 in Hc2.
  eexists. split; [rewrite (bind_Ok _ _ _ _ _ Hc1); exact Hc2 |].
  split; [exact Em3 |].
  split.
  - rewrite get_reg_set_ne by (unfold R_COND; lia).
    apply get_reg_set_eq. reg_idx.
  - apply get_reg_set_eq. reg_idx.
Qed.

(** Witness of X15: STR R0,R6,#1 and LDR R1,R6,#1 with R6 = 0x5000. *)
Lemma str_then_ldr_witness :
  (length (reg stack_machine) = REG_LEN
   ∧ length (memory stack_machine) = MEMORY_LEN
   ∧ get_reg R_PC stack_machine = 0x3000
   ∧ memory stack_machine !! Z.to_nat 0x3000 = Some 0x7181
   ∧ memory stack_machine !! Z.to_nat (u16 (0x3000 + 1)) = Some 0x6381
   ∧ SR1 0x6381 = SR1 0x7181 ∧ off6 0x6381 = off6 0x7181
   ∧ plain_cell (u16 (get_reg (SR1 0x7181) stack_machine + off6 0x7181))
   ∧ get_reg (DR 0x7181) stack_machine = 0xABCD)
  ∧ ∃ s',
      (cycle;; cycle) stack_machine = Ok tt s'
      ∧ get_mem (u16 (get_reg (SR1 0x7181) stack_machine + off6 0x7181)) s'
        = get_reg (DR 0x7181) stack_machine
      ∧ get_reg (DR 0x6381) s' = get_reg (DR 0x7181) stack_machine
      ∧ get_reg R_COND s' = flag_of (get_reg (DR 0x7181) stack_machine).
Proof.
  assert (length (reg stack_machine) = REG_LEN) as H1 by reflexivity.
  assert (length (memory stack_machine) = MEMORY_LEN) as H2
    by apply machine_memory_length.
  assert (get_reg R_PC stack_machine = 0x3000) as H3 by reflexivity.
  assert (0x3000 ≠ MR_KBSR) as H4 by discriminate.
  assert (u16 (0x3000 + 1) ≠ MR_KBSR) as H5 by discriminate.
  assert (memory stack_machine !! Z.to_nat 0x3000 = Some 0x7181) as H6
    by (vm_compute; reflexivity).
  assert (memory stack_machine !! Z.to_nat (u16 (0x3000 + 1)) = Some 0x6381)
    as H7 by (vm_compute; reflexivity).
  assert (Z.shiftr 0x7181 12 = 7) as H8 by reflexivity.
  assert (Z.shiftr 0x6381 12 = 6) as H9 by reflexivity.
  assert (SR1 0x6381 = SR1 0x7181) as H10 by reflexivity.
  assert (off6 0x6381 = off6 0x7181) as H11 by reflexivity.
  assert (plain_cell (u16 (get_reg (SR1 0x7181) stack_machine
                           + off6 0x7181))) as H12
    by (apply plain_cellb_true; vm_compute; reflexivity).
  assert (u16 (get_reg (SR1 0x7181) stack_machine + off6 0x7181)
          ≠ u16 (0x3000 + 1)) as H13 by (vm_compute; discriminate).
  assert (get_reg (DR 0x7181) stack_machine = 0xABCD) as H14 by reflexivity.
  split.
  { exact (conj H1 (conj H2 (conj H3 (conj H6 (conj H7 (conj H10
             (conj H11 (conj H12 H14)))))))). }
  exact (str_then_ldr 0x3000 0x7181 0x6381 stack_machine
           H1 H2 H3 H4 H5 H6 H7 H8 H9 H10 H11 H12 H13).
Defined.

(** ** What an instruction leaves alone *)

(* A relation between the state before and the state after that contains
   the effect of each kind of write.  Each lemma depends only on the kinds
   of write the code it is about performs. *)
Section Footprint.

Variable R : state → state → Prop.
Hypothesis R_refl : ∀ s, R s s.
Hypothesis R_trans : ∀ s1 s2 s3, R s1 s2 → R s2 s3 → R s1 s3.
Hypothesis R_memory : ∀ s m, R s (with_memory m s).
Hypothesis R_stdin : ∀ s i, R s (with_stdin i s).
Hypothesis R_stdout : ∀ s o, R s (with_stdout o s).
Hypothesis R_running : ∀ s b, R s (with_running b s).
Hypothesis R_gpr :
  ∀ s r v, 0 ≤ r < R_COND → R s (with_reg (<[Z.to_nat r := v]> (reg s)) s).
Hypothesis R_cond :
  ∀ s v, R s (with_reg (<[Z.to_nat R_COND := v]> (reg s)) s).

Local Abbreviation fp := (changes_by R).

Lemma fp_ret {A} (a : A) : fp (mret a).
Proof. intros s a' s' E. injection E as _ <-. apply R_refl. Qed.

Lemma fp_raise {A} (e : fault) : fp (@raise A e).
Proof. intros s a s' E. discriminate E. Qed.

Lemma fp_bind {A B} (m : M A) (f : A → M B) :
  fp m → (∀ a, fp (f a)) → fp (m ≫= f).
Proof.
  intros Hm Hf s b s2 H. apply bind_Ok_inv in H as (a & s1 & H1 & H2).
  exact (R_trans _ _ _ (Hm s a s1 H1) (Hf a s1 b s2 H2)).
Qed.

Lemma fp_if {A} (c : bool) (m1 m2 : M A) :
  fp m1 → fp m2 → fp (if c then m1 else m2).
Proof. destruct c; auto. Qed.

Lemma fp_load_reg (r : Z) : fp (load_reg r).
Proof. intros s v s' E. apply load_reg_inv in E as [-> _]. apply R_refl. Qed.

Lemma fp_load_mem (a : Z) : fp (load_mem a).
Proof. intros s v s' E. apply load_mem_inv in E as [-> _]. apply R_refl. Qed.

Lemma fp_store_mem (a v : Z) : fp (store_mem a v).
Proof. intros s [] s' E. apply store_mem_inv in E as ->. apply R_memory. Qed.

Lemma fp_store_gpr (r v : Z) : 0 ≤ r < R_COND → fp (store_reg r v).
Proof.
  intros Hr s [] s' E. apply store_reg_inv in E as [-> _]. apply R_gpr, Hr.
Qed.

Lemma fp_store_field (x v : Z) : fp (store_reg (Z.land x 0x7) v).
Proof. apply fp_store_gpr, reg_field_range. Qed.

Lemma fp_store_cond (v : Z) : fp (store_reg R_COND v).
Proof.
  intros s [] s' E. apply store_reg_inv in E as [-> _]. apply R_cond.
Qed.

Lemma fp_check_key : fp check_key.
Proof. intros s k s' E. injection E as _ <-. apply R_refl. Qed.

Lemma fp_cells_from (a : Z) : fp (cells_from a).
Proof. intros s l s' E. injection E as _ <-. apply R_refl. Qed.

Lemma fp_getchar : fp getchar.
Proof.
  intros s c s' E. unfold getchar in E.
  destruct (stdin s); [discriminate E |]. injection E as _ <-.
  apply R_stdin.
Qed.

Lemma fp_putc (c : Z) : fp (putc c).
Proof. intros s [] s' E. injection E as <-. apply R_stdout. Qed.

Lemma fp_printf (str : string) : fp (printf str).
Proof. intros s [] s' E. injection E as <-. apply R_stdout. Qed.

Lemma fp_puts (str : string) : fp (puts str).
Proof. intros s [] s' E. injection E as <-. apply R_stdout. Qed.

Lemma fp_set_running (b : bool) : fp (set_running b).
Proof. intros s [] s' E. injection E as <-. apply R_running. Qed.

Lemma fp_fflush : fp fflush.
Proof. apply fp_ret. Qed.

Lemma fp_update_flags (r : Z) : fp (update_flags r).
Proof.
  unfold update_flags. apply fp_bind; [apply fp_load_reg |].
  intros v. repeat apply fp_if; apply fp_store_cond.
Qed.

Lemma fp_mem_write (a v : Z) : fp (mem_write a v).
Proof. apply fp_store_mem. Qed.

Lemma fp_mem_read (a : Z) : fp (mem_read a).
Proof.
  unfold mem_read. apply fp_bind; [| intros _; apply fp_load_mem].
  apply fp_if; [| apply fp_ret].
  apply fp_bind; [apply fp_check_key | intros k].
  apply fp_if; [| apply fp_store_mem].
  apply fp_bind; [apply fp_store_mem | intros _].
  apply fp_bind; [apply fp_getchar | intros c; apply fp_store_mem].
Qed.

Lemma fp_puts_loop (cells : list Z) : fp (puts_loop cells).
Proof.
  induction cells as [|w rest IH]; cbn [puts_loop]; [apply fp_raise |].
  apply fp_if; [| apply fp_ret].
  apply fp_bind; [apply fp_putc | intros _; exact IH].
Qed.

Lemma fp_putsp_loop (cells : list Z) : fp (putsp_loop cells).
Proof.
  induction cells as [|w rest IH]; cbn [putsp_loop]; [apply fp_raise |].
  apply fp_if; [| apply fp_ret]. cbv zeta.
  apply fp_bind; [apply fp_putc | intros _].
  apply fp_bind; [| intros _; exact IH].
  apply fp_if; [apply fp_putc | apply fp_ret].
Qed.

Ltac fp_step :=
  first
    [ apply fp_ret | apply fp_raise
    | apply fp_load_reg | apply fp_store_field
    | apply fp_store_gpr; unfold R_R0, R_R7, R_PC, R_COND; lia
    | apply fp_update_flags | apply fp_mem_read | apply fp_mem_write
    | apply fp_getchar | apply fp_putc | apply fp_printf | apply fp_puts
    | apply fp_fflush | apply fp_cells_from | apply fp_puts_loop
    | apply fp_putsp_loop | apply fp_set_running
    | apply fp_if
    | apply fp_bind; [| intros ?] ].

Lemma fp_fetch : fp fetch.
Proof. unfold fetch. repeat fp_step. Qed.

(* every trap but HALT *)
Lemma fp_trap_not_halt (instr : Z) :
  Z.land instr 0xFF ≠ 0x25 → fp (execute_trap instr).
Proof.
  intros Hh. unfold execute_trap. cbv zeta.
  destruct (trap_of (Z.land instr 0xFF)) as [t|] eqn:Et;
    [| repeat fp_step].
  assert (t ≠ TRAP_HALT) as Ht.
  { intros ->. apply Hh. clear Hh.
    destruct (Z.land instr 0xFF) as [|p|p]; try discriminate Et.
    do 6 (destruct p as [p|p|]; try discriminate Et). reflexivity. }
  destruct t; try done; repeat fp_step.
Qed.

Lemma fp_trap (instr : Z) : fp (execute_trap instr).
Proof.
  unfold execute_trap. cbv zeta.
  destruct (trap_of (Z.land instr 0xFF)) as [[]|]; repeat fp_step.
Qed.

(* the instructions whose case does not call [update_flags] *)
Lemma fp_execute_no_flags (instr : Z) (o : opcode) :
  decode instr = Some o → sets_flags o = false → fp (execute instr).
Proof.
  unfold decode. intros Hd Hc. unfold execute. rewrite Hd. cbv zeta.
  destruct o; try discriminate Hc;
    try apply fp_trap; repeat fp_step.
Qed.

(* the store instructions *)
Lemma fp_execute_store (instr : Z) (o : opcode) :
  decode instr = Some o → is_store o = true → fp (execute instr).
Proof.
  unfold decode. intros Hd Hc. unfold execute. rewrite Hd. cbv zeta.
  destruct o; try discriminate Hc; repeat fp_step.
Qed.

(* every instruction but TRAP x25 *)
Lemma fp_execute_not_halt (instr : Z) :
  ¬ (decode instr = Some OP_TRAP ∧ Z.land instr 0xFF = 0x25) →
  fp (execute instr).
Proof.
  unfold decode. intros Hh. unfold execute. cbv zeta.
  destruct (opcode_of (Z.shiftr instr 12)) as [o|]; [| apply fp_raise].
  destruct o;
    try (apply fp_trap_not_halt; intros E; apply Hh;
         split; [reflexivity | exact E]);
    repeat fp_step.
Qed.

End Footprint.

Lemma update_flags_inv (r : Z) (s s' : state) :
  update_flags r s = Ok tt s' →
  s' = set_reg R_COND (flag_of (get_reg r s)) s
  ∧ (Z.to_nat R_COND < length (reg s))%nat.
Proof.
  unfold update_flags. intros H.
  apply bind_Ok_inv in H as (v & s1 & Hl & Hs).
  apply load_reg_inv in Hl as [-> Hv].
  assert (get_reg r s = v) as Hg by (unfold get_reg; rewrite Hv; reflexivity).
  unfold flag_of. rewrite Hg.
  destruct (v =? 0); [apply store_reg_inv in Hs; exact Hs |].
  destruct (negb (Z.shiftr v 15 =? 0)); apply store_reg_inv in Hs; exact Hs.
Qed.

(* a computation that ends in [update_flags r0] leaves COND in step with
   the register [r0] *)
Lemma flags_follow (m : M unit) (x : Z) (s s' : state) :
  (m;; update_flags (Z.land x 0x7)) s = Ok tt s' →
  get_reg R_COND s' = flag_of (get_reg (Z.land x 0x7) s').
Proof.
  intros H. apply bind_Ok_inv in H as ([] & s1 & _ & Hu).
  apply update_flags_inv in Hu as [-> Hc].
  rewrite get_reg_set_eq by exact Hc.
  rewrite get_reg_set_ne
    by (pose proof (field_below_pc x); unfold R_COND; lia).
  reflexivity.
Qed.

(** X16: COND is written by the flag-setting instructions only.  The body
    of BR, JMP, JSR/JSRR, ST, STI, STR and TRAP (and the fetch of any
    instruction) leaves COND exactly as it was. *)
Theorem cond_kept_without_flags (instr : Z) (o : opcode) (s s' : state) :
  decode instr = Some o → sets_flags o = false →
  execute instr s = Ok tt s' →
  reg s' !! Z.to_nat R_COND = reg s !! Z.to_nat R_COND
  ∧ (∀ i s1, fetch s = Ok i s1 →
             reg s1 !! Z.to_nat R_COND = reg s !! Z.to_nat R_COND).
Proof.
  intros Hd Hc He.
  set (R := λ a b : state,
              reg b !! Z.to_nat R_COND = reg a !! Z.to_nat R_COND).
  assert (∀ a, R a a) as R1 by reflexivity.
  assert (∀ a b c, R a b → R b c → R a c) as R2
    by (unfold R; intros; congruence).
  assert (∀ a m, R a (with_memory m a)) as R3 by reflexivity.
  assert (∀ a i, R a (with_stdin i a)) as R4 by reflexivity.
  assert (∀ a i, R a (with_stdout i a)) as R5 by reflexivity.
  assert (∀ a b, R a (with_running b a)) as R6 by reflexivity.
  assert (∀ a r v, 0 ≤ r < R_COND →
                   R a (with_reg (<[Z.to_nat r := v]> (reg a)) a)) as R7.
  { intros a r v Hr. unfold R. cbn [reg with_reg].
    apply list_lookup_insert_ne. unfold R_COND in *. lia. }
  split.
  - exact (fp_execute_no_flags R R1 R2 R3 R4 R5 R6 R7 instr o Hd Hc s tt s'
             He).
  - intros i s1 Hf. exact (fp_fetch R R1 R2 R3 R4 R7 s i s1 Hf).
Qed.

(** Witness of X16: JMP R1 (0xC040) with COND = POS. *)
Lemma cond_kept_without_flags_witness :
  (decode 0xC040 = Some OP_JMP ∧ sets_flags OP_JMP = false
   ∧ execute 0xC040 alu_machine
     = Ok tt (set_reg R_PC (get_reg (SR1 0xC040) alu_machine) alu_machine))
  ∧ reg (set_reg R_PC (get_reg (SR1 0xC040) alu_machine) alu_machine)
      !! Z.to_nat R_COND
    = reg alu_machine !! Z.to_nat R_COND.
Proof.
  assert (decode 0xC040 = Some OP_JMP) as H1 by reflexivity.
  assert (sets_flags OP_JMP = false) as H2 by reflexivity.
  pose proof (exec_jmp alu_machine eq_refl 0xC040 eq_refl) as H3.
  split; [exact (conj H1 (conj H2 H3)) |].
  exact (proj1 (cond_kept_without_flags 0xC040 OP_JMP alu_machine _
                  H1 H2 H3)).
Defined.

(* the registers keep their number, and COND its value, under every write
   but one to COND *)
Lemma cond_kept (s s' : state) :
  (∃ instr o, decode instr = Some o ∧ sets_flags o = false
              ∧ execute instr s = Ok tt s')
  ∨ (∃ instr, fetch s = Ok instr s') →
  reg s' !! Z.to_nat R_COND = reg s !! Z.to_nat R_COND
  ∧ length (reg s') = length (reg s).
Proof.
  set (R := λ a b : state,
              reg b !! Z.to_nat R_COND = reg a !! Z.to_nat R_COND
              ∧ length (reg b) = length (reg a)).
  assert (∀ a, R a a) as R1 by (split; reflexivity).
  assert (∀ a b c, R a b → R b c → R a c) as R2
    by (unfold R; intros a b c [? ?] [? ?]; split; congruence).
  assert (∀ a m, R a (with_memory m a)) as R3 by (split; reflexivity).
  assert (∀ a i, R a (with_stdin i a)) as R4 by (split; reflexivity).
  assert (∀ a i, R a (with_stdout i a)) as R5 by (split; reflexivity).
  assert (∀ a b, R a (with_running b a)) as R6 by (split; reflexivity).
  assert (∀ a r v, 0 ≤ r < R_COND →
                   R a (with_reg (<[Z.to_nat r := v]> (reg a)) a)) as R7.
  { intros a r v Hr. unfold R. cbn [reg with_reg]. split.
    - apply list_lookup_insert_ne. unfold R_COND in *. lia.
    - apply length_insert. }
  intros [(instr & o & Hd & Hc & He) | (instr & Hf)].
  - exact (fp_execute_no_flags R R1 R2 R3 R4 R5 R6 R7 instr o Hd Hc s tt s'
             He).
  - exact (fp_fetch R R1 R2 R3 R4 R7 s instr s' Hf).
Qed.

(* COND is still 0 as long as no flag-setting instruction has run *)
Lemma cond_zero_without_flags (s0 s : state) :
  loop_entry s0 → reachable_without_flags s0 s →
  reg s !! Z.to_nat R_COND = Some 0 ∧ length (reg s) = REG_LEN.
Proof.
  intros [Hr _] Hq.
  induction Hq as [|s instr o s1 s' _ IH _ Hf Hd Hc He].
  - rewrite Hr. split; reflexivity.
  - destruct IH as [IHc IHl].
    destruct (cond_kept s s1 (or_intror (ex_intro _ instr Hf))) as [Hc1 Hl1].
    destruct (cond_kept s1 s'
                (or_introl (ex_intro _ instr
                              (ex_intro _ o (conj Hd (conj Hc He))))))
      as [Hc2 Hl2].
    split; congruence.
Qed.

Lemma fetch_pc (instr : Z) (s s1 : state) :
  length (reg s) = REG_LEN → fetch s = Ok instr s1 →
  get_reg R_PC s1 = u16 (get_reg R_PC s + 1).
Proof.
  intros Hlen Hf. apply fetch_inv in Hf as (pc & Hpc & Hr).
  apply mem_read_frame in Hr as (Hreg & _).
  unfold get_reg. rewrite Hreg, Hpc. cbn [reg set_pc with_reg default].
  rewrite list_lookup_insert_eq
    by (rewrite Hlen; unfold REG_LEN, R_COUNT, R_PC; lia).
  reflexivity.
Qed.

(** X10: a BR is a no-op, whatever its offset, when its condition bits are
    all clear or when COND is 0.  [main] never initialises COND, so in every
    state the loop reaches from its entry by cycles that execute no
    flag-setting instruction COND is still 0, and a BR fetched there, BRnzp
    included, is not taken: the cycle ends in the state the fetch left, with
    the PC one higher. *)
Theorem br_not_taken (s0 s : state) :
  loop_entry s0 → reachable_without_flags s0 s →
  get_reg R_COND s = 0
  ∧ reachable s0 s
  ∧ (∀ instr s1, fetch s = Ok instr s1 → Z.shiftr instr 12 = 0 →
       cycle s = Ok tt s1
       ∧ get_reg R_PC s1 = u16 (get_reg R_PC s + 1)
       ∧ get_reg R_COND s1 = 0)
  ∧ (∀ instr t, length (reg t) = REG_LEN → Z.shiftr instr 12 = 0 →
       DR instr = 0 ∨ get_reg R_COND t = 0 →
       execute instr t = Ok tt t).
Proof.
  intros Hentry Hq.
  assert (∀ instr t, length (reg t) = REG_LEN → Z.shiftr instr 12 = 0 →
            DR instr = 0 ∨ get_reg R_COND t = 0 →
            execute instr t = Ok tt t) as Hbr.
  { intros instr t Hlen Hop Hz. rewrite (exec_br t Hlen instr Hop).
    assert (Z.land (DR instr) (get_reg R_COND t) = 0) as ->
      by (destruct Hz as [-> | ->]; [apply Z.land_0_l | apply Z.land_0_r]).
    reflexivity. }
  destruct (cond_zero_without_flags s0 s Hentry Hq) as [Hc Hlen].
  split; [unfold get_reg; rewrite Hc; reflexivity |]. split.
  { clear Hc Hlen. induction Hq as [|s instr o s1 s' _ IH Hrun Hf _ _ He];
      [apply reach_entry |].
    apply (reach_cycle s0 s s' IH Hrun).
    rewrite (cycle_fetched _ _ _ Hf). exact He. }
  split; [| exact Hbr].
  intros instr s1 Hf Hop.
  destruct (cond_kept s s1 (or_intror (ex_intro _ instr Hf))) as [Hc1 Hl1].
  assert (get_reg R_COND s1 = 0) as Hz
    by (unfold get_reg; rewrite Hc1, Hc; reflexivity).
  split; [| split; [exact (fetch_pc instr s s1 Hlen Hf) | exact Hz]].
  rewrite (cycle_fetched _ _ _ Hf).
  apply Hbr; [congruence | exact Hop | right; exact Hz].
Qed.

(** Witness of X10: after the ST at 0x3000, the BRnzp #-1 at 0x3001 is not
    taken. *)
Lemma br_not_taken_witness :
  (loop_entry branch_machine
   ∧ reachable_without_flags branch_machine
       (poke 0x3002 0 (set_reg R_PC 0x3001 branch_machine)))
  ∧ get_reg R_COND (poke 0x3002 0 (set_reg R_PC 0x3001 branch_machine)) = 0
  ∧ cycle (poke 0x3002 0 (set_reg R_PC 0x3001 branch_machine))
    = Ok tt (set_reg R_PC 0x3002
               (poke 0x3002 0 (set_reg R_PC 0x3001 branch_machine))).
Proof.
  assert (loop_entry branch_machine) as H1 by (split; reflexivity).
  assert (length (memory branch_machine) = MEMORY_LEN) as Hm
    by apply machine_memory_length.
  assert (fetch branch_machine
          = Ok 0x3001 (set_reg R_PC 0x3001 branch_machine)) as Hf.
  { apply (fetch_stored 0x3000); [reflexivity | discriminate |].
    vm_compute. reflexivity. }
  assert (execute 0x3001 (set_reg R_PC 0x3001 branch_machine)
          = Ok tt (poke 0x3002 0 (set_reg R_PC 0x3001 branch_machine)))
    as He.
  { apply (exec_st (set_reg R_PC 0x3001 branch_machine) eq_refl Hm 0x3001
             eq_refl).
    vm_compute. split; [discriminate | reflexivity]. }
  assert (reachable_without_flags branch_machine
            (poke 0x3002 0 (set_reg R_PC 0x3001 branch_machine))) as H2.
  { apply (quiet_cycle branch_machine branch_machine 0x3001 OP_ST
             (set_reg R_PC 0x3001 branch_machine) _
             (quiet_entry _) eq_refl Hf eq_refl eq_refl He). }
  split; [exact (conj H1 H2) |].
  destruct (br_not_taken branch_machine _ H1 H2) as (Hc & _ & Hb & _).
  split; [exact Hc |].
  apply (Hb 0x0FFF); [| reflexivity].
  apply (fetch_stored 0x3001); [reflexivity | discriminate |].
  vm_compute. reflexivity.
Defined.

(** ** The PC during a cycle *)

Lemma wf_fetch : preserves wf fetch.
Proof.
  apply (keeps_fetch wf); auto using wf_store_mem, wf_store_reg, wf_terminal.
Qed.

(* the fetch changes no register but the PC *)
Lemma fetch_regs (instr r : Z) (s s1 : state) :
  fetch s = Ok instr s1 → r ≠ R_PC → 0 ≤ r →
  get_reg r s1 = get_reg r s.
Proof.
  intros Hf Hr Hr0. apply fetch_inv in Hf as (pc & Hpc & Hm).
  apply mem_read_frame in Hm as (Hreg & _).
  unfold get_reg. rewrite Hreg. cbn [reg set_pc with_reg].
  rewrite list_lookup_insert_ne by (unfold R_PC in *; lia). reflexivity.
Qed.

(** C9: the PC is incremented by the fetch, before the body of the
    instruction runs, so every PC-relative operation of the same cycle works
    from the incremented PC.  With pc the PC before the fetch: the fetch
    leaves PC = pc + 1 (modulo 2^16) and the cycle is the body run in that
    state; JSR saves pc + 1 in R7 and jumps to pc + 1 + offset; a taken BR
    jumps to pc + 1 + offset; LEA loads the address pc + 1 + offset; LD, LDI,
    ST and STI address the cell pc + 1 + offset.  In particular, with
    pc = 0x3000 a JSR with offset 5 sets R7 to 0x3001 and the PC to
    0x3001 + 5. *)
Theorem pc_relative_uses_incremented_pc (pc instr : Z) (s s1 : state) :
  length (reg s) = REG_LEN → length (memory s) = MEMORY_LEN →
  get_reg R_PC s = pc → fetch s = Ok instr s1 →
  get_reg R_PC s1 = u16 (pc + 1)
  ∧ cycle s = execute instr s1
  ∧ (Z.shiftr instr 12 = 4 → Z.land (Z.shiftr instr 11) 1 ≠ 0 →
       cycle s
       = Ok tt (set_reg R_PC (u16 (u16 (pc + 1) + off11 instr))
                  (set_reg R_R7 (u16 (pc + 1)) s1)))
  ∧ (Z.shiftr instr 12 = 0 →
       Z.land (DR instr) (get_reg R_COND s) ≠ 0 →
       cycle s = Ok tt (set_reg R_PC (u16 (u16 (pc + 1) + off9 instr)) s1))
  ∧ (Z.shiftr instr 12 = 14 →
       ∃ s', cycle s = Ok tt s'
           ∧ get_reg (DR instr) s' = u16 (u16 (pc + 1) + off9 instr))
  ∧ (Z.shiftr instr 12 = 2 →
       plain_cell (u16 (u16 (pc + 1) + off9 instr)) →
       ∃ s', cycle s = Ok tt s'
           ∧ get_reg (DR instr) s'
             = get_mem (u16 (u16 (pc + 1) + off9 instr)) s1)
  ∧ (Z.shiftr instr 12 = 10 →
       plain_cell (u16 (u16 (pc + 1) + off9 instr)) →
       plain_cell (get_mem (u16 (u16 (pc + 1) + off9 instr)) s1) →
       ∃ s', cycle s = Ok tt s'
           ∧ get_reg (DR instr) s'
             = get_mem (get_mem (u16 (u16 (pc + 1) + off9 instr)) s1) s1)
  ∧ (Z.shiftr instr 12 = 3 →
       0 ≤ u16 (u16 (pc + 1) + off9 instr) < 65535 →
       cycle s
       = Ok tt (poke (u16 (u16 (pc + 1) + off9 instr))
                  (get_reg (DR instr) s) s1))
  ∧ (Z.shiftr instr 12 = 11 →
       plain_cell (u16 (u16 (pc + 1) + off9 instr)) →
       0 ≤ get_mem (u16 (u16 (pc + 1) + off9 instr)) s1 < 65535 →
       cycle s
       = Ok tt (poke (get_mem (u16 (u16 (pc + 1) + off9 instr)) s1)
                  (get_reg (DR instr) s) s1))
  ∧ (pc = 0x3000 → Z.shiftr instr 12 = 4 →
       Z.land (Z.shiftr instr 11) 1 ≠ 0 → off11 instr = 5 →
       ∃ s', cycle s = Ok tt s'
           ∧ get_reg R_R7 s' = 0x3001
           ∧ get_reg R_PC s' = 0x3001 + 5).
Proof.
  intros Hlen Hmem Hpc Hf.
  destruct (wf_fetch s instr s1 (conj Hmem Hlen) Hf) as [Hmem1 Hlen1].
  pose proof (fetch_pc instr s s1 Hlen Hf) as Hpc1. rewrite Hpc in Hpc1.
  pose proof (cycle_fetched _ _ _ Hf) as Hcy.
  assert (get_reg (DR instr) s1 = get_reg (DR instr) s) as Hdr.
  { pose proof (field_below_pc (Z.shiftr instr 9)) as Hr.
    apply (fetch_regs instr); [exact Hf | |]; unfold DR, R_PC; lia. }
  assert (get_reg R_COND s1 = get_reg R_COND s) as Hcond
    by (apply (fetch_regs instr); [exact Hf | discriminate | discriminate]).
  assert (∀ v, get_reg (DR instr)
                 (set_reg R_COND (flag_of v) (set_reg (DR instr) v s1)) = v)
    as Hset.
  { intros v. pose proof (field_below_pc (Z.shiftr instr 9)) as Hr.
    rewrite get_reg_set_ne by (unfold DR, R_COND; lia).
    apply get_reg_set_eq. reg_idx. }
  assert (Z.shiftr instr 12 = 4 → Z.land (Z.shiftr instr 11) 1 ≠ 0 →
          cycle s
          = Ok tt (set_reg R_PC (u16 (u16 (pc + 1) + off11 instr))
                     (set_reg R_R7 (u16 (pc + 1)) s1))) as Hjsr.
  { intros Hop Hfl. rewrite Hcy, (exec_jsr s1 Hlen1 instr Hop Hfl), Hpc1.
    reflexivity. }
  split; [exact Hpc1 |]. split; [exact Hcy |]. split; [exact Hjsr |].
  split.
  { intros Hop Hc. rewrite Hcy, (exec_br s1 Hlen1 instr Hop), Hcond, Hpc1.
    destruct (Z.eqb_spec (Z.land (DR instr) (get_reg R_COND s)) 0) as [E|_];
      [done | reflexivity]. }
  split.
  { intros Hop. rewrite Hcy, (exec_lea s1 Hlen1 instr Hop), Hpc1.
    eexists. split; [reflexivity | apply Hset]. }
  split.
  { intros Hop Ha. rewrite <- Hpc1 in Ha.
    rewrite Hcy, (exec_ld s1 Hlen1 Hmem1 instr Hop Ha), Hpc1.
    eexists. split; [reflexivity | apply Hset]. }
  split.
  { intros Hop Ha Hb. rewrite <- Hpc1 in Ha, Hb.
    rewrite Hcy, (exec_ldi s1 Hlen1 Hmem1 instr Hop Ha Hb), Hpc1.
    eexists. split; [reflexivity | apply Hset]. }
  split.
  { intros Hop Ha. rewrite <- Hpc1 in Ha.
    rewrite Hcy, (exec_st s1 Hlen1 Hmem1 instr Hop Ha), Hpc1, Hdr.
    reflexivity. }
  split.
  { intros Hop Ha Hb. rewrite <- Hpc1 in Ha, Hb.
    rewrite Hcy, (exec_sti s1 Hlen1 Hmem1 instr Hop Ha Hb), Hpc1, Hdr.
    reflexivity. }
  intros -> Hop Hfl Ho. rewrite (Hjsr Hop Hfl), Ho.
  eexists. split; [reflexivity |]. split.
  - rewrite get_reg_set_ne by (unfold R_R7, R_PC; lia).
    apply get_reg_set_eq. reg_idx.
  - apply get_reg_set_eq. rewrite length_reg_set. reg_idx.
Qed.

(** Witness of C9: the zeroed machine with the word 0x4805 (JSR, offset 5)
    poked at 0x3000. *)
Lemma pc_relative_uses_incremented_pc_witness :
  (length (reg jsr_machine) = REG_LEN
   ∧ length (memory jsr_machine) = MEMORY_LEN
   ∧ get_reg R_PC jsr_machine = 0x3000
   ∧ fetch jsr_machine = Ok 0x4805 (set_pc 0x3001 jsr_machine))
  ∧ opcode_of (Z.shiftr 0x4805 12) = Some OP_JSR
  ∧ off11 0x4805 = 5
  ∧ ∃ s', cycle jsr_machine = Ok tt s'
        ∧ get_reg R_R7 s' = 0x3001
        ∧ get_reg R_PC s' = 0x3001 + 5.
Proof.
  assert (length (reg jsr_machine) = REG_LEN) as H1 by reflexivity.
  assert (length (memory jsr_machine) = MEMORY_LEN) as H2
    by (unfold jsr_machine, poke; cbn [memory with_memory];
        rewrite length_insert; apply length_replicate).
  assert (get_reg R_PC jsr_machine = 0x3000) as H3 by reflexivity.
  assert (fetch jsr_machine = Ok 0x4805 (set_pc 0x3001 jsr_machine)) as H4.
  { apply (fetch_stored 0x3000); [reflexivity | discriminate |].
    vm_compute. reflexivity. }
  split; [exact (conj H1 (conj H2 (conj H3 H4))) |].
  split; [reflexivity |]. split; [reflexivity |].
  exact (proj2 (proj2 (proj2 (proj2 (proj2 (proj2 (proj2 (proj2 (proj2
           (pc_relative_uses_incremented_pc 0x3000 0x4805 jsr_machine _
              H1 H2 H3 H4)))))))))
           eq_refl eq_refl ltac:(discriminate) eq_refl).
Defined.

(** X17: after the body of ADD, AND, NOT, LD, LDI, LDR or LEA, COND is the
    flag of the value the destination register now holds: ZERO for 0, NEG
    when the value shifted right by 15 is not 0, POS otherwise.  It is
    always exactly one of the three flags. *)
Theorem flags_follow_destination (instr : Z) (o : opcode) (s s' : state) :
  decode instr = Some o → sets_flags o = true →
  execute instr s = Ok tt s' →
  get_reg R_COND s' = flag_of (get_reg (DR instr) s')
  ∧ is_flag (get_reg R_COND s').
Proof.
  unfold decode. intros Hd Hc He.
  assert (get_reg R_COND s' = flag_of (get_reg (DR instr) s')) as E.
  { unfold execute in He. rewrite Hd in He. cbv zeta in He. unfold DR.
    destruct o; try discriminate Hc;
      repeat match type of He with
        | (_ ≫= (λ _, update_flags _)) _ = Ok _ _ =>
            exact (flags_follow _ _ _ _ He)
        | (_ ≫= _) _ = Ok _ _ =>
            apply bind_Ok_inv in He as (? & ? & _ & He)
        end. }
  split; [exact E |]. rewrite E. apply flag_of_is_flag.
Qed.

(** Witness of X17: NOT R2,R1 (0x947F) with R1 = 5. *)
Lemma flags_follow_destination_witness :
  (decode 0x947F = Some OP_NOT ∧ sets_flags OP_NOT = true
   ∧ ∃ s', execute 0x947F alu_machine = Ok tt s')
  ∧ ∃ s', execute 0x947F alu_machine = Ok tt s'
        ∧ get_reg R_COND s' = flag_of (get_reg (DR 0x947F) s')
        ∧ is_flag (get_reg R_COND s').
Proof.
  assert (decode 0x947F = Some OP_NOT) as H1 by reflexivity.
  assert (sets_flags OP_NOT = true) as H2 by reflexivity.
  pose proof (exec_not alu_machine eq_refl 0x947F eq_refl) as H3.
  split; [exact (conj H1 (conj H2 (ex_intro _ _ H3))) |].
  eexists. split; [exact H3 |].
  exact (flags_follow_destination 0x947F OP_NOT alu_machine _ H1 H2 H3).
Defined.

(** X18: the store instructions ST, STI and STR write memory only: no
    register changes, COND included, nothing is printed and the machine
    keeps running. *)
Theorem stores_keep_registers (instr : Z) (o : opcode) (s s' : state) :
  decode instr = Some o → is_store o = true →
  execute instr s = Ok tt s' →
  reg s' = reg s ∧ running s' = running s ∧ stdout s' = stdout s.
Proof.
  intros Hd Hc He.
  set (R := λ a b : state,
              reg b = reg a ∧ running b = running a ∧ stdout b = stdout a).
  assert (∀ a, R a a) as R1 by (intros a; repeat split).
  assert (∀ a b c, R a b → R b c → R a c) as R2
    by (unfold R; intros a b c (? & ? & ?) (? & ? & ?);
        repeat split; congruence).
  assert (∀ a m, R a (with_memory m a)) as R3 by (intros; repeat split).
  assert (∀ a i, R a (with_stdin i a)) as R4 by (intros; repeat split).
  exact (fp_execute_store R R1 R2 R3 R4 instr o Hd Hc s tt s' He).
Qed.

(** Witness of X18: STR R0,R6,#1 with R6 = 0x5000. *)
Lemma stores_keep_registers_witness :
  (decode 0x7181 = Some OP_STR ∧ is_store OP_STR = true
   ∧ ∃ s', execute 0x7181 stack_machine = Ok tt s')
  ∧ ∃ s', execute 0x7181 stack_machine = Ok tt s'
        ∧ reg s' = reg stack_machine ∧ running s' = running stack_machine
        ∧ stdout s' = stdout stack_machine.
Proof.
  assert (decode 0x7181 = Some OP_STR) as H1 by reflexivity.
  assert (sets_flags OP_STR = false) as H2 by reflexivity.
  assert (0 ≤ u16 (get_reg (SR1 0x7181) stack_machine + off6 0x7181)
          < 65535) as Ha by (vm_compute; split; [discriminate | reflexivity]).
  pose proof (exec_str stack_machine eq_refl
                (machine_memory_length _ _ _) 0x7181 eq_refl Ha) as H3.
  split; [exact (conj H1 (conj eq_refl (ex_intro _ _ H3))) |].
  eexists. split; [exact H3 |].
  exact (stores_keep_registers 0x7181 OP_STR stack_machine _ H1 eq_refl H3).
Defined.

(** ** Halting *)

Lemma exec_halt (instr : Z) (s : state) :
  length (reg s) = REG_LEN →
  Z.shiftr instr 12 = 15 → Z.land instr 0xFF = 0x25 →
  execute instr s
  = Ok tt (with_running false
             (with_stdout (stdout s ++ bytes_of_string "HALT" ++ [10])
                (set_reg R_R7 (get_reg R_PC s) s))).
Proof.
  intros Hlen Hop Hv. unfold execute. rewrite Hop. cbn [opcode_of].
  unfold execute_trap. cbv zeta. rewrite Hv. cbn [trap_of].
  do 2 reg_step. reflexivity.
Qed.

Lemma halt_dec (instr : Z) :
  {decode instr = Some OP_TRAP ∧ Z.land instr 0xFF = 0x25}
  + {¬ (decode instr = Some OP_TRAP ∧ Z.land instr 0xFF = 0x25)}.
Proof.
  destruct (Z.eq_dec (Z.land instr 0xFF) 0x25) as [Hv|Hv];
    [| right; intros [_ E]; exact (Hv E)].
  destruct (decode instr) as [[]|]; try (right; intros [E _]; discriminate E).
  left. split; [reflexivity | exact Hv].
Defined.

(** X19: HALT is the only instruction that stops the machine.  When a cycle
    returns with the running flag changed, the word it fetched was a TRAP
    with vector 0x25. *)
Theorem only_halt_stops (s s' : state) :
  cycle s = Ok tt s' → running s' ≠ running s →
  ∃ instr s1,
    fetch s = Ok instr s1
    ∧ decode instr = Some OP_TRAP ∧ Z.land instr 0xFF = 0x25.
Proof.
  intros Hc Hrun. unfold cycle in Hc.
  apply bind_Ok_inv in Hc as (instr & s1 & Hf & He).
  exists instr, s1. split; [exact Hf |].
  destruct (halt_dec instr) as [H|H]; [exact H | exfalso].
  set (R := λ a b : state, running b = running a).
  assert (∀ a, R a a) as R1 by reflexivity.
  assert (∀ a b c, R a b → R b c → R a c) as R2
    by (unfold R; intros; congruence).
  assert (∀ a m, R a (with_memory m a)) as R3 by reflexivity.
  assert (∀ a i, R a (with_stdin i a)) as R4 by reflexivity.
  assert (∀ a i, R a (with_stdout i a)) as R5 by reflexivity.
  assert (∀ a r v, 0 ≤ r < R_COND →
                   R a (with_reg (<[Z.to_nat r := v]> (reg a)) a)) as R7
    by reflexivity.
  assert (∀ a v, R a (with_reg (<[Z.to_nat R_COND := v]> (reg a)) a)) as R8
    by reflexivity.
  pose proof (fp_fetch R R1 R2 R3 R4 R7 s instr s1 Hf) as E1.
  pose proof (fp_execute_not_halt R R1 R2 R3 R4 R5 R7 R8 instr H s1 tt s' He)
    as E2.
  apply Hrun. unfold R in *. congruence.
Qed.

Lemma halt_machine_cycle :
  cycle halt_machine
  = Ok tt (with_running false
             (with_stdout
                (stdout (set_reg R_PC (u16 (0x3000 + 1)) halt_machine)
                 ++ bytes_of_string "HALT" ++ [10])
                (set_reg R_R7
                   (get_reg R_PC (set_reg R_PC (u16 (0x3000 + 1))
                                    halt_machine))
                   (set_reg R_PC (u16 (0x3000 + 1)) halt_machine)))).
Proof.
  rewrite (cycle_stored 0x3000 0xF025 halt_machine eq_refl eq_refl)
    by (discriminate || (vm_compute; reflexivity)).
  apply exec_halt; reflexivity.
Qed.

(** Witness of X19: the cycle that executes TRAP x25 at 0x3000. *)
Lemma only_halt_stops_witness :
  (∃ s', cycle halt_machine = Ok tt s' ∧ running s' ≠ running halt_machine)
  ∧ ∃ instr s1,
      fetch halt_machine = Ok instr s1
      ∧ decode instr = Some OP_TRAP ∧ Z.land instr 0xFF = 0x25.
Proof.
  assert (false ≠ running halt_machine) as Hne by discriminate.
  split; [eexists; split; [exact halt_machine_cycle | exact Hne] |].
  exact (only_halt_stops halt_machine _ halt_machine_cycle Hne).
Defined.

Lemma run_stopped (fuel : nat) (s : state) :
  running s = false → run fuel s = Ok tt s.
Proof. intros H. destruct fuel; [reflexivity |]. cbn [run]. rewrite H.
  reflexivity.
Qed.

(** X20: HALT prints the notice and ends the loop.  When the word at the PC
    is TRAP x25 and the machine is running, [run] with any fuel of at least
    one cycle returns after that one cycle: the output has grown by "HALT"
    and a newline, R7 holds the incremented PC, the running flag is clear,
    and memory is untouched. *)
Theorem halt_ends_run (fuel : nat) (pc instr : Z) (s : state) :
  length (reg s) = REG_LEN → running s = true →
  get_reg R_PC s = pc → pc ≠ MR_KBSR →
  memory s !! Z.to_nat pc = Some instr →
  Z.shiftr instr 12 = 15 → Z.land instr 0xFF = 0x25 →
  ∃ s',
    run (S fuel) s = Ok tt s'
    ∧ running s' = false
    ∧ stdout s' = stdout s ++ bytes_of_string "HALT" ++ [10]
    ∧ get_reg R_R7 s' = u16 (pc + 1) ∧ get_reg R_PC s' = u16 (pc + 1)
    ∧ memory s' = memory s.
Proof.
  intros Hlen Hrun Hpc Hk Hm Hop Hv.
  pose proof (cycle_stored pc instr s Hlen Hpc Hk Hm) as Hc.
  rewrite (exec_halt instr _ ltac:(rewrite length_reg_set; exact Hlen)
             Hop Hv) in Hc.
  rewrite (get_reg_set_eq R_PC) in Hc by reg_idx.
  eexists. split.
  { cbn [run]. rewrite Hrun, (bind_Ok _ _ _ _ _ Hc).
    apply run_stopped. reflexivity. }
  split; [reflexivity |]. split; [reflexivity |].
  split; [| split; [| reflexivity]].
  - apply (get_reg_set_eq R_R7). rewrite length_reg_set. reg_idx.
  - change (get_reg R_PC (set_reg R_R7 (u16 (pc + 1))
                            (set_reg R_PC (u16 (pc + 1)) s))
            = u16 (pc + 1)).
    rewrite get_reg_set_ne by (unfold R_R7, R_PC; lia).
    apply get_reg_set_eq. reg_idx.
Qed.

(** Witness of X20. *)
Lemma halt_ends_run_witness :
  (length (reg halt_machine) = REG_LEN ∧ running halt_machine = true
   ∧ get_reg R_PC halt_machine = 0x3000 ∧ 0x3000 ≠ MR_KBSR
   ∧ memory halt_machine !! Z.to_nat 0x3000 = Some 0xF025
   ∧ Z.shiftr 0xF025 12 = 15 ∧ Z.land 0xF025 0xFF = 0x25)
  ∧ ∃ s',
      run 1000 halt_machine = Ok tt s'
      ∧ running s' = false
      ∧ stdout s' = stdout halt_machine ++ bytes_of_string "HALT" ++ [10].
Proof.
  assert (length (reg halt_machine) = REG_LEN) as H1 by reflexivity.
  assert (running halt_machine = true) as H2 by reflexivity.
  assert (get_reg R_PC halt_machine = 0x3000) as H3 by reflexivity.
  assert (0x3000 ≠ MR_KBSR) as H4 by discriminate.
  assert (memory halt_machine !! Z.to_nat 0x3000 = Some 0xF025) as H5
    by (vm_compute; reflexivity).
  assert (Z.shiftr 0xF025 12 = 15) as H6 by reflexivity.
  assert (Z.land 0xF025 0xFF = 0x25) as H7 by reflexivity.
  split.
  { exact (conj H1 (conj H2 (conj H3 (conj H4 (conj H5 (conj H6 H7)))))). }
  destruct (halt_ends_run 999 0x3000 0xF025 halt_machine
              H1 H2 H3 H4 H5 H6 H7) as (s' & E & Hr & Ho & _).
  exists s'. exact (conj E (conj Hr Ho)).
Defined.

(** The result of a finished run does not depend on the fuel.  When
    [run] with some fuel has halted the machine, or has stopped on a fault,
    [run] with any larger fuel gives exactly the same result. *)
Theorem run_fuel_irrelevant (n k : nat) (s : state) :
  (∀ s', run n s = Ok tt s' → running s' = false →
         run (n + k) s = Ok tt s')
  ∧ (∀ f s', run n s = Fault f s' → run (n + k) s = Fault f s').
Proof.
  revert s. induction n as [|n IH]; intros s.
  - split.
    + intros s' E Hr. injection E as <-. apply run_stopped. exact Hr.
    + intros f s' E. discriminate E.
  - cbn [Nat.add run]. destruct (running s) eqn:Hrun.
    + rewrite !bind_unfold. destruct (cycle s) as [[] s1|e s1].
      * exact (IH s1).
      * split; [intros s' E; discriminate E | intros f s' E; exact E].
    + split; [intros s' E _; exact E | intros f s' E; discriminate E].
Qed.

(** Witness of X21: the run of [halt_machine] with 1 and with 1 + 5. *)
Lemma run_fuel_irrelevant_witness :
  ∃ s', run 1 halt_machine = Ok tt s' ∧ running s' = false
      ∧ run (1 + 5) halt_machine = Ok tt s'.
Proof.
  assert (run 1 halt_machine
          = Ok tt (with_running false
                     (with_stdout
                        (stdout (set_reg R_PC (u16 (0x3000 + 1)) halt_machine)
                         ++ bytes_of_string "HALT" ++ [10])
                        (set_reg R_R7
                           (get_reg R_PC (set_reg R_PC (u16 (0x3000 + 1))
                                            halt_machine))
                           (set_reg R_PC (u16 (0x3000 + 1)) halt_machine)))))
    as E by (cbn [run]; change (running halt_machine) with true; cbv iota;
             rewrite (bind_Ok _ _ _ _ _ halt_machine_cycle); reflexivity).
  eexists. split; [exact E |]. split; [reflexivity |].
  exact (proj1 (run_fuel_irrelevant 1 5 halt_machine) _ E eq_refl).
Defined.

(** ** The ways an instruction can fail *)

(* A set of faults that contains those of each kind of failing primitive.
   Each lemma depends only on the primitives the code it is about uses. *)
Section FaultKinds.

Variable E : fault → Prop.
Hypothesis E_bounds : E OutOfBounds.
Hypothesis E_blocked : E InputBlocked.

Local Abbreviation fw := (fails_with E).

Lemma fw_ret {A} (a : A) : fw (mret a).
Proof. intros s f s' H. discriminate H. Qed.

Lemma fw_raise_bounds {A} : fw (@raise A OutOfBounds).
Proof. intros s f s' H. injection H as <- _. exact E_bounds. Qed.

Lemma fw_bind {A B} (m : M A) (f : A → M B) :
  fw m → (∀ a, fw (f a)) → fw (m ≫= f).
Proof.
  intros Hm Hf s e s' H. rewrite bind_unfold in H.
  destruct (m s) as [a s1|e1 s1] eqn:Em.
  - exact (Hf a s1 e s' H).
  - injection H as <- _. exact (Hm s e1 s1 Em).
Qed.

Lemma fw_if {A} (c : bool) (m1 m2 : M A) :
  fw m1 → fw m2 → fw (if c then m1 else m2).
Proof. destruct c; auto. Qed.

Lemma fw_load_reg (r : Z) : fw (load_reg r).
Proof.
  intros s f s' H. unfold load_reg in H.
  destruct (reg s !! Z.to_nat r); [discriminate H |].
  injection H as <- _. exact E_bounds.
Qed.

Lemma fw_store_reg (r v : Z) : fw (store_reg r v).
Proof.
  intros s f s' H. unfold store_reg in H.
  destruct (reg s !! Z.to_nat r); [discriminate H |].
  injection H as <- _. exact E_bounds.
Qed.

Lemma fw_load_mem (a : Z) : fw (load_mem a).
Proof.
  intros s f s' H. unfold load_mem in H.
  destruct (memory s !! Z.to_nat a); [discriminate H |].
  injection H as <- _. exact E_bounds.
Qed.

Lemma fw_store_mem (a v : Z) : fw (store_mem a v).
Proof.
  intros s f s' H. unfold store_mem in H.
  destruct (memory s !! Z.to_nat a); [discriminate H |].
  injection H as <- _. exact E_bounds.
Qed.

Lemma fw_getchar : fw getchar.
Proof.
  intros s f s' H. unfold getchar in H.
  destruct (stdin s); [| discriminate H].
  injection H as <- _. exact E_blocked.
Qed.

Lemma fw_check_key : fw check_key.
Proof. intros s f s' H. discriminate H. Qed.

Lemma fw_cells_from (a : Z) : fw (cells_from a).
Proof. intros s f s' H. discriminate H. Qed.

Lemma fw_putc (c : Z) : fw (putc c).
Proof. intros s f s' H. discriminate H. Qed.

Lemma fw_printf (str : string) : fw (printf str).
Proof. intros s f s' H. discriminate H. Qed.

Lemma fw_puts (str : string) : fw (puts str).
Proof. intros s f s' H. discriminate H. Qed.

Lemma fw_set_running (b : bool) : fw (set_running b).
Proof. intros s f s' H. discriminate H. Qed.

Lemma fw_fflush : fw fflush.
Proof. apply fw_ret. Qed.

Lemma fw_update_flags (r : Z) : fw (update_flags r).
Proof.
  unfold update_flags. apply fw_bind; [apply fw_load_reg |].
  intros v. repeat apply fw_if; apply fw_store_reg.
Qed.

Lemma fw_mem_write (a v : Z) : fw (mem_write a v).
Proof. apply fw_store_mem. Qed.

(* [mem_read] calls [getchar] only after [check_key] has seen a key, so it
   cannot block *)
Lemma fw_mem_read (a : Z) : fw (mem_read a).
Proof.
  intros s f s' H. unfold mem_read in H. rewrite bind_unfold in H.
  destruct (a =? MR_KBSR); [| exact (fw_load_mem a s f s' H)].
  destruct ((check_key ≫= _) s) as [[] s1|e s1] eqn:Hp;
    [exact (fw_load_mem a s1 f s' H) |].
  injection H as <- <-. rewrite bind_unfold in Hp. unfold check_key in Hp.
  destruct (stdin s) as [|b rest] eqn:Hin.
  - exact (fw_store_mem _ _ s e s1 Hp).
  - rewrite bind_unfold in Hp.
    destruct (store_mem MR_KBSR (u16 (Z.shiftl 1 15)) s) as [[] s2|e2 s2]
      eqn:Hs; [| injection Hp as <- _; exact (fw_store_mem _ _ s e2 s2 Hs)].
    apply store_mem_inv in Hs as ->. rewrite bind_unfold in Hp.
    unfold getchar in Hp. cbn [stdin with_memory] in Hp. rewrite Hin in Hp.
    exact (fw_store_mem _ _ _ e s1 Hp).
Qed.

Lemma fw_puts_loop (cells : list Z) : fw (puts_loop cells).
Proof.
  induction cells as [|w rest IH]; cbn [puts_loop];
    [apply fw_raise_bounds |].
  apply fw_if; [| apply fw_ret].
  apply fw_bind; [apply fw_putc | intros _; exact IH].
Qed.

Lemma fw_putsp_loop (cells : list Z) : fw (putsp_loop cells).
Proof.
  induction cells as [|w rest IH]; cbn [putsp_loop];
    [apply fw_raise_bounds |].
  apply fw_if; [| apply fw_ret]. cbv zeta.
  apply fw_bind; [apply fw_putc | intros _].
  apply fw_bind; [| intros _; exact IH].
  apply fw_if; [apply fw_putc | apply fw_ret].
Qed.

Ltac fw_step :=
  first
    [ apply fw_ret | apply fw_load_reg | apply fw_store_reg
    | apply fw_update_flags | apply fw_mem_read | apply fw_mem_write
    | apply fw_getchar | apply fw_putc | apply fw_printf | apply fw_puts
    | apply fw_fflush | apply fw_cells_from | apply fw_puts_loop
    | apply fw_putsp_loop | apply fw_set_running
    | apply fw_if
    | apply fw_bind; [| intros ?] ].

Lemma fw_execute_trap (instr : Z) : fw (execute_trap instr).
Proof.
  unfold execute_trap. cbv zeta.
  destruct (trap_of (Z.land instr 0xFF)) as [[]|]; repeat fw_step.
Qed.

(* the traps that do not read the keyboard *)
Lemma fw_execute_trap_no_input (instr : Z) :
  Z.land instr 0xFF ≠ 0x20 → Z.land instr 0xFF ≠ 0x23 →
  fw (execute_trap instr).
Proof.
  intros H0 H3. unfold execute_trap. cbv zeta.
  destruct (trap_of (Z.land instr 0xFF)) as [t|] eqn:Et;
    [| repeat fw_step].
  assert (t ≠ TRAP_GETC ∧ t ≠ TRAP_IN) as [Hg Hi].
  { split; intros ->;
      destruct (Z.land instr 0xFF) as [|p|p]; try discriminate Et;
      do 6 (destruct p as [p|p|]; try discriminate Et); done. }
  destruct t; try done; repeat fw_step.
Qed.

(* every instruction with an assigned opcode other than TRAP *)
Lemma fw_execute_no_trap (instr : Z) (o : opcode) :
  decode instr = Some o → o ≠ OP_RTI → o ≠ OP_RES → o ≠ OP_TRAP →
  fw (execute instr).
Proof.
  unfold decode. intros Hd H8 H13 H15. unfold execute. rewrite Hd. cbv zeta.
  destruct o; try done; repeat fw_step.
Qed.

(* every instruction with an assigned opcode *)
Lemma fw_execute (instr : Z) (o : opcode) :
  decode instr = Some o → o ≠ OP_RTI → o ≠ OP_RES → fw (execute instr).
Proof.
  unfold decode. intros Hd H8 H13. unfold execute. rewrite Hd. cbv zeta.
  destruct o; try done; try apply fw_execute_trap; repeat fw_step.
Qed.

Lemma fw_fetch : fw fetch.
Proof. unfold fetch. repeat fw_step. Qed.

End FaultKinds.

Lemma decode_u16 (instr : Z) :
  is_u16 instr → ∃ o, decode instr = Some o.
Proof.
  intros Hi. unfold is_u16 in Hi. unfold decode.
  rewrite Z.shiftr_div_pow2 by lia. change (2 ^ 12) with 4096.
  assert (0 ≤ instr / 4096 < 16) as Hq by (Z.div_mod_to_equations; lia).
  destruct (instr / 4096) as [|p|p]; [eexists; reflexivity | | lia].
  do 4 (destruct p as [p|p|]; try (eexists; reflexivity); try lia).
Qed.

(** X21: how an instruction body can fail.  It is aborted as illegal
    exactly when the opcode of the 16-bit word is 1000 (RTI) or 1101
    (reserved), and then nothing has changed.  It can wait for input only
    in TRAP x20 (GETC) and TRAP x23 (IN).  It never uses an uninitialised
    variable.  Every other failure is an access outside an array. *)
Theorem instruction_faults (instr : Z) (s s' : state) (f : fault) :
  is_u16 instr → execute instr s = Fault f s' →
  (f = IllegalOpcode ↔ (Z.shiftr instr 12 = 8 ∨ Z.shiftr instr 12 = 13))
  ∧ (f = IllegalOpcode → s' = s)
  ∧ (f = InputBlocked →
       decode instr = Some OP_TRAP
       ∧ (Z.land instr 0xFF = 0x20 ∨ Z.land instr 0xFF = 0x23))
  ∧ f ≠ Uninitialised.
Proof.
  intros Hi He. destruct (decode_u16 instr Hi) as [o Hd].
  assert (Z.shiftr instr 12 = 8 ∨ Z.shiftr instr 12 = 13
          ↔ o = OP_RTI ∨ o = OP_RES) as Hcode.
  { unfold decode in Hd. split.
    - intros [E|E]; rewrite E in Hd; injection Hd as <-; auto.
    - intros [-> | ->];
        destruct (Z.shiftr instr 12) as [|p|p]; try discriminate Hd;
        do 4 (destruct p as [p|p|]; try discriminate Hd); auto. }
  assert (o = OP_RTI ∨ o = OP_RES ∨ (o ≠ OP_RTI ∧ o ≠ OP_RES)) as Hcase
    by (destruct o; auto; right; right; split; discriminate).
  destruct Hcase as [-> | [-> | [H8 H13]]].
  - unfold execute, decode in *. rewrite Hd in He. injection He as <- <-.
    split; [split; [intros _; apply Hcode; auto | reflexivity] |].
    split; [reflexivity |]. split; [discriminate | discriminate].
  - unfold execute, decode in *. rewrite Hd in He. injection He as <- <-.
    split; [split; [intros _; apply Hcode; auto | reflexivity] |].
    split; [reflexivity |]. split; [discriminate | discriminate].
  - pose proof (fw_execute (λ e, e = OutOfBounds ∨ e = InputBlocked)
                  (or_introl eq_refl) (or_intror eq_refl)
                  instr o Hd H8 H13 s f s' He) as Hkind.
    assert (f ≠ IllegalOpcode) as Hni
      by (destruct Hkind as [-> | ->]; discriminate).
    split; [split; [done | intros Hc; apply Hcode in Hc as [-> | ->]; done] |].
    split; [done |]. split; [| destruct Hkind as [-> | ->]; discriminate].
    intros ->.
    assert (o = OP_TRAP ∨ o ≠ OP_TRAP) as [-> | H15]
      by (destruct o; auto; right; discriminate).
    2: { pose proof (fw_execute_no_trap (λ e, e = OutOfBounds) eq_refl
                       instr o Hd H8 H13 H15 s _ s' He) as Hb.
         discriminate Hb. }
    split; [exact Hd |].
    destruct (Z.eq_dec (Z.land instr 0xFF) 0x20) as [|H0]; [auto |].
    destruct (Z.eq_dec (Z.land instr 0xFF) 0x23) as [|H3]; [auto |].
    exfalso. unfold execute, decode in *. rewrite Hd in He.
    pose proof (fw_execute_trap_no_input (λ e, e = OutOfBounds) eq_refl
                  instr H0 H3 s _ s' He) as Hb.
    discriminate Hb.
Qed.

(** Witness of X22: TRAP x20 (GETC) with nothing typed waits for input. *)
Lemma instruction_faults_witness :
  (is_u16 0xF020
   ∧ execute 0xF020 alu_machine
     = Fault InputBlocked (set_reg R_R7 (get_reg R_PC alu_machine)
                             alu_machine))
  ∧ decode 0xF020 = Some OP_TRAP
  ∧ (Z.land 0xF020 0xFF = 0x20 ∨ Z.land 0xF020 0xFF = 0x23).
Proof.
  assert (is_u16 0xF020) as H1 by (unfold is_u16; lia).
  assert (execute 0xF020 alu_machine
          = Fault InputBlocked (set_reg R_R7 (get_reg R_PC alu_machine)
                                  alu_machine)) as H2 by reflexivity.
  split; [exact (conj H1 H2) |].
  exact (proj1 (proj2 (proj2 (instruction_faults 0xF020 alu_machine _ _
                               H1 H2))) eq_refl).
Defined.

(** ** The trap routines *)

Section Traps.

Lemma u8_to_char (x : Z) : u8 (to_char x) = x mod 256.
Proof.
  unfold u8, to_char. cbv zeta.
  pose proof (Z.mod_pos_bound x 256 ltac:(lia)).
  destruct (x mod 256 <? 128); [apply Z.mod_small; lia |].
  symmetry. apply Z.mod_unique with (q := -1); lia.
Qed.

Lemma to_char_zero (x : Z) : (to_char x =? 0) = (x mod 256 =? 0).
Proof.
  unfold to_char. cbv zeta.
  pose proof (Z.mod_pos_bound x 256 ltac:(lia)).
  destruct (Z.ltb_spec (x mod 256) 128);
    destruct (Z.eqb_spec (x mod 256) 0); lia.
Qed.

Lemma to_char_ascii (b : Z) : 0 ≤ b < 128 → to_char b = b.
Proof.
  intros Hb. unfold to_char. cbv zeta. rewrite Z.mod_small by lia.
  destruct (Z.ltb_spec b 128); lia.
Qed.

Lemma puts_loop_string (ws rest : list Z) (s : state) :
  Forall (λ w, w ≠ 0) ws →
  puts_loop (ws ++ 0 :: rest) s
  = Ok tt (with_stdout (stdout s ++ ((λ w, w mod 256) <$> ws)) s).
Proof.
  intros Hws. revert s. induction Hws as [|w ws Hw _ IH]; intros s.
  - cbn [app puts_loop fmap list_fmap Z.eqb negb]. rewrite app_nil_r.
    destruct s; reflexivity.
  - cbn [app puts_loop fmap list_fmap].
    destruct (Z.eqb_spec w 0) as [|_]; [done |]. cbn [negb].
    rewrite bind_unfold. unfold putc at 1. rewrite IH, u8_to_char.
    cbn [stdout with_stdout]. rewrite <- app_assoc. reflexivity.
Qed.

Lemma puts_loop_runaway (cells : list Z) (s : state) :
  Forall (λ w, w ≠ 0) cells →
  puts_loop cells s
  = Fault OutOfBounds
      (with_stdout (stdout s ++ ((λ w, w mod 256) <$> cells)) s).
Proof.
  intros Hws. revert s. induction Hws as [|w ws Hw _ IH]; intros s.
  - cbn [puts_loop fmap list_fmap]. rewrite app_nil_r. destruct s.
    reflexivity.
  - cbn [puts_loop fmap list_fmap].
    destruct (Z.eqb_spec w 0) as [|_]; [done |]. cbn [negb].
    rewrite bind_unfold. unfold putc at 1. rewrite IH, u8_to_char.
    cbn [stdout with_stdout]. rewrite <- app_assoc. reflexivity.
Qed.

Lemma packed_bytes_putc (w : Z) (s : state) :
  (putc (to_char (Z.land w 0xFF));;
   if negb (to_char (Z.shiftr w 8) =? 0)
   then putc (to_char (Z.shiftr w 8)) else mret tt) s
  = Ok tt (with_stdout (stdout s ++ packed_bytes w) s).
Proof.
  rewrite bind_unfold. unfold putc at 1. rewrite u8_to_char.
  change 0xFF with (Z.ones 8). rewrite Z.land_ones by lia.
  change (2 ^ 8) with 256. rewrite Z.mod_mod by lia.
  rewrite to_char_zero, Z.shiftr_div_pow2 by lia. change (2 ^ 8) with 256.
  unfold packed_bytes.
  destruct ((w / 256) mod 256 =? 0); cbn [negb].
  - destruct s; reflexivity.
  - unfold putc. rewrite u8_to_char. cbn [stdout with_stdout].
    rewrite <- app_assoc. reflexivity.
Qed.

Lemma putsp_loop_string (ws rest : list Z) (s : state) :
  Forall (λ w, w ≠ 0) ws →
  putsp_loop (ws ++ 0 :: rest) s
  = Ok tt (with_stdout (stdout s ++ (ws ≫= packed_bytes)) s).
Proof.
  intros Hws. revert s. induction Hws as [|w ws Hw _ IH]; intros s.
  - cbn [app putsp_loop Z.eqb negb mbind list_bind]. rewrite app_nil_r.
    destruct s; reflexivity.
  - cbn [app putsp_loop]. destruct (Z.eqb_spec w 0) as [|_]; [done |].
    cbn [negb]. cbv zeta. rewrite <- bind_assoc.
    rewrite (bind_Ok _ _ _ _ _ (packed_bytes_putc w s)), IH.
    cbn [stdout with_stdout]. rewrite bind_cons, <- app_assoc. reflexivity.
Qed.

Variable s : state.
Hypothesis Hregs : length (reg s) = REG_LEN.

Lemma exec_getc (instr b : Z) (rest : list Z) :
  Z.shiftr instr 12 = 15 → Z.land instr 0xFF = 0x20 →
  stdin s = b :: rest →
  execute instr s
  = Ok tt (set_reg R_R0 (u16 b)
             (with_stdin rest (set_reg R_R7 (get_reg R_PC s) s))).
Proof.
  intros Hop Hv Hin. unfold execute. rewrite Hop. cbn [opcode_of].
  unfold execute_trap. cbv zeta. rewrite Hv. cbn [trap_of].
  do 2 reg_step. rewrite bind_unfold. unfold getchar at 1.
  cbn [stdin set_reg with_reg]. rewrite Hin.
  apply store_reg_set. cbn [reg with_stdin with_reg set_reg].
  rewrite length_insert, Hregs. unfold REG_LEN, R_COUNT, R_R0. lia.
Qed.

Lemma exec_getc_blocked (instr : Z) :
  Z.shiftr instr 12 = 15 → Z.land instr 0xFF = 0x20 → stdin s = [] →
  execute instr s
  = Fault InputBlocked (set_reg R_R7 (get_reg R_PC s) s).
Proof.
  intros Hop Hv Hin. unfold execute. rewrite Hop. cbn [opcode_of].
  unfold execute_trap. cbv zeta. rewrite Hv. cbn [trap_of].
  do 2 reg_step. rewrite bind_unfold. unfold getchar at 1.
  cbn [stdin set_reg with_reg]. rewrite Hin. reflexivity.
Qed.

Lemma exec_in (instr b : Z) (rest : list Z) :
  Z.shiftr instr 12 = 15 → Z.land instr 0xFF = 0x23 →
  stdin s = b :: rest →
  execute instr s
  = Ok tt (set_reg R_R0 (u16 (to_char b))
             (mkState (memory s)
                (<[Z.to_nat R_R7 := get_reg R_PC s]> (reg s)) (running s)
                rest
                (stdout s ++ bytes_of_string "Enter a character: "
                 ++ [b mod 256]))).
Proof.
  intros Hop Hv Hin. unfold execute. rewrite Hop. cbn [opcode_of].
  unfold execute_trap. cbv zeta. rewrite Hv. cbn [trap_of].
  do 2 reg_step. rewrite bind_unfold. unfold printf at 1.
  rewrite bind_unfold. unfold getchar at 1.
  cbn [stdin set_reg with_reg with_stdout]. rewrite Hin.
  rewrite bind_unfold. unfold putc at 1. rewrite u8_to_char.
  etransitivity.
  { apply store_reg_set. cbn [reg with_stdout with_stdin set_reg with_reg].
    rewrite length_insert, Hregs. unfold REG_LEN, R_COUNT, R_R0. lia. }
  unfold set_reg, with_reg, with_stdout, with_stdin.
  cbn [memory reg running stdin stdout]. rewrite <- app_assoc. reflexivity.
Qed.

Lemma exec_puts (instr : Z) (ws rest : list Z) :
  Z.shiftr instr 12 = 15 → Z.land instr 0xFF = 0x22 →
  drop (Z.to_nat (get_reg R_R0 s)) (memory s) = ws ++ 0 :: rest →
  Forall (λ w, w ≠ 0) ws →
  execute instr s
  = Ok tt (with_stdout (stdout s ++ ((λ w, w mod 256) <$> ws))
             (set_reg R_R7 (get_reg R_PC s) s)).
Proof.
  intros Hop Hv Hcells Hws. unfold execute. rewrite Hop. cbn [opcode_of].
  unfold execute_trap. cbv zeta. rewrite Hv. cbn [trap_of].
  do 3 reg_step. rewrite get_reg_set_ne by (unfold R_R7, R_R0; lia).
  rewrite bind_unfold. unfold cells_from at 1.
  cbn [memory set_reg with_reg]. rewrite Hcells.
  rewrite bind_unfold, (puts_loop_string ws rest _ Hws). reflexivity.
Qed.

Lemma exec_puts_runaway (instr : Z) :
  Z.shiftr instr 12 = 15 → Z.land instr 0xFF = 0x22 →
  Forall (λ w, w ≠ 0) (drop (Z.to_nat (get_reg R_R0 s)) (memory s)) →
  ∃ s', execute instr s = Fault OutOfBounds s'.
Proof.
  intros Hop Hv Hws. unfold execute. rewrite Hop. cbn [opcode_of].
  unfold execute_trap. cbv zeta. rewrite Hv. cbn [trap_of].
  do 3 reg_step. rewrite get_reg_set_ne by (unfold R_R7, R_R0; lia).
  rewrite bind_unfold. unfold cells_from at 1.
  cbn [memory set_reg with_reg].
  rewrite bind_unfold, (puts_loop_runaway _ _ Hws). eexists. reflexivity.
Qed.

Lemma exec_putsp (instr : Z) (ws rest : list Z) :
  Z.shiftr instr 12 = 15 → Z.land instr 0xFF = 0x24 →
  drop (Z.to_nat (get_reg R_R0 s)) (memory s) = ws ++ 0 :: rest →
  Forall (λ w, w ≠ 0) ws →
  execute instr s
  = Ok tt (with_stdout (stdout s ++ (ws ≫= packed_bytes))
             (set_reg R_R7 (get_reg R_PC s) s)).
Proof.
  intros Hop Hv Hcells Hws. unfold execute. rewrite Hop. cbn [opcode_of].
  unfold execute_trap. cbv zeta. rewrite Hv. cbn [trap_of].
  do 3 reg_step. rewrite get_reg_set_ne by (unfold R_R7, R_R0; lia).
  rewrite bind_unfold. unfold cells_from at 1.
  cbn [memory set_reg with_reg]. rewrite Hcells.
  rewrite bind_unfold, (putsp_loop_string ws rest _ Hws). reflexivity.
Qed.

End Traps.

(** X22: TRAP x22 (PUTS) prints one byte per word, the low byte, from the
    address in R0 up to the first word that is 0, and changes nothing but
    the output and R7.  When no cell from R0 to the end of [memory] is 0,
    the routine walks off the end of the array. *)
Theorem puts_prints_string (instr : Z) (s : state) :
  length (reg s) = REG_LEN →
  Z.shiftr instr 12 = 15 → Z.land instr 0xFF = 0x22 →
  (∀ ws rest,
     drop (Z.to_nat (get_reg R_R0 s)) (memory s) = ws ++ 0 :: rest →
     Forall (λ w, w ≠ 0) ws →
     ∃ s',
       execute instr s = Ok tt s'
       ∧ stdout s' = stdout s ++ ((λ w, w mod 256) <$> ws)
       ∧ memory s' = memory s ∧ stdin s' = stdin s
       ∧ running s' = running s
       ∧ reg s' = <[Z.to_nat R_R7 := get_reg R_PC s]> (reg s))
  ∧ (Forall (λ w, w ≠ 0) (drop (Z.to_nat (get_reg R_R0 s)) (memory s)) →
     ∃ s', execute instr s = Fault OutOfBounds s').
Proof.
  intros Hlen Hop Hv. split.
  - intros ws rest Hcells Hws. eexists.
    split; [exact (exec_puts s Hlen instr ws rest Hop Hv Hcells Hws) |].
    repeat split; reflexivity.
  - intros Hws. exact (exec_puts_runaway s Hlen instr Hop Hv Hws).
Qed.

(** Witness of X23: "HI" in the cells 0xFFFC and 0xFFFD, and a string
    without terminator in the last cell. *)
Lemma puts_prints_string_witness :
  (length (reg string_machine) = REG_LEN
   ∧ Z.shiftr 0xF022 12 = 15 ∧ Z.land 0xF022 0xFF = 0x22
   ∧ drop (Z.to_nat (get_reg R_R0 string_machine)) (memory string_machine)
     = [0x48; 0x49] ++ 0 :: []
   ∧ Forall (λ w, w ≠ 0) [0x48; 0x49]
   ∧ Forall (λ w, w ≠ 0)
       (drop (Z.to_nat (get_reg R_R0 runaway_machine))
          (memory runaway_machine)))
  ∧ (∃ s',
       execute 0xF022 string_machine = Ok tt s'
       ∧ stdout s' = stdout string_machine ++ [0x48; 0x49])
  ∧ (∃ s', execute 0xF022 runaway_machine = Fault OutOfBounds s').
Proof.
  assert (length (reg string_machine) = REG_LEN) as H1 by reflexivity.
  assert (Z.shiftr 0xF022 12 = 15) as H2 by reflexivity.
  assert (Z.land 0xF022 0xFF = 0x22) as H3 by reflexivity.
  assert (drop (Z.to_nat (get_reg R_R0 string_machine))
            (memory string_machine) = [0x48; 0x49] ++ 0 :: []) as H4
    by (vm_compute; reflexivity).
  assert (Forall (λ w, w ≠ 0) [0x48; 0x49]) as H5
    by (repeat constructor; discriminate).
  assert (drop (Z.to_nat (get_reg R_R0 runaway_machine))
            (memory runaway_machine) = [0x58]) as E6
    by (vm_compute; reflexivity).
  assert (Forall (λ w, w ≠ 0)
            (drop (Z.to_nat (get_reg R_R0 runaway_machine))
               (memory runaway_machine))) as H6
    by (rewrite E6; repeat constructor; discriminate).
  split.
  { exact (conj H1 (conj H2 (conj H3 (conj H4 (conj H5 H6))))). }
  split.
  - destruct (proj1 (puts_prints_string 0xF022 string_machine H1 H2 H3)
                [0x48; 0x49] [] H4 H5) as (s' & E & Ho & _).
    exists s'. exact (conj E Ho).
  - exact (proj2 (puts_prints_string 0xF022 runaway_machine eq_refl H2 H3)
             H6).
Defined.

(** X23: TRAP x24 (PUTSP) prints a packed string: for every word from the
    address in R0 up to the first word that is 0, the low byte and then the
    high byte, the high byte only when it is not 0.  Nothing but the output
    and R7 changes. *)
Theorem putsp_prints_packed_string (instr : Z) (ws rest : list Z)
    (s : state) :
  length (reg s) = REG_LEN →
  Z.shiftr instr 12 = 15 → Z.land instr 0xFF = 0x24 →
  drop (Z.to_nat (get_reg R_R0 s)) (memory s) = ws ++ 0 :: rest →
  Forall (λ w, w ≠ 0) ws →
  ∃ s',
    execute instr s = Ok tt s'
    ∧ stdout s' = stdout s ++ (ws ≫= packed_bytes)
    ∧ memory s' = memory s ∧ stdin s' = stdin s
    ∧ running s' = running s
    ∧ reg s' = <[Z.to_nat R_R7 := get_reg R_PC s]> (reg s).
Proof.
  intros Hlen Hop Hv Hcells Hws. eexists.
  split; [exact (exec_putsp s Hlen instr ws rest Hop Hv Hcells Hws) |].
  repeat split; reflexivity.
Qed.

(** Witness of X24: the words 0x4948 and 0x0021 print "HI!". *)
Lemma putsp_prints_packed_string_witness :
  (length (reg packed_machine) = REG_LEN
   ∧ Z.shiftr 0xF024 12 = 15 ∧ Z.land 0xF024 0xFF = 0x24
   ∧ drop (Z.to_nat (get_reg R_R0 packed_machine)) (memory packed_machine)
     = [0x4948; 0x0021] ++ 0 :: []
   ∧ Forall (λ w, w ≠ 0) [0x4948; 0x0021])
  ∧ ∃ s',
      execute 0xF024 packed_machine = Ok tt s'
      ∧ stdout s' = stdout packed_machine ++ [0x48; 0x49; 0x21].
Proof.
  assert (length (reg packed_machine) = REG_LEN) as H1 by reflexivity.
  assert (Z.shiftr 0xF024 12 = 15) as H2 by reflexivity.
  assert (Z.land 0xF024 0xFF = 0x24) as H3 by reflexivity.
  assert (drop (Z.to_nat (get_reg R_R0 packed_machine))
            (memory packed_machine) = [0x4948; 0x0021] ++ 0 :: []) as H4
    by (vm_compute; reflexivity).
  assert (Forall (λ w, w ≠ 0) [0x4948; 0x0021]) as H5
    by (repeat constructor; discriminate).
  split; [exact (conj H1 (conj H2 (conj H3 (conj H4 H5)))) |].
  destruct (putsp_prints_packed_string 0xF024 _ _ packed_machine
              H1 H2 H3 H4 H5) as (s' & E & Ho & _).
  exists s'. exact (conj E Ho).
Defined.

(** X24: TRAP x20 (GETC) takes the next typed byte, stores it zero-extended
    in R0 and prints nothing.  With nothing typed it waits, R7 already
    overwritten with the PC. *)
Theorem getc_reads_one_byte (instr : Z) (s : state) :
  length (reg s) = REG_LEN →
  Z.shiftr instr 12 = 15 → Z.land instr 0xFF = 0x20 →
  (∀ b rest, stdin s = b :: rest → 0 ≤ b < 256 →
     ∃ s',
       execute instr s = Ok tt s'
       ∧ get_reg R_R0 s' = b ∧ stdin s' = rest
       ∧ stdout s' = stdout s ∧ memory s' = memory s
       ∧ running s' = running s
       ∧ get_reg R_R7 s' = get_reg R_PC s)
  ∧ (stdin s = [] →
     execute instr s
     = Fault InputBlocked (set_reg R_R7 (get_reg R_PC s) s)).
Proof.
  intros Hlen Hop Hv. split.
  - intros b rest Hin Hb. eexists.
    split; [exact (exec_getc s Hlen instr b rest Hop Hv Hin) |].
    split.
    { rewrite get_reg_set_eq
        by (cbn [reg with_stdin]; rewrite length_reg_set; reg_idx).
      unfold u16. apply Z.mod_small. lia. }
    do 4 (split; [reflexivity |]).
    rewrite get_reg_set_ne by (unfold R_R0, R_R7; lia).
    change (get_reg R_R7 (with_stdin rest (set_reg R_R7 (get_reg R_PC s) s)))
      with (get_reg R_R7 (set_reg R_R7 (get_reg R_PC s) s)).
    apply get_reg_set_eq. reg_idx.
  - intros Hin. exact (exec_getc_blocked s Hlen instr Hop Hv Hin).
Qed.

(** Witness of X25: the key 'A'. *)
Lemma getc_reads_one_byte_witness :
  (length (reg key_machine) = REG_LEN
   ∧ Z.shiftr 0xF020 12 = 15 ∧ Z.land 0xF020 0xFF = 0x20
   ∧ stdin key_machine = [65] ∧ 0 ≤ 65 < 256)
  ∧ ∃ s',
      execute 0xF020 key_machine = Ok tt s'
      ∧ get_reg R_R0 s' = 65 ∧ stdin s' = [].
Proof.
  assert (length (reg key_machine) = REG_LEN) as H1 by reflexivity.
  assert (Z.shiftr 0xF020 12 = 15) as H2 by reflexivity.
  assert (Z.land 0xF020 0xFF = 0x20) as H3 by reflexivity.
  assert (stdin key_machine = [65]) as H4 by reflexivity.
  assert (0 ≤ 65 < 256) as H5 by lia.
  split; [exact (conj H1 (conj H2 (conj H3 (conj H4 H5)))) |].
  destruct (proj1 (getc_reads_one_byte 0xF020 key_machine H1 H2 H3)
              65 [] H4 H5) as (s' & E & Hr & Hi & _).
  exists s'. exact (conj E (conj Hr Hi)).
Defined.

(** X25: TRAP x23 (IN) prints the prompt "Enter a character: ", takes the
    next typed byte, echoes it and stores it in R0 (stated for a 7-bit
    character, where the signedness of [char] plays no part). *)
Theorem in_prompts_and_echoes (instr b : Z) (rest : list Z) (s : state) :
  length (reg s) = REG_LEN →
  Z.shiftr instr 12 = 15 → Z.land instr 0xFF = 0x23 →
  stdin s = b :: rest → 0 ≤ b < 128 →
  ∃ s',
    execute instr s = Ok tt s'
    ∧ get_reg R_R0 s' = b ∧ stdin s' = rest
    ∧ stdout s'
      = stdout s ++ bytes_of_string "Enter a character: " ++ [b]
    ∧ memory s' = memory s ∧ running s' = running s.
Proof.
  intros Hlen Hop Hv Hin Hb. eexists.
  split; [exact (exec_in s Hlen instr b rest Hop Hv Hin) |].
  split.
  { rewrite get_reg_set_eq
      by (cbn [reg]; rewrite length_insert; reg_idx).
    rewrite to_char_ascii by exact Hb. unfold u16. apply Z.mod_small. lia. }
  split; [reflexivity |].
  split; [cbn [stdout set_reg with_reg]; rewrite Z.mod_small by lia;
          reflexivity |].
  split; reflexivity.
Qed.

(** Witness of X26: the key 'A'. *)
Lemma in_prompts_and_echoes_witness :
  (length (reg key_machine) = REG_LEN
   ∧ Z.shiftr 0xF023 12 = 15 ∧ Z.land 0xF023 0xFF = 0x23
   ∧ stdin key_machine = [65] ∧ 0 ≤ 65 < 128)
  ∧ ∃ s',
      execute 0xF023 key_machine = Ok tt s'
      ∧ get_reg R_R0 s' = 65 ∧ stdin s' = []
      ∧ stdout s'
        = stdout key_machine ++ bytes_of_string "Enter a character: "
          ++ [65].
Proof.
  assert (length (reg key_machine) = REG_LEN) as H1 by reflexivity.
  assert (Z.shiftr 0xF023 12 = 15) as H2 by reflexivity.
  assert (Z.land 0xF023 0xFF = 0x23) as H3 by reflexivity.
  assert (stdin key_machine = [65]) as H4 by reflexivity.
  assert (0 ≤ 65 < 128) as H5 by lia.
  split; [exact (conj H1 (conj H2 (conj H3 (conj H4 H5)))) |].
  destruct (in_prompts_and_echoes 0xF023 65 [] key_machine H1 H2 H3 H4 H5)
    as (s' & E & Hr & Hi & Ho & _).
  exists s'. exact (conj E (conj Hr (conj Hi Ho))).
Defined.

(** ** The terminal mode and the ways out of [main] *)

(** X26: [disable_input_buffering] clears exactly the flags ICANON and ECHO
    of the terminal and keeps every other attribute, whatever the values of
    the two constants.  [restore_input_buffering] after it, and the SIGINT
    handler, which exits with status -2, give the terminal the attributes it
    had before. *)
Theorem terminal_mode_round_trip (ICANON ECHO : Z) (p : process) :
  Z.land (c_lflag (tty (disable_input_buffering ICANON ECHO p))) ICANON = 0
  ∧ Z.land (c_lflag (tty (disable_input_buffering ICANON ECHO p))) ECHO = 0
  ∧ (∀ i, 0 ≤ i → Z.testbit ICANON i = false → Z.testbit ECHO i = false →
          Z.testbit (c_lflag (tty (disable_input_buffering ICANON ECHO p))) i
          = Z.testbit (c_lflag (tty p)) i)
  ∧ c_others (tty (disable_input_buffering ICANON ECHO p))
    = c_others (tty p)
  ∧ vm (disable_input_buffering ICANON ECHO p) = vm p
  ∧ tty (restore_input_buffering (disable_input_buffering ICANON ECHO p))
    = tty p
  ∧ (handle_interrupt (disable_input_buffering ICANON ECHO p)).1
    = Exited (-2)
  ∧ tty (handle_interrupt (disable_input_buffering ICANON ECHO p)).2
    = tty p.
Proof.
  cbn [disable_input_buffering tty c_lflag c_others vm
       restore_input_buffering original_tio].
  split; [| split; [| split]].
  - apply Z.bits_inj'; intros i Hi.
    rewrite !Z.land_spec, !Z.lnot_spec, Z.bits_0 by lia.
    destruct (Z.testbit ICANON i); rewrite ?andb_false_r; reflexivity.
  - apply Z.bits_inj'; intros i Hi.
    rewrite !Z.land_spec, !Z.lnot_spec, Z.bits_0 by lia.
    destruct (Z.testbit ECHO i); rewrite ?andb_false_r; reflexivity.
  - intros i Hi HI HE.
    rewrite !Z.land_spec, !Z.lnot_spec, HI, HE by lia.
    apply andb_true_r.
  - repeat split; reflexivity.
Qed.

Lemma load_args_app (fs : string → option (list Z))
    (good rest : list string) (s s1 : state) :
  load_args fs good s = Ok None s1 →
  load_args fs (good ++ rest) s = load_args fs rest s1.
Proof.
  revert s. induction good as [|path good IH]; intros s H.
  - injection H as <-. reflexivity.
  - cbn [app load_args] in *. rewrite bind_unfold in *.
    destruct (read_image fs path s) as [ok s2|e s2]; [| discriminate H].
    destruct (ok =? 0); [discriminate H |]. exact (IH s2 H).
Qed.

(** X27: the two ways [main] ends before running anything.  Without an
    image argument it prints the usage line and exits with status 2.  At the
    first image that cannot be opened it prints the path and exits with
    status 1; the images before it stay loaded, the PC is not set and the
    terminal mode is never changed. *)
Theorem main_ends_before_running (ICANON ECHO : Z)
    (fs : string → option (list Z)) (argv : list string) (fuel : nat)
    (p : process) :
  ((length argv < 2)%nat →
   main_argv ICANON ECHO fs argv fuel p
   = (Exited 2,
      with_vm (with_stdout
                 (stdout (vm p)
                  ++ bytes_of_string ("lc3 [image-file1] ..." ++ newline))
                 (vm p)) p))
  ∧ (∀ prog good bad more s1,
       argv = prog :: good ++ bad :: more →
       load_args fs good (vm p) = Ok None s1 → fs bad = None →
       main_argv ICANON ECHO fs argv fuel p
       = (Exited 1,
          with_vm (with_stdout
                     (stdout s1
                      ++ bytes_of_string
                           ("failed to load image: " ++ bad ++ newline))
                     s1) p)).
Proof.
  split.
  - intros Hshort. unfold main_argv.
    destruct (Nat.ltb_spec (length argv) 2) as [_|Hge]; [| lia].
    reflexivity.
  - intros prog good bad more s1 -> Hgood Hbad. unfold main_argv.
    destruct (Nat.ltb_spec (length (prog :: good ++ bad :: more)) 2)
      as [Hlt|_].
    { cbn [length] in Hlt. rewrite length_app in Hlt. cbn [length] in Hlt.
      lia. }
    cbn [tail]. rewrite (load_args_app fs good _ _ s1 Hgood).
    cbn [load_args]. rewrite bind_unfold. unfold read_image.
    rewrite Hbad. reflexivity.
Qed.

(** Witness of X28: no argument at all, and an argument that names no
    file. *)
Lemma main_ends_before_running_witness :
  ((length ["lc3"%string] < 2)%nat
   ∧ load_args hello_fs [] (vm fresh_process) = Ok None (vm fresh_process)
   ∧ hello_fs "missing.obj" = None)
  ∧ (main_argv 2 8 hello_fs ["lc3"%string] 100 fresh_process).1 = Exited 2
  ∧ (main_argv 2 8 hello_fs ["lc3"; "missing.obj"]%string 100
       fresh_process).1 = Exited 1.
Proof.
  assert (length ["lc3"%string] < 2)%nat as H1 by (cbn; lia).
  assert (load_args hello_fs [] (vm fresh_process)
          = Ok None (vm fresh_process)) as H2 by reflexivity.
  assert (hello_fs "missing.obj" = None) as H3 by reflexivity.
  split; [exact (conj H1 (conj H2 H3)) |].
  split.
  - rewrite (proj1 (main_ends_before_running 2 8 hello_fs ["lc3"%string] 100
                      fresh_process) H1).
    reflexivity.
  - rewrite (proj2 (main_ends_before_running 2 8 hello_fs
                      ["lc3"; "missing.obj"]%string 100 fresh_process)
               "lc3"%string [] "missing.obj"%string [] (vm fresh_process)
               eq_refl H2 H3).
    reflexivity.
Defined.

(** X28: which exits restore the terminal.  Whenever [main] ends by an
    exit (status 0 after HALT, 1 or 2 before running), the terminal has the
    attributes it had at the start.  When it ends in [abort()], on an
    illegal opcode, nothing restores the terminal: it is left with ICANON
    and ECHO cleared. *)
Theorem terminal_restored_unless_aborted (ICANON ECHO : Z)
    (fs : string → option (list Z)) (argv : list string) (fuel : nat)
    (p p' : process) (e : ending) :
  main_argv ICANON ECHO fs argv fuel p = (e, p') →
  (∀ status, e = Exited status → tty p' = tty p)
  ∧ (e = Aborted → tty p' = tty (disable_input_buffering ICANON ECHO p)).
Proof.
  unfold main_argv. intros H.
  destruct (length argv <? 2)%nat.
  { injection H as <- <-. split; [reflexivity | discriminate]. }
  destruct (load_args fs (tail argv) (vm p)) as [[path|] s|f s].
  - injection H as <- <-. split; [reflexivity | discriminate].
  - cbv zeta in H.
    destruct ((store_reg R_PC PC_START;; set_running true;; run fuel)
                (vm (disable_input_buffering ICANON ECHO (with_vm s p))))
      as [[] s'|f s'].
    + destruct (running s'); injection H as <- <-;
        (split; [| discriminate]).
      * discriminate.
      * reflexivity.
    + destruct f; injection H as <- <-;
        (split; [discriminate |]); (reflexivity || discriminate).
  - injection H as <- <-. split; discriminate.
Qed.

(** Witness of X29: the run of "hello.obj" ends with status 0 and the
    terminal restored; the run of "bad.obj" aborts with the terminal left
    in raw mode. *)
Lemma terminal_restored_unless_aborted_witness :
  ((main_argv 2 8 hello_fs ["lc3"; "hello.obj"]%string 100 fresh_process).1
   = Exited 0
   ∧ (main_argv 2 8 bad_fs ["lc3"; "bad.obj"]%string 100 fresh_process).1
     = Aborted)
  ∧ tty (main_argv 2 8 hello_fs ["lc3"; "hello.obj"]%string 100
           fresh_process).2 = tty fresh_process
  ∧ tty (main_argv 2 8 bad_fs ["lc3"; "bad.obj"]%string 100
           fresh_process).2
    = tty (disable_input_buffering 2 8 fresh_process).
Proof.
  assert ((main_argv 2 8 hello_fs ["lc3"; "hello.obj"]%string 100
             fresh_process).1 = Exited 0) as H1 by (vm_compute; reflexivity).
  assert ((main_argv 2 8 bad_fs ["lc3"; "bad.obj"]%string 100
             fresh_process).1 = Aborted) as H2 by (vm_compute; reflexivity).
  split; [exact (conj H1 H2) |].
  split.
  - exact (proj1 (terminal_restored_unless_aborted 2 8 hello_fs
                    ["lc3"; "hello.obj"]%string 100 fresh_process _ _
                    (surjective_pairing _)) 0 H1).
  - exact (proj2 (terminal_restored_unless_aborted 2 8 bad_fs
                    ["lc3"; "bad.obj"]%string 100 fresh_process _ _
                    (surjective_pairing _)) H2).
Defined.

(** The two arrays never change size.  From the start of [main]
    through the loader and every cycle of the loop, [memory] has 65535
    cells and [reg] has 10. *)
Theorem arrays_keep_their_length (files : list (list Z)) (input : list Z)
    (s0 s : state) :
  main_setup files (power_on input) = Ok tt s0 → reachable s0 s →
  length (memory s) = Z.to_nat 65535 ∧ length (reg s) = Z.to_nat 10.
Proof.
  intros H0 Hr.
  exact (wf_reachable s0 s (wf_main_setup files input s0 H0) Hr).
Qed.

(** Witness of X30. *)
Lemma arrays_keep_their_length_witness :
  (main_setup [] (power_on []) = Ok tt idle_machine
   ∧ reachable idle_machine idle_machine)
  ∧ length (memory idle_machine) = Z.to_nat 65535
  ∧ length (reg idle_machine) = Z.to_nat 10.
Proof.
  assert (reachable idle_machine idle_machine) as Hr by apply reach_entry.
  split; [exact (conj main_setup_idle Hr) |].
  exact (arrays_keep_their_length [] [] idle_machine idle_machine
           main_setup_idle Hr).
Defined.
